(** * Database-Migration: the record-transfer routine of [app.py]

    A shallow embedding of [convert_date], [fake_description], [fake_date],
    [transfer_data] and the view [upload_file] that calls it, together with
    the parts of their environment they talk to: the legacy SQLite file
    read through [sqlite3], the destination store written through a
    SQLAlchemy session, the clock, the random generator, the logger and
    the request.

    Conventions.
    - A Python value read from SQLite or held in an attribute of a model
      object is a [value].  A [str] is modelled by the [string] of its
      UTF-8 encoding, the form in which SQLite holds it; a character of
      the [str] is one to four characters of the [string].
    - The functions of the libraries that this repository does not
      contain and that are not written out here are variables of the
      section that holds the routine: [float] of a text, the table of
      decimal digits of the Unicode database, the readings of SQLite
      between text and numbers, [basedir] and [secure_filename].
    - Effects are threaded explicitly: a computation of type [M A] takes
      the [world] and gives an outcome (a value or a raised exception), the
      world it leaves behind and the events it produced, in order.  The
      world is kept when an exception is raised, as in Python. *)

From Stdlib Require Import ZArith List String Ascii Bool Lia.
From Stdlib Require Import DecimalString.
From Stdlib Require Import Floats.SpecFloat.
Import ListNotations.

Local Open Scope string_scope.
Local Open Scope list_scope.
Local Open Scope Z_scope.

Set Implicit Arguments.

(** ** Exceptions *)

(** The exception classes the routine can meet.  Every one of them derives
    from [Exception]. *)
Inductive exn : Type :=
| Sqlite3OperationalError   (* sqlite3.OperationalError: no such table, unable to open *)
| Sqlite3DatabaseError      (* sqlite3.DatabaseError: file is not a database *)
| IntegrityError            (* sqlalchemy.exc.IntegrityError *)
| StatementError            (* sqlalchemy.exc.StatementError *)
| ValueError
| TypeError
| IndexError
| OverflowError.

(** ** Calendar dates ([datetime.date]) *)

Module PyDate.

(** A [datetime.date], identified by its proleptic Gregorian ordinal
    ([date.toordinal()]: 0001-01-01 is day 1). *)
Record date : Type := Date { toordinal : Z }.

Definition MINYEAR : Z := 1.
Definition MAXYEAR : Z := 9999.

(* datetime.py: _is_leap *)
Definition is_leap (year : Z) : bool :=
  (year mod 4 =? 0) && (negb (year mod 100 =? 0) || (year mod 400 =? 0)).

(* datetime.py: _days_before_year *)
Definition days_before_year (year : Z) : Z :=
  let y := year - 1 in y * 365 + y / 4 - y / 100 + y / 400.

(* datetime.py: _DAYS_IN_MONTH and _days_in_month *)
Definition days_in_month (year month : Z) : Z :=
  if (month =? 2) && is_leap year then 29
  else match month with
       | 1 => 31 | 2 => 28 | 3 => 31 | 4 => 30 | 5 => 31 | 6 => 30
       | 7 => 31 | 8 => 31 | 9 => 30 | 10 => 31 | 11 => 30 | 12 => 31
       | _ => 0
       end.

(* datetime.py: _DAYS_BEFORE_MONTH and _days_before_month *)
Definition days_before_month (year month : Z) : Z :=
  match month with
  | 1 => 0 | 2 => 31 | 3 => 59 | 4 => 90 | 5 => 120 | 6 => 151
  | 7 => 181 | 8 => 212 | 9 => 243 | 10 => 273 | 11 => 304 | 12 => 334
  | _ => 0
  end + (if (2 <? month) && is_leap year then 1 else 0).

(* datetime.py: _ymd2ord *)
Definition ymd2ord (year month day : Z) : Z :=
  days_before_year year + days_before_month year month + day.

(* datetime.py: _check_date_fields; [false] is the ValueError *)
Definition check_date_fields (year month day : Z) : bool :=
  (MINYEAR <=? year) && (year <=? MAXYEAR)
  && (1 <=? month) && (month <=? 12)
  && (1 <=? day) && (day <=? days_in_month year month).

(* date(year, month, day) *)
Definition make (year month day : Z) : option date :=
  if check_date_fields year month day
  then Some (Date (ymd2ord year month day))
  else None.

(* date + timedelta(days=n) *)
Definition add_days (d : date) (n : Z) : date := Date (toordinal d + n).

End PyDate.

Abbreviation date := PyDate.date.

(** ** [datetime.strptime(s, '%Y-%m-%d')]

    [_strptime] compiles the format to the regular expression
    [(?P<Y>\d\d\d\d)-(?P<m>1[0-2]|0[1-9]|[1-9])-(?P<d>3[0-1]|[1-2]\d|0[1-9]|[1-9]| [1-9])],
    matches it at the start of the string, raises [ValueError] when it does
    not match or when the match stops before the end of the string
    ("unconverted data remains"), converts the three groups with [int] and
    builds the date, which raises [ValueError] for a day that the month
    does not have and for year 0.

    The pattern is a [str] pattern, so [\d] is every decimal digit of
    Unicode (category Nd) and [int] reads every one of them; the classes
    written with brackets hold ASCII digits only.  [\d] occurs at the
    four digits of the year and at the second digit of a day from 10 to
    29.

    The alternatives of a group are tried in the order written.  An earlier
    alternative of [m] that matches is never abandoned for a later one with
    a different outcome (after [1[0-2]] or [0[1-9]] the shorter [[1-9]] would
    leave a digit where [-] is required), and [d] is the last item of the
    pattern, so trying them in order without backtracking is the match. *)

Module Strptime.

Definition chars := list ascii.

(** What a piece of the pattern reads off the head of a text: a number
    and the rest of the text. *)
Definition parser : Type := chars -> option (Z * chars).

Definition byte (c : ascii) : Z := Z.of_nat (nat_of_ascii c).

(** An ASCII digit and its value. *)
Definition ascii_digit (c : ascii) : option Z :=
  let n := byte c in
  if (48 <=? n) && (n <=? 57) then Some (n - 48) else None.

(** A class [[lo-hi]] of ASCII digits. *)
Definition in_range (lo hi : Z) : parser := fun s =>
  match s with
  | c :: rest =>
      match ascii_digit c with
      | Some v => if (lo <=? v) && (v <=? hi) then Some (v, rest) else None
      | None => None
      end
  | [] => None
  end.

(** the space of the alternative [ [1-9]]; [int] ignores it *)
Definition blank : parser := fun s =>
  match s with
  | c :: rest => if Ascii.eqb c " "%char then Some (0, rest) else None
  | [] => None
  end.

(** One more byte of a UTF-8 sequence: six bits after the bits read. *)
Definition tail_byte (x : option (Z * chars)) : option (Z * chars) :=
  match x with
  | Some (n, c :: rest) =>
      let b := byte c in
      if (128 <=? b) && (b <? 192) then Some (n * 64 + (b - 128), rest) else None
  | _ => None
  end.

(** The code point of the character at the head of a text. *)
Definition code_point : parser := fun s =>
  match s with
  | [] => None
  | c :: rest =>
      let b := byte c in
      if b <? 128 then Some (b, rest)
      else if b <? 192 then None
      else if b <? 224 then tail_byte (Some (b - 192, rest))
      else if b <? 240 then tail_byte (tail_byte (Some (b - 224, rest)))
      else if b <? 248 then tail_byte (tail_byte (tail_byte (Some (b - 240, rest))))
      else None
  end.

Definition orelse {A} (x y : option A) : option A :=
  match x with Some _ => x | None => y end.

(** one alternative made of two items: the number of the two digits *)
Definition two (p q : parser) : parser := fun s =>
  match p s with
  | Some (va, s1) =>
      match q s1 with
      | Some (vb, s2) => Some (va * 10 + vb, s2)
      | None => None
      end
  | None => None
  end.

(** (?P<m>1[0-2]|0[1-9]|[1-9]) *)
Definition group_m : parser := fun s =>
  orelse (two (in_range 1 1) (in_range 0 2) s)
 (orelse (two (in_range 0 0) (in_range 1 9) s)
         (in_range 1 9 s)).

(** the literal [-] of the format *)
Definition hyphen (s : chars) : option chars :=
  match s with
  | c :: rest => if Ascii.eqb c "-"%char then Some rest else None
  | [] => None
  end.

Section Digits.

(** The value of a code point above ASCII that is a decimal digit
    ([Py_UNICODE_TODECIMAL] of the interpreter's Unicode database);
    [None] for every other code point. *)
Variable decimal : Z -> option Z.

(** [\d]: an ASCII digit, or a character above ASCII that is a decimal
    digit *)
Definition digit : parser := fun s =>
  orelse (in_range 0 9 s)
         (match code_point s with
          | Some (n, rest) =>
              if 128 <=? n then
                match decimal n with
                | Some v => Some (v, rest)
                | None => None
                end
              else None
          | None => None
          end).

(** (?P<Y>\d\d\d\d) *)
Definition group_Y : parser := fun s =>
  match digit s with
  | Some (va, s1) =>
      match digit s1 with
      | Some (vb, s2) =>
          match digit s2 with
          | Some (vc, s3) =>
              match digit s3 with
              | Some (vd, s4) => Some (va * 1000 + vb * 100 + vc * 10 + vd, s4)
              | None => None
              end
          | None => None
          end
      | None => None
      end
  | None => None
  end.

(** (?P<d>3[0-1]|[1-2]\d|0[1-9]|[1-9]| [1-9]) *)
Definition group_d : parser := fun s =>
  orelse (two (in_range 3 3) (in_range 0 1) s)
 (orelse (two (in_range 1 2) digit s)
 (orelse (two (in_range 0 0) (in_range 1 9) s)
 (orelse (in_range 1 9 s)
         (two blank (in_range 1 9) s)))).

(** The match of the whole pattern: the three numbers and what is left
    of the string after the match. *)
Definition regex_match (s : chars) : option (Z * Z * Z * chars) :=
  match group_Y s with
  | Some (y, s1) =>
      match hyphen s1 with
      | Some s2 =>
          match group_m s2 with
          | Some (m, s3) =>
              match hyphen s3 with
              | Some s4 =>
                  match group_d s4 with
                  | Some (d, s5) => Some (y, m, d, s5)
                  | None => None
                  end
              | None => None
              end
          | None => None
          end
      | None => None
      end
  | None => None
  end.

(** [datetime.strptime(s, '%Y-%m-%d').date()]; [None] is the ValueError. *)
Definition strptime_date (s : string) : option date :=
  match regex_match (list_ascii_of_string s) with
  | Some (y, m, d, []) => PyDate.make y m d
  | Some (_, _, _, _ :: _) => None      (* unconverted data remains *)
  | None => None                        (* does not match format *)
  end.

End Digits.

End Strptime.

(** ** Python values *)

Inductive value : Type :=
| PyNone
| PyInt (z : Z)
| PyFloat (f : spec_float)
| PyStr (s : string)
| PyBytes (s : string)
| PyDate (d : date).

Definition isinstance_str (v : value) : bool :=
  match v with PyStr _ => true | _ => false end.

Definition isinstance_date (v : value) : bool :=
  match v with PyDate _ => true | _ => false end.

(** ** The helpers of [app.py] *)

(** [fake_description] (app.py, lines 115-116). *)
Definition fake_description : value :=
  PyStr "This is a sample description generated during data migration.".

(** ** Coercions: [bool(x)] and [float(x)] *)

(** [bool(x)]: the truth value of a Python object. *)
Definition py_bool (v : value) : bool :=
  match v with
  | PyNone => false
  | PyInt z => negb (z =? 0)
  | PyFloat (S754_zero _) => false
  | PyFloat _ => true
  | PyStr s | PyBytes s => negb (String.eqb s EmptyString)
  | PyDate _ => true
  end.

(** [float(n)] for an integer: the nearest double, ties to even, and
    [OverflowError] when [n] is too large for a double. *)
Definition float_of_int (z : Z) : exn + spec_float :=
  match binary_normalize 53 1024 z 0 false with
  | S754_infinity _ => inl OverflowError
  | f => inr f
  end.

Section Coercion.

(** [float(s)] for text: CPython's decimal-string parser, which this
    repository does not contain; [None] is its [ValueError]. *)
Variable float_of_str : string -> option spec_float.

(** [float(x)] *)
Definition py_float (v : value) : exn + spec_float :=
  match v with
  | PyNone => inl TypeError
  | PyInt z => float_of_int z
  | PyFloat f => inr f
  | PyStr s | PyBytes s =>
      match float_of_str s with
      | Some f => inr f
      | None => inl ValueError
      end
  | PyDate _ => inl TypeError
  end.

End Coercion.

(** ** Equality of values *)

Definition spec_float_eq_dec (a b : spec_float) : {a = b} + {a <> b}.
Proof.
  decide equality; first [apply Bool.bool_dec | apply Pos.eq_dec | apply Z.eq_dec].
Defined.

Definition value_eq_dec (a b : value) : {a = b} + {a <> b}.
Proof.
  decide equality;
    first [apply Z.eq_dec | apply spec_float_eq_dec | apply string_dec
          | (decide equality; apply Z.eq_dec)].
Defined.

Definition value_eqb (a b : value) : bool :=
  if value_eq_dec a b then true else false.

Definition is_none (v : value) : bool :=
  match v with PyNone => true | _ => false end.

(** SQL equality as a UNIQUE constraint uses it: NULL equals nothing. *)
Definition sql_eqb (a b : value) : bool :=
  negb (is_none a) && negb (is_none b) && value_eqb a b.

(** ** The models (app.py, lines 38-106)

    An object of a model class holds the attribute values it was
    constructed with, and a row of a table the values of its columns.
    Attributes that the routine always fills with a [bool] or a [date]
    of its own making have that type. *)

Module Staff.
Record t : Type := Build {
  id : value;
  name : value;
  email : value;
  leave_days_remaining : value;
  is_team_leader : bool;
  receive_notifications : bool
}.
Definition with_id (i : value) (s : t) : t :=
  Build i (name s) (email s) (leave_days_remaining s)
        (is_team_leader s) (receive_notifications s).
End Staff.

Module Engagement.
Record t : Type := Build {
  id : value;
  name : value;
  description : value;
  start_date : date;
  end_date : date;
  team_leader_id : value;
  status : value
}.
Definition with_id (i : value) (e : t) : t :=
  Build i (name e) (description e) (start_date e) (end_date e)
        (team_leader_id e) (status e).
End Engagement.

Module Proposal.
Record t : Type := Build {
  id : value;
  name : value;
  description : value;
  due_date : date;
  team_leader_id : value;
  status : value
}.
Definition with_id (i : value) (p : t) : t :=
  Build i (name p) (description p) (due_date p) (team_leader_id p) (status p).
End Proposal.

Module NonBillable.
Record t : Type := Build {
  id : value;
  name : value
}.
Definition with_id (i : value) (n : t) : t := Build i (name n).
End NonBillable.

Module HoursLog.
Record t : Type := Build {
  id : value;
  staff_id : value;
  category : value;
  item_id : value;
  hours : value;
  date : value
}.
Definition with_id (i : value) (h : t) : t :=
  Build i (staff_id h) (category h) (item_id h) (hours h) (date h).
End HoursLog.

Module LeaveRecord.
Record t : Type := Build {
  id : value;
  staff_id : value;
  date : value
}.
Definition with_id (i : value) (l : t) : t := Build i (staff_id l) (date l).
End LeaveRecord.

Module Utilization.
Record t : Type := Build {
  id : value;
  staff_id : value;
  week_start : value;
  client_utilization_year_to_date : value;
  client_utilization_month_to_date : value;
  resource_utilization_year_to_date : value;
  resource_utilization_month_to_date : value
}.
Definition with_id (i : value) (u : t) : t :=
  Build i (staff_id u) (week_start u)
        (client_utilization_year_to_date u) (client_utilization_month_to_date u)
        (resource_utilization_year_to_date u) (resource_utilization_month_to_date u).
End Utilization.

(** The seven tables, under their [__tablename__]. *)
Inductive table : Type :=
| staff | engagement | proposal | non_billable | hours_log | leave_record | utilization.

(** An object handed to [db.session.add]. *)
Inductive obj : Type :=
| OStaff (s : Staff.t)
| OEngagement (e : Engagement.t)
| OProposal (p : Proposal.t)
| ONonBillable (n : NonBillable.t)
| OHoursLog (h : HoursLog.t)
| OLeaveRecord (l : LeaveRecord.t)
| OUtilization (u : Utilization.t).

Definition table_of (o : obj) : table :=
  match o with
  | OStaff _ => staff
  | OEngagement _ => engagement
  | OProposal _ => proposal
  | ONonBillable _ => non_billable
  | OHoursLog _ => hours_log
  | OLeaveRecord _ => leave_record
  | OUtilization _ => utilization
  end.

(** The tables whose rows hold a foreign key to [staff.id]. *)
Definition dependent (t : table) : bool :=
  match t with
  | engagement | proposal | hours_log | leave_record | utilization => true
  | staff | non_billable => false
  end.

(** Equality of tables. *)
Definition table_eqb (a b : table) : bool :=
  match a, b with
  | staff, staff | engagement, engagement | proposal, proposal
  | non_billable, non_billable | hours_log, hours_log
  | leave_record, leave_record | utilization, utilization => true
  | _, _ => false
  end.

(** ** The destination store

    The content of [new_database.db]: the rows of each table, in the
    order of insertion, each with the values its columns hold.  A [date]
    stands for the ISO text that SQLAlchemy stores for it, and a [bool]
    for the 0 or 1.  SQLite does not enforce foreign keys unless asked to,
    and [app.py] does not ask. *)

Record database : Type := Database {
  staff_rows : list Staff.t;
  engagement_rows : list Engagement.t;
  proposal_rows : list Proposal.t;
  non_billable_rows : list NonBillable.t;
  hours_log_rows : list HoursLog.t;
  leave_record_rows : list LeaveRecord.t;
  utilization_rows : list Utilization.t
}.

Definition empty_database : database := Database [] [] [] [] [] [] [].

(** [DELETE FROM t] *)
Definition delete_from (t : table) (d : database) : database :=
  match t with
  | staff =>
      Database [] (engagement_rows d) (proposal_rows d) (non_billable_rows d)
               (hours_log_rows d) (leave_record_rows d) (utilization_rows d)
  | engagement =>
      Database (staff_rows d) [] (proposal_rows d) (non_billable_rows d)
               (hours_log_rows d) (leave_record_rows d) (utilization_rows d)
  | proposal =>
      Database (staff_rows d) (engagement_rows d) [] (non_billable_rows d)
               (hours_log_rows d) (leave_record_rows d) (utilization_rows d)
  | non_billable =>
      Database (staff_rows d) (engagement_rows d) (proposal_rows d) []
               (hours_log_rows d) (leave_record_rows d) (utilization_rows d)
  | hours_log =>
      Database (staff_rows d) (engagement_rows d) (proposal_rows d) (non_billable_rows d)
               [] (leave_record_rows d) (utilization_rows d)
  | leave_record =>
      Database (staff_rows d) (engagement_rows d) (proposal_rows d) (non_billable_rows d)
               (hours_log_rows d) [] (utilization_rows d)
  | utilization =>
      Database (staff_rows d) (engagement_rows d) (proposal_rows d) (non_billable_rows d)
               (hours_log_rows d) (leave_record_rows d) []
  end.

(** *** Constraints checked when a row is written *)

Definition bindE {A B} (x : exn + A) (f : A -> exn + B) : exn + B :=
  match x with inl e => inl e | inr a => f a end.

Notation "x <-' m ; k" := (bindE m (fun x => k))
  (at level 61, m at next level, right associativity).
Notation "'check' m ; k" := (bindE m (fun _ : unit => k))
  (at level 61, m at next level, right associativity).

Definition require (b : bool) (e : exn) : exn + unit :=
  if b then inr tt else inl e.

(** [nullable=False] *)
Definition not_null (v : value) : exn + unit :=
  require (negb (is_none v)) IntegrityError.

(** A [db.Date] column: SQLAlchemy's SQLite date type binds [None] and
    [date] objects and refuses anything else ("SQLite Date type only
    accepts Python date objects as input"), before the statement runs. *)
Definition date_param (v : value) : exn + unit :=
  match v with
  | PyNone | PyDate _ => inr tt
  | _ => inl StatementError
  end.

(** The largest integer key in use. *)
Fixpoint max_rowid (ids : list value) : option Z :=
  match ids with
  | [] => None
  | PyInt z :: rest =>
      match max_rowid rest with
      | Some m => Some (Z.max z m)
      | None => Some z
      end
  | _ :: rest => max_rowid rest
  end.

(** *** Numbers as SQLite converts them

    SQLite converts a value on its way into a column by the type affinity
    of the column: a column declared [Integer] takes the integer that a
    real or a text denotes, a column declared [String] or [Text] takes the
    text of a number. *)

(** A number as SQLite reads it from a text. *)
Inductive number : Type :=
| Integer (z : Z)
| Real (f : spec_float).

(** The integer that a real is, when it is one and lies strictly between
    the least and the largest 64-bit integer ([sqlite3VdbeIntegerAffinity]). *)
Definition integer_of_float (f : spec_float) : option Z :=
  match f with
  | S754_zero _ => Some 0
  | S754_finite s m e =>
      let magnitude :=
        if 0 <=? e then Some (Z.pos m * 2 ^ e)
        else if Z.pos m mod 2 ^ (- e) =? 0 then Some (Z.pos m / 2 ^ (- e))
        else None in
      match magnitude with
      | Some n =>
          let z := if s then - n else n in
          if (- 2 ^ 63 <? z) && (z <? 2 ^ 63 - 1) then Some z else None
      | None => None
      end
  | S754_infinity _ | S754_nan => None
  end.

(** The text of an integer: its decimal digits, after a minus sign when
    it is negative. *)
Definition text_of_integer (z : Z) : string := NilZero.string_of_int (Z.to_int z).

(** ** The legacy source *)

(** A row as [sqlite3] returns it: the column values in column order,
    each [None], an [int], a [float] (never NaN, which SQLite does not
    store), a [str] or [bytes]. *)
Definition row : Type := list value.

(** The tables of a legacy database file: [None] for a table the file
    does not have, otherwise its rows in scan order. *)
Definition legacy_db : Type := table -> option (list row).

(** What a path of the file system leads to.  A 0-byte file is an SQLite
    database without any table. *)
Inductive fs_entry : Type :=
| Missing                          (* nothing at this path *)
| Unopenable                       (* exists, cannot be opened as a file: a directory *)
| NotADatabase                     (* a file that is not an SQLite database *)
| SqliteFile (tables : legacy_db).

Definition zero_byte_file : fs_entry := SqliteFile (fun _ => None).

(** ** The world *)

Record world : Type := World {
  fs : string -> fs_entry;
  clock : nat -> date;            (* what successive calls of datetime.now().date() give *)
  clock_reads : nat;
  entropy : nat -> nat;           (* what the generator behind the [random] module draws *)
  draws : nat;
  open_connections : nat;         (* sqlite3 connections opened and not closed *)
  committed : database;           (* new_database.db, as committed *)
  transaction : option database;  (* the store as the open transaction of db.session sees it *)
  pending : list obj              (* objects added to db.session and not flushed *)
}.

Definition set_clock_reads (n : nat) (w : world) : world :=
  World (fs w) (clock w) n (entropy w) (draws w) (open_connections w)
        (committed w) (transaction w) (pending w).
Definition set_draws (n : nat) (w : world) : world :=
  World (fs w) (clock w) (clock_reads w) (entropy w) n (open_connections w)
        (committed w) (transaction w) (pending w).
Definition set_open_connections (n : nat) (w : world) : world :=
  World (fs w) (clock w) (clock_reads w) (entropy w) (draws w) n
        (committed w) (transaction w) (pending w).
Definition set_session (c : database) (t : option database) (p : list obj) (w : world)
  : world :=
  World (fs w) (clock w) (clock_reads w) (entropy w) (draws w) (open_connections w) c t p.

(** The world in which a 0-byte file has been created at [path]. *)
Definition create_file (path : string) (w : world) : world :=
  World (fun p => if String.eqb p path then zero_byte_file else fs w p)
        (clock w) (clock_reads w) (entropy w) (draws w) (open_connections w)
        (committed w) (transaction w) (pending w).

(** The store as [db.session] sees it. *)
Definition view (w : world) : database :=
  match transaction w with Some d => d | None => committed w end.

(** [db.session] is scoped to the request: the call of [transfer_data]
    from [upload_file] finds a session without transaction and without
    pending objects. *)
Definition new_session (w : world) : world :=
  set_session (committed w) None [] w.

(** ** Events *)

Inductive level : Type := INFO | WARNING | ERROR.

(** The messages of [transfer_data], by the line that logs them. *)
Inductive message : Type :=
| Starting (old_db_path : string)             (* "Starting data transfer from ..." *)
| NotFound (old_db_path : string)             (* "Old database not found at ..." *)
| Clearing                                    (* "Clearing existing data from all tables" *)
| Transferring (t : table)                    (* "Transferring ... data" *)
| Transferred (n : nat) (t : table)           (* "Transferred n ... records" *)
| SkippingDuplicate (staff_id on : value)     (* "Skipping duplicate leave record for staff ... on ..." *)
| Completed                                   (* "Data transfer completed successfully" *)
| SqliteOperationalError (e : exn)            (* "SQLite Operational Error: ..." *)
| IntegrityErrorMsg (e : exn)                 (* "Integrity Error: ..." *)
| Unexpected (e : exn).                       (* "An unexpected error occurred: ..." *)

Inductive event : Type :=
| Log (l : level) (m : message)
| Connect (path : string)       (* sqlite3.connect *)
| Close                         (* old_conn.close() *)
| Execute (t : table)           (* old_cursor.execute("SELECT * FROM t") *)
| BeginNested                   (* db.session.begin_nested() *)
| Delete (t : table)            (* Model.query.delete() *)
| Add (o : obj)                 (* db.session.add(o) *)
| Flush                         (* db.session.flush() *)
| Commit                        (* db.session.commit() *)
| Rollback.                     (* db.session.rollback() *)

(** ** Computations *)

Inductive outcome (A : Type) : Type :=
| Returned (a : A)
| Raised (e : exn).
Arguments Raised {A} e.

Record result (A : Type) : Type := Result {
  out : outcome A;
  after : world;
  events : list event
}.

Definition M (A : Type) : Type := world -> result A.

Definition ret {A} (a : A) : M A := fun w => Result (Returned a) w [].

Definition raise {A} (e : exn) : M A := fun w => Result (Raised e) w [].

Definition bind {A B} (m : M A) (f : A -> M B) : M B := fun w =>
  let r := m w in
  match out r with
  | Returned a =>
      let r' := f a (after r) in
      Result (out r') (after r') (events r ++ events r')
  | Raised e => Result (Raised e) (after r) (events r)
  end.

Notation "x <- m ;; k" := (bind m (fun x => k))
  (at level 61, m at next level, right associativity).
Notation "m ;; k" := (bind m (fun _ => k))
  (at level 61, right associativity).

(** [try: m  except ...: handler]; a handler re-raises what its clauses
    do not name. *)
Definition try_except {A} (m : M A) (handler : exn -> M A) : M A := fun w =>
  let r := m w in
  match out r with
  | Returned _ => r
  | Raised e =>
      let r' := handler e (after r) in
      Result (out r') (after r') (events r ++ events r')
  end.

(** [try: m  finally: fin]; [fin] runs whatever [m] did, and the outcome of
    [m] stands unless [fin] raises. *)
Definition try_finally {A} (m : M A) (fin : M unit) : M A := fun w =>
  let r := m w in
  let r' := fin (after r) in
  match out r' with
  | Returned _ => Result (out r) (after r') (events r ++ events r')
  | Raised e => Result (Raised e) (after r') (events r ++ events r')
  end.

(** [for x in l: body x] *)
Fixpoint for_each {A} (l : list A) (body : A -> M unit) : M unit :=
  match l with
  | [] => ret tt
  | x :: rest => body x ;; for_each rest body
  end.

(** A loop that updates a local variable. *)
Fixpoint for_each_with {A S} (l : list A) (s : S) (body : S -> A -> M S) : M S :=
  match l with
  | [] => ret s
  | x :: rest => s' <- body s x ;; for_each_with rest s' body
  end.

Definition of_sum {A} (x : exn + A) : M A :=
  match x with inl e => raise e | inr a => ret a end.

(** *** logging *)

Definition logging_info (m : message) : M unit := fun w =>
  Result (Returned tt) w [Log INFO m].
Definition logging_warning (m : message) : M unit := fun w =>
  Result (Returned tt) w [Log WARNING m].
Definition logging_error (m : message) : M unit := fun w =>
  Result (Returned tt) w [Log ERROR m].

(** *** os.path, sqlite3 *)

Definition os_path_exists (path : string) : M bool := fun w =>
  Result (Returned (match fs w path with Missing => false | _ => true end)) w [].

(** An open connection with its cursor: what it reads. *)
Inductive connection : Type :=
| Connection (content : option legacy_db).

(** [sqlite3.connect(path)]: a file is opened without being read, so a
    file that is no database is found out only by the first statement; a
    directory cannot be opened; where there is nothing, SQLite creates an
    empty file. *)
Definition sqlite3_connect (path : string) : M connection := fun w =>
  match fs w path with
  | Missing =>
      Result (Returned (Connection (Some (fun _ => None))))
             (set_open_connections (S (open_connections w)) (create_file path w))
             [Connect path]
  | Unopenable => Result (Raised Sqlite3OperationalError) w []
  | NotADatabase =>
      Result (Returned (Connection None))
             (set_open_connections (S (open_connections w)) w) [Connect path]
  | SqliteFile tables =>
      Result (Returned (Connection (Some tables)))
             (set_open_connections (S (open_connections w)) w) [Connect path]
  end.

(** [old_conn.close()] *)
Definition close (c : connection) : M unit := fun w =>
  Result (Returned tt) (set_open_connections (Nat.pred (open_connections w)) w) [Close].

(** What [SELECT * FROM t] finds through a connection. *)
Definition fetch (c : connection) (t : table) : exn + list row :=
  match c with
  | Connection None => inl Sqlite3DatabaseError          (* file is not a database *)
  | Connection (Some tables) =>
      match tables t with
      | None => inl Sqlite3OperationalError               (* no such table *)
      | Some rows => inr rows
      end
  end.

(** [old_cursor.execute("SELECT * FROM t")] followed by
    [old_cursor.fetchall()] *)
Definition select_all (c : connection) (t : table) : M (list row) := fun w =>
  match fetch c t with
  | inl e => Result (Raised e) w [Execute t]
  | inr rows => Result (Returned rows) w [Execute t]
  end.

(** *** datetime, random *)

(** [datetime.now().date()] *)
Definition today : M date := fun w =>
  Result (Returned (clock w (clock_reads w))) (set_clock_reads (S (clock_reads w)) w) [].

(** [random.randint(a, b)]: an integer [n] with [a <= n <= b], picked by
    the next draw of the generator. *)
Definition randint (a b : Z) : M Z := fun w =>
  Result (Returned (a + Z.of_nat (entropy w (draws w)) mod (b - a + 1)))
         (set_draws (S (draws w)) w) [].

(** [fake_date] (app.py, lines 119-120):
<<
def fake_date():
    return datetime.now().date() + timedelta(days=random.randint(1, 365))
>>
    The clock is taken to be more than a year before [date.max], so the
    sum is a date. *)
Definition fake_date : M date :=
  now <- today ;;
  n <- randint 1 365 ;;
  ret (PyDate.add_days now n).

(** *** db.session

    [flush] and [commit], which write to the store, follow the model of
    the store below.  [begin_nested] opens the transaction of the session with a savepoint
    in it; [commit] and [rollback] end the transaction as a whole
    (SQLAlchemy 1.4 and later).  [add] only registers the object: the
    INSERTs are sent by [flush], which [commit] calls first. *)

(** [db.session.begin_nested()] *)
Definition begin_nested : M unit := fun w =>
  Result (Returned tt) (set_session (committed w) (Some (view w)) (pending w) w)
         [BeginNested].

(** [Model.query.delete()] *)
Definition query_delete (t : table) : M unit := fun w =>
  Result (Returned tt)
         (set_session (committed w) (Some (delete_from t (view w))) (pending w) w)
         [Delete t].

(** [db.session.add(o)] *)
Definition session_add (o : obj) : M unit := fun w =>
  Result (Returned tt) (set_session (committed w) (transaction w) (pending w ++ [o]) w)
         [Add o].

(** [db.session.rollback()] *)
Definition session_rollback : M unit := fun w =>
  Result (Returned tt) (set_session (committed w) None [] w) [Rollback].

(** ** The request ([flask], [werkzeug], [os.path])

    What [upload_file] uses of its libraries.  A file of the upload
    folder is written by [file.save] and read back by [sqlite3]; the
    folder itself exists, since line 34 creates it when the module is
    loaded. *)

(** [s.startswith('/')] *)
Definition startswith_sep (s : string) : bool :=
  match s with
  | String c _ => Ascii.eqb c "/"%char
  | EmptyString => false
  end.

(** [s.endswith('/')] *)
Fixpoint endswith_sep (s : string) : bool :=
  match s with
  | EmptyString => false
  | String c rest =>
      match rest with
      | EmptyString => Ascii.eqb c "/"%char
      | String _ _ => endswith_sep rest
      end
  end.

(** [os.path.join(a, b)] of [posixpath]: an absolute [b] stands alone;
    otherwise [b] is appended, after a separator unless [a] is empty or
    ends in one. *)
Definition os_path_join (a b : string) : string :=
  if startswith_sep b then b
  else if String.eqb a EmptyString || endswith_sep a then a ++ b
  else a ++ "/" ++ b.

Module Flask.

(** The bytes of an uploaded file, by what they are once written to a
    file: an SQLite database with its tables (no bytes at all: a database
    without tables) or something else. *)
Inductive upload : Type :=
| NoDatabase
| LegacyDatabase (tables : legacy_db).

Definition as_file (u : upload) : fs_entry :=
  match u with
  | NoDatabase => NotADatabase
  | LegacyDatabase tables => SqliteFile tables
  end.

(** [werkzeug.datastructures.FileStorage]: the name the client gave and
    the bytes. *)
Record FileStorage : Type := File {
  filename : string;
  stream : upload
}.

(** [bool(file)] is [bool(file.filename)]. *)
Definition truth (file : FileStorage) : bool :=
  negb (String.eqb (filename file) EmptyString).

(** [flask.request], of a request within [MAX_CONTENT_LENGTH]: the method
    and the file parts of the form, a multi-dict whose lookup gives the
    first file of a name. *)
Record Request : Type := Build_Request {
  method : string;
  files : list (string * FileStorage)
}.

(** [request.files[key]]; [None] when [key not in request.files]. *)
Fixpoint lookup (key : string) (parts : list (string * FileStorage)) : option FileStorage :=
  match parts with
  | [] => None
  | (k, file) :: rest => if String.eqb k key then Some file else lookup key rest
  end.

(** What a view returns. *)
Inductive response : Type :=
| Text (body : string)                                   (* return '...' *)
| Attachment (download_name : string) (content : database)
                       (* send_file(new_database.db, as_attachment=True, download_name=...) *)
| Template (name : string).                              (* render_template(name) *)

(** What the client gets: the response of the view, or the page of
    status 500 when the view raises. *)
Inductive reply : Type :=
| Response (r : response)
| InternalServerError.

(** The world in which [dst] holds the bytes of [file]. *)
Definition written (file : FileStorage) (dst : string) (w : world) : world :=
  World (fun p => if String.eqb p dst then as_file (stream file) else fs w p)
        (clock w) (clock_reads w) (entropy w) (draws w) (open_connections w)
        (committed w) (transaction w) (pending w).

(** [file.save(dst)]: [open(dst, "wb")] and the copy of the bytes, which
    replaces what the path held.  [None] is the [OSError] of [open]: for
    the empty path, for a path that ends in a separator and for a
    directory. *)
Definition save (file : FileStorage) (dst : string) (w : world) : option world :=
  if String.eqb dst EmptyString || endswith_sep dst then None
  else match fs w dst with
       | Unopenable => None
       | _ => Some (written file dst w)
       end.

(** A request as served: the reply, the world afterwards and the events
    of the transfer. *)
Record served : Type := Served {
  reply_of : reply;
  world_of : world;
  trace : list event
}.

End Flask.

(** ** Concrete sources, for the examples *)

(** A platform whose [float] accepts no text; the runs below hold no text
    in a numeric column. *)
Definition no_text_floats (s : string) : option spec_float := None.

(** The decimal digits above ASCII of six scripts: Arabic-Indic, Extended
    Arabic-Indic, Devanagari, Bengali, Thai and the fullwidth forms.  The
    dates below are written in ASCII and in fullwidth digits. *)
Definition six_scripts (n : Z) : option Z :=
  if (1632 <=? n) && (n <=? 1641) then Some (n - 1632)          (* U+0660 *)
  else if (1776 <=? n) && (n <=? 1785) then Some (n - 1776)     (* U+06F0 *)
  else if (2406 <=? n) && (n <=? 2415) then Some (n - 2406)     (* U+0966 *)
  else if (2534 <=? n) && (n <=? 2543) then Some (n - 2534)     (* U+09E6 *)
  else if (3664 <=? n) && (n <=? 3673) then Some (n - 3664)     (* U+0E50 *)
  else if (65296 <=? n) && (n <=? 65305) then Some (n - 65296)  (* U+FF10 *)
  else None.

(** A reading of text as a number that knows the decimal integers only,
    written with or without a minus sign; the runs below hold no other
    numeric text where SQLite would read one. *)
Definition integer_literals (s : string) : option number :=
  match NilZero.int_of_string s with
  | Some i => Some (Integer (Z.of_int i))
  | None => None
  end.

(** A printing of reals that gives every real the same text; the runs
    below hold no real in a text column. *)
Definition unprinted_reals (f : spec_float) : string := "0.0".

(** A destination store that already holds a row. *)
Definition seeded_store : database :=
  Database [Staff.Build (PyInt 7) (PyStr "Zed") (PyStr "zed@example.org")
                        (PyFloat (S754_zero false)) false true]
           [] [] [] [] [] [].

(** A world with one file, "legacy.db", on 2024-06-01. *)
Definition world_with (entry : fs_entry) : world :=
  World (fun path => if String.eqb path "legacy.db" then entry else Missing)
        (fun _ => PyDate.Date 739038) 0 (fun n => (17 * n + 3)%nat) 0 0
        seeded_store None [].

(** A legacy source with one member of staff and two leave records for
    the same member and day. *)
Definition duplicate_leave_source : legacy_db := fun t =>
  match t with
  | staff =>
      Some [[PyInt 1; PyStr "Ann"; PyStr "ann@example.org"; PyInt 12; PyInt 1; PyInt 1]]
  | leave_record =>
      Some [[PyInt 1; PyInt 1; PyStr "2024-01-01"];
            [PyInt 2; PyInt 1; PyStr "2024-01-01"]]
  | _ => Some []
  end.

(** A legacy source whose tables hold one row each. *)
Definition small_source : legacy_db := fun t =>
  match t with
  | staff =>
      Some [[PyInt 1; PyStr "Ann"; PyStr "ann@example.org"; PyInt 12; PyInt 1; PyInt 0]]
  | engagement => Some [[PyInt 1; PyStr "Audit"; PyInt 1; PyStr "open"]]
  | proposal => Some [[PyInt 1; PyStr "Bid"; PyInt 1; PyStr "draft"]]
  | non_billable => Some [[PyInt 1; PyStr "Admin"]]
  | hours_log =>
      Some [[PyInt 1; PyInt 1; PyStr "engagement"; PyInt 1; PyInt 8; PyStr "2024-03-09"]]
  | leave_record => Some [[PyInt 1; PyInt 1; PyStr "2024-01-01"]]
  | utilization =>
      Some [[PyInt 1; PyInt 1; PyStr "2024-03-04"; PyInt 50; PyInt 60; PyInt 70; PyInt 80]]
  end.


(** [small_source] without its [hours_log] table. *)
Definition source_without_hours_log : legacy_db := fun t =>
  match t with
  | hours_log => None
  | _ => small_source t
  end.

(** [small_source] with the 30th of February as the date of its hours
    log. *)
Definition feb30_source : legacy_db := fun t =>
  match t with
  | hours_log =>
      Some [[PyInt 1; PyInt 1; PyStr "engagement"; PyInt 1; PyInt 8; PyStr "2024-02-30"]]
  | _ => small_source t
  end.

(** A platform whose [float] reads the text "nan" and no other. *)
Definition nan_floats (s : string) : option spec_float :=
  if String.eqb s "nan" then Some S754_nan else None.

(** A legacy source whose only member of staff has a text for id, a
    number for name and the text "nan" for the leave days. *)
Definition untyped_source : legacy_db := fun t =>
  match t with
  | staff =>
      Some [[PyStr "5"; PyInt 7; PyStr "ann@example.org"; PyStr "nan"; PyInt 1; PyInt 0]]
  | _ => Some []
  end.

(** A legacy file whose table [t0] holds [rows]; its other tables are
    empty. *)
Definition source_with (t0 : table) (rows : list row) : legacy_db := fun t =>
  if table_eqb t t0 then Some rows else Some [].

(** A world with the one file "legacy.db", a year after [world_with], with
    other draws of the generator and an empty destination. *)
Definition later_world_with (entry : fs_entry) : world :=
  World (fun path => if String.eqb path "legacy.db" then entry else Missing)
        (fun _ => PyDate.Date 739403) 0 (fun n => (5 * n + 11)%nat) 0 0
        empty_database None [].

(** Whether [c] is a dot or an underscore. *)
Definition dot_or_underscore (c : ascii) : bool :=
  Ascii.eqb c "."%char || Ascii.eqb c "_"%char.

Fixpoint lstrip (s : string) : string :=
  match s with
  | EmptyString => EmptyString
  | String c rest => if dot_or_underscore c then lstrip rest else s
  end.

Fixpoint rstrip (s : string) : string :=
  match s with
  | EmptyString => EmptyString
  | String c rest =>
      match rstrip rest with
      | EmptyString => if dot_or_underscore c then EmptyString else String c EmptyString
      | kept => String c kept
      end
  end.

(** [secure_filename] on a name of ASCII letters, digits, dots, hyphens
    and underscores: such a name only loses its leading and trailing dots
    and underscores. *)
Definition secure_plain_filename (name : string) : string := lstrip (rstrip name).

(** The POST of one file under the name [file]. *)
Definition post (name : string) (bytes : Flask.upload) : Flask.Request :=
  Flask.Build_Request "POST" [("file", Flask.File name bytes)].

Definition is_warning (ev : event) : bool :=
  match ev with Log WARNING _ => true | _ => false end.

(** ** [convert_date], the writes to the store and [transfer_data]
    (app.py, lines 109-112 and 123-283) *)

(** [row[i]] in an expression without other effects. *)
Definition item (r : row) (i : nat) : exn + value :=
  match nth_error r i with
  | Some v => inr v
  | None => inl IndexError
  end.

Section Transfer.

(** [float(s)] for text, as in the section [Coercion]. *)
Variable float_of_str : string -> option spec_float.

(** The value of a code point above ASCII that is a decimal digit, as in
    [Strptime]. *)
Variable decimal_digit : Z -> option Z.

(** The number that SQLite reads from a text that is one, an integer or a
    real, when the text goes into a column that takes numbers
    ([sqlite3AtoF] and [sqlite3Atoi64]); [None] for a text that is no
    number. *)
Variable numeric_of_text : string -> option number.

(** The text that SQLite makes of a real that goes into a text column. *)
Variable text_of_real : spec_float -> string.

Abbreviation float := (py_float float_of_str).

(** [convert_date] (app.py, lines 109-112):
<<
def convert_date(date_str):
    if isinstance(date_str, str):
        return datetime.strptime(date_str, '%Y-%m-%d').date()
    return date_str
>> *)
Definition convert_date (date_str : value) : exn + value :=
  match date_str with
  | PyStr s =>
      match Strptime.strptime_date decimal_digit s with
      | Some d => inr (PyDate d)
      | None => inl ValueError
      end
  | _ => inr date_str
  end.

(** ** Writing to the destination store *)

(** A value as a [String] or [Text] column stores it (TEXT affinity):
    a number becomes its text. *)
Definition text_affinity (v : value) : value :=
  match v with
  | PyInt z => PyStr (text_of_integer z)
  | PyFloat f => PyStr (text_of_real f)
  | _ => v
  end.

(** A real as a column that takes integers stores it. *)
Definition integral (f : spec_float) : value :=
  match integer_of_float f with
  | Some z => PyInt z
  | None => PyFloat f
  end.

(** A value as an [Integer] column stores it (INTEGER affinity): a real
    that is an integer becomes the integer, and so does a text that reads
    as one; a text that reads as another real becomes the real. *)
Definition integer_affinity (v : value) : value :=
  match v with
  | PyFloat f => integral f
  | PyStr s =>
      match numeric_of_text s with
      | Some (Integer z) => PyInt z
      | Some (Real f) => integral f
      | None => v
      end
  | _ => v
  end.

(** A [float] as a [Float] column stores it: [sqlite3] binds NaN as
    NULL. *)
Definition real_affinity (v : value) : value :=
  match v with
  | PyFloat S754_nan => PyNone
  | _ => v
  end.

(** The rows as the columns of their tables store them.  The [id] is
    converted by [primary_key]; a value read from the legacy file is never
    NaN, so NaN is looked for only where [float] made the value. *)
Definition stored_staff (s : Staff.t) : Staff.t :=
  Staff.Build (Staff.id s)
              (text_affinity (Staff.name s))
              (text_affinity (Staff.email s))
              (real_affinity (Staff.leave_days_remaining s))
              (Staff.is_team_leader s) (Staff.receive_notifications s).

Definition stored_engagement (e : Engagement.t) : Engagement.t :=
  Engagement.Build (Engagement.id e)
                   (text_affinity (Engagement.name e))
                   (text_affinity (Engagement.description e))
                   (Engagement.start_date e) (Engagement.end_date e)
                   (integer_affinity (Engagement.team_leader_id e))
                   (text_affinity (Engagement.status e)).

Definition stored_proposal (p : Proposal.t) : Proposal.t :=
  Proposal.Build (Proposal.id p)
                 (text_affinity (Proposal.name p))
                 (text_affinity (Proposal.description p))
                 (Proposal.due_date p)
                 (integer_affinity (Proposal.team_leader_id p))
                 (text_affinity (Proposal.status p)).

Definition stored_non_billable (n : NonBillable.t) : NonBillable.t :=
  NonBillable.Build (NonBillable.id n) (text_affinity (NonBillable.name n)).

Definition stored_hours_log (h : HoursLog.t) : HoursLog.t :=
  HoursLog.Build (HoursLog.id h)
                 (integer_affinity (HoursLog.staff_id h))
                 (text_affinity (HoursLog.category h))
                 (integer_affinity (HoursLog.item_id h))
                 (real_affinity (HoursLog.hours h))
                 (HoursLog.date h).

Definition stored_leave_record (l : LeaveRecord.t) : LeaveRecord.t :=
  LeaveRecord.Build (LeaveRecord.id l)
                    (integer_affinity (LeaveRecord.staff_id l))
                    (LeaveRecord.date l).

Definition stored_utilization (u : Utilization.t) : Utilization.t :=
  Utilization.Build (Utilization.id u)
                    (integer_affinity (Utilization.staff_id u))
                    (Utilization.week_start u)
                    (real_affinity (Utilization.client_utilization_year_to_date u))
                    (real_affinity (Utilization.client_utilization_month_to_date u))
                    (real_affinity (Utilization.resource_utilization_year_to_date u))
                    (real_affinity (Utilization.resource_utilization_month_to_date u)).

Definition stored (o : obj) : obj :=
  match o with
  | OStaff s => OStaff (stored_staff s)
  | OEngagement e => OEngagement (stored_engagement e)
  | OProposal p => OProposal (stored_proposal p)
  | ONonBillable n => ONonBillable (stored_non_billable n)
  | OHoursLog h => OHoursLog (stored_hours_log h)
  | OLeaveRecord l => OLeaveRecord (stored_leave_record l)
  | OUtilization u => OUtilization (stored_utilization u)
  end.

(** [db.Column(db.Integer, primary_key=True)], the rowid of the table:
    an object whose [id] is [None] is inserted without the column and
    SQLite gives the row the key after the largest one in use (1 in an
    empty table); another [id] is converted as an [Integer] column
    converts, must then be an integer (or the INSERT fails with "datatype
    mismatch") and must not be in use. *)
Definition primary_key (ids : list value) (id : value) : exn + value :=
  match id with
  | PyNone =>
      inr (PyInt (match max_rowid ids with Some m => m + 1 | None => 1 end))
  | _ =>
      match integer_affinity id with
      | PyInt z =>
          if existsb (value_eqb (PyInt z)) ids then inl IntegrityError
          else inr (PyInt z)
      | _ => inl IntegrityError
      end
  end.

(** The constraints of each table, on a row as its columns store it. *)

Definition insert_staff (s : Staff.t) (rows : list Staff.t) : exn + list Staff.t :=
  i <-' primary_key (map Staff.id rows) (Staff.id s);
  check not_null (Staff.name s);
  check not_null (Staff.email s);
  (* email: unique=True *)
  check require (negb (existsb (fun r => sql_eqb (Staff.email r) (Staff.email s)) rows))
        IntegrityError;
  inr (rows ++ [Staff.with_id i s]).

Definition insert_engagement (e : Engagement.t) (rows : list Engagement.t)
  : exn + list Engagement.t :=
  i <-' primary_key (map Engagement.id rows) (Engagement.id e);
  check not_null (Engagement.name e);
  check not_null (Engagement.status e);
  inr (rows ++ [Engagement.with_id i e]).

Definition insert_proposal (p : Proposal.t) (rows : list Proposal.t)
  : exn + list Proposal.t :=
  i <-' primary_key (map Proposal.id rows) (Proposal.id p);
  check not_null (Proposal.name p);
  check not_null (Proposal.status p);
  inr (rows ++ [Proposal.with_id i p]).

Definition insert_non_billable (n : NonBillable.t) (rows : list NonBillable.t)
  : exn + list NonBillable.t :=
  i <-' primary_key (map NonBillable.id rows) (NonBillable.id n);
  check not_null (NonBillable.name n);
  inr (rows ++ [NonBillable.with_id i n]).

Definition insert_hours_log (h : HoursLog.t) (rows : list HoursLog.t)
  : exn + list HoursLog.t :=
  check date_param (HoursLog.date h);
  i <-' primary_key (map HoursLog.id rows) (HoursLog.id h);
  check not_null (HoursLog.category h);
  check not_null (HoursLog.item_id h);
  check not_null (HoursLog.hours h);
  check not_null (HoursLog.date h);
  inr (rows ++ [HoursLog.with_id i h]).

Definition insert_leave_record (l : LeaveRecord.t) (rows : list LeaveRecord.t)
  : exn + list LeaveRecord.t :=
  check date_param (LeaveRecord.date l);
  i <-' primary_key (map LeaveRecord.id rows) (LeaveRecord.id l);
  check not_null (LeaveRecord.date l);
  (* UniqueConstraint('staff_id', 'date', name='_staff_date_uc') *)
  check require
        (negb (existsb (fun r => sql_eqb (LeaveRecord.staff_id r) (LeaveRecord.staff_id l)
                                 && sql_eqb (LeaveRecord.date r) (LeaveRecord.date l)) rows))
        IntegrityError;
  inr (rows ++ [LeaveRecord.with_id i l]).

Definition insert_utilization (u : Utilization.t) (rows : list Utilization.t)
  : exn + list Utilization.t :=
  check date_param (Utilization.week_start u);
  i <-' primary_key (map Utilization.id rows) (Utilization.id u);
  check not_null (Utilization.week_start u);
  inr (rows ++ [Utilization.with_id i u]).

(** The INSERT of a row into its table. *)
Definition insert_row (o : obj) (d : database) : exn + database :=
  match o with
  | OStaff s =>
      r <-' insert_staff s (staff_rows d);
      inr (Database r (engagement_rows d) (proposal_rows d) (non_billable_rows d)
                    (hours_log_rows d) (leave_record_rows d) (utilization_rows d))
  | OEngagement e =>
      r <-' insert_engagement e (engagement_rows d);
      inr (Database (staff_rows d) r (proposal_rows d) (non_billable_rows d)
                    (hours_log_rows d) (leave_record_rows d) (utilization_rows d))
  | OProposal p =>
      r <-' insert_proposal p (proposal_rows d);
      inr (Database (staff_rows d) (engagement_rows d) r (non_billable_rows d)
                    (hours_log_rows d) (leave_record_rows d) (utilization_rows d))
  | ONonBillable n =>
      r <-' insert_non_billable n (non_billable_rows d);
      inr (Database (staff_rows d) (engagement_rows d) (proposal_rows d) r
                    (hours_log_rows d) (leave_record_rows d) (utilization_rows d))
  | OHoursLog h =>
      r <-' insert_hours_log h (hours_log_rows d);
      inr (Database (staff_rows d) (engagement_rows d) (proposal_rows d)
                    (non_billable_rows d) r (leave_record_rows d) (utilization_rows d))
  | OLeaveRecord l =>
      r <-' insert_leave_record l (leave_record_rows d);
      inr (Database (staff_rows d) (engagement_rows d) (proposal_rows d)
                    (non_billable_rows d) (hours_log_rows d) r (utilization_rows d))
  | OUtilization u =>
      r <-' insert_utilization u (utilization_rows d);
      inr (Database (staff_rows d) (engagement_rows d) (proposal_rows d)
                    (non_billable_rows d) (hours_log_rows d) (leave_record_rows d) r)
  end.

(** The INSERT of one object: its attributes, as the columns store
    them, are the row. *)
Definition insert (o : obj) (d : database) : exn + database :=
  insert_row (stored o) d.

(** The INSERTs of a flush: the pending objects in the order they were
    added, up to the first one the store refuses. *)
Fixpoint insert_all (os : list obj) (d : database) : exn + database :=
  match os with
  | [] => inr d
  | o :: rest => d' <-' insert o d; insert_all rest d'
  end.

(** *** db.session, continued *)

(** [db.session.flush()]: when the store refuses an INSERT the flush
    raises, and what it has sent is undone by the rollback that follows. *)
Definition session_flush : M unit := fun w =>
  match insert_all (pending w) (view w) with
  | inr d => Result (Returned tt) (set_session (committed w) (Some d) [] w) [Flush]
  | inl e => Result (Raised e) w [Flush]
  end.

(** [db.session.commit()]: the flush, then the view of the transaction
    becomes the committed store. *)
Definition session_commit : M unit := fun w =>
  let r := session_flush w in
  match out r with
  | Returned _ =>
      Result (Returned tt) (set_session (view (after r)) None [] (after r))
             (Commit :: events r)
  | Raised e => Result (Raised e) (after r) (Commit :: events r)
  end.

(** *** The constructor calls of the seven loops

    Keyword arguments are evaluated in the order written; a call either
    gives the object or raises. *)

(* lines 153-160 *)
Definition new_Staff (row : row) : exn + Staff.t :=
  id <-' item row 0;
  name <-' item row 1;
  email <-' item row 2;
  r3 <-' item row 3;
  leave_days_remaining <-' float r3;
  r4 <-' item row 4;
  r5 <-' item row 5;
  inr (Staff.Build id name email (PyFloat leave_days_remaining) (py_bool r4) (py_bool r5)).

(* lines 172-180 *)
Definition new_Engagement (row : row) : M Engagement.t :=
  id <- of_sum (item row 0) ;;
  name <- of_sum (item row 1) ;;
  team_leader_id <- of_sum (item row 2) ;;
  status <- of_sum (item row 3) ;;
  let description := fake_description in
  start_date <- fake_date ;;
  end_date <- fake_date ;;
  ret (Engagement.Build id name description start_date end_date team_leader_id status).

(* lines 189-196 *)
Definition new_Proposal (row : row) : M Proposal.t :=
  id <- of_sum (item row 0) ;;
  name <- of_sum (item row 1) ;;
  team_leader_id <- of_sum (item row 2) ;;
  status <- of_sum (item row 3) ;;
  let description := fake_description in
  due_date <- fake_date ;;
  ret (Proposal.Build id name description due_date team_leader_id status).

(* lines 205-208 *)
Definition new_NonBillable (row : row) : exn + NonBillable.t :=
  id <-' item row 0;
  name <-' item row 1;
  inr (NonBillable.Build id name).

(* lines 217-224 *)
Definition new_HoursLog (row : row) : exn + HoursLog.t :=
  id <-' item row 0;
  staff_id <-' item row 1;
  category <-' item row 2;
  item_id <-' item row 3;
  r4 <-' item row 4;
  hours <-' float r4;
  r5 <-' item row 5;
  date <-' convert_date r5;
  inr (HoursLog.Build id staff_id category item_id (PyFloat hours) date).

(* lines 235-239 *)
Definition new_LeaveRecord (row : row) : exn + LeaveRecord.t :=
  id <-' item row 0;
  staff_id <-' item row 1;
  r2 <-' item row 2;
  date <-' convert_date r2;
  inr (LeaveRecord.Build id staff_id date).

(* lines 253-261 *)
Definition new_Utilization (row : row) : exn + Utilization.t :=
  id <-' item row 0;
  staff_id <-' item row 1;
  r2 <-' item row 2;
  week_start <-' convert_date r2;
  r3 <-' item row 3;
  f3 <-' float r3;
  r4 <-' item row 4;
  f4 <-' float r4;
  r5 <-' item row 5;
  f5 <-' float r5;
  r6 <-' item row 6;
  f6 <-' float r6;
  inr (Utilization.Build id staff_id week_start (PyFloat f3) (PyFloat f4) (PyFloat f5)
                          (PyFloat f6)).

(** *** The bodies of the loops *)

(** A body that constructs an object and adds it to the session. *)
Definition add_new {T} (new : row -> exn + T) (inj : T -> obj) (row : row) : M unit :=
  o <- of_sum (new row) ;;
  session_add (inj o).

(* lines 153-161 *)
Definition staff_body : row -> M unit := add_new new_Staff OStaff.

(* lines 172-181 *)
Definition engagement_body (row : row) : M unit :=
  engagement <- new_Engagement row ;;
  session_add (OEngagement engagement).

(* lines 189-197 *)
Definition proposal_body (row : row) : M unit :=
  proposal <- new_Proposal row ;;
  session_add (OProposal proposal).

(* lines 205-209 *)
Definition non_billable_body : row -> M unit := add_new new_NonBillable ONonBillable.

(* lines 217-225 *)
Definition hours_log_body : row -> M unit := add_new new_HoursLog OHoursLog.

(* lines 234-245; the local variable is [leave_records_added] *)
Definition leave_record_body (leave_records_added : nat) (row : row) : M nat :=
  try_except
    (leave_record <- of_sum (new_LeaveRecord row) ;;
     session_add (OLeaveRecord leave_record) ;;
     ret (S leave_records_added))
    (fun e =>
       match e with
       | IntegrityError =>
           r1 <- of_sum (item row 1) ;;
           r2 <- of_sum (item row 2) ;;
           logging_warning (SkippingDuplicate r1 r2) ;;
           session_rollback ;;
           ret leave_records_added          (* continue *)
       | _ => raise e
       end).

(* lines 253-262 *)
Definition utilization_body : row -> M unit := add_new new_Utilization OUtilization.

(** *** The sections of the [try] block *)

(* lines 138-146 *)
Definition clear_tables : M unit :=
  logging_info Clearing ;;
  query_delete non_billable ;;
  query_delete hours_log ;;
  query_delete leave_record ;;
  query_delete utilization ;;
  query_delete proposal ;;
  query_delete engagement ;;
  query_delete staff.

(** One "Transfer ... data" section whose count is [len] of the rows. *)
Definition transfer_table (old_cursor : connection) (t : table) (body : row -> M unit)
  : M unit :=
  logging_info (Transferring t) ;;
  data <- select_all old_cursor t ;;
  for_each data body ;;
  logging_info (Transferred (List.length data) t).

(* lines 228-246 *)
Definition transfer_leave_records (old_cursor : connection) : M unit :=
  logging_info (Transferring leave_record) ;;
  leave_record_data <- select_all old_cursor leave_record ;;
  leave_records_added <- for_each_with leave_record_data 0%nat leave_record_body ;;
  logging_info (Transferred leave_records_added leave_record).

(* lines 135-268 *)
Definition try_block (old_cursor : connection) : M bool :=
  begin_nested ;;
  clear_tables ;;
  transfer_table old_cursor staff staff_body ;;
  session_flush ;;
  transfer_table old_cursor engagement engagement_body ;;
  transfer_table old_cursor proposal proposal_body ;;
  transfer_table old_cursor non_billable non_billable_body ;;
  transfer_table old_cursor hours_log hours_log_body ;;
  transfer_leave_records old_cursor ;;
  transfer_table old_cursor utilization utilization_body ;;
  session_commit ;;
  logging_info Completed ;;
  ret true.

(* lines 270-281 *)
Definition handlers (e : exn) : M bool :=
  match e with
  | Sqlite3OperationalError =>
      logging_error (SqliteOperationalError e) ;;
      session_rollback ;;
      ret false
  | IntegrityError =>
      logging_error (IntegrityErrorMsg e) ;;
      session_rollback ;;
      ret false
  | _ =>
      logging_error (Unexpected e) ;;
      session_rollback ;;
      ret false
  end.

Definition transfer_data (old_db_path : string) : M bool :=
  logging_info (Starting old_db_path) ;;
  found <- os_path_exists old_db_path ;;
  if negb found then
    logging_error (NotFound old_db_path) ;;
    ret false
  else
    old_conn <- sqlite3_connect old_db_path ;;
    let old_cursor := old_conn in
    try_finally
      (try_except (try_block old_cursor) handlers)
      (close old_conn).

(** ** [upload_file] (app.py, lines 286-309)

    [basedir] (line 24) is the directory of the script, and
    [secure_filename] is werkzeug's, which this repository does not
    contain: it gives a name without path separators, possibly the empty
    name.  [new_database.db] is the destination store, so the attachment
    of the successful reply is the store as committed. *)

Section Upload.

Variable basedir : string.
Variable secure_filename : string -> string.

(* line 28 *)
Definition UPLOAD_FOLDER : string := os_path_join basedir "uploads".

Definition upload_file (request : Flask.Request) (w : world) : Flask.served :=
  if String.eqb (Flask.method request) "POST" then
    match Flask.lookup "file" (Flask.files request) with
    | None => Flask.Served (Flask.Response (Flask.Text "No file part")) w []
    | Some file =>
        if String.eqb (Flask.filename file) EmptyString then
          Flask.Served (Flask.Response (Flask.Text "No selected file")) w []
        else if Flask.truth file then
          let filename := secure_filename (Flask.filename file) in
          let file_path := os_path_join UPLOAD_FOLDER filename in
          match Flask.save file file_path w with
          | None => Flask.Served Flask.InternalServerError w []
          | Some w1 =>
              let r := transfer_data file_path (new_session w1) in
              match out r with
              | Returned success =>
                  if success then
                    Flask.Served
                      (Flask.Response
                         (Flask.Attachment "new_database.db" (committed (after r))))
                      (after r) (events r)
                  else
                    Flask.Served
                      (Flask.Response (Flask.Text "Error occurred during data transfer"))
                      (after r) (events r)
              | Raised _ => Flask.Served Flask.InternalServerError (after r) (events r)
              end
          end
        else Flask.Served (Flask.Response (Flask.Template "upload.html")) w []
    end
  else Flask.Served (Flask.Response (Flask.Template "upload.html")) w [].

End Upload.

(** ** Reading of a date string *)

(** "Matches the format YYYY-MM-DD" read to the letter: four digits, a
    hyphen, two digits, a hyphen, two digits, and nothing else. *)
Definition matches_YYYY_MM_DD (s : string) : bool :=
  match list_ascii_of_string s with
  | [y1; y2; y3; y4; h1; m1; m2; h2; d1; d2] =>
      forallb (fun c => match Strptime.ascii_digit c with Some _ => true | None => false end)
              [y1; y2; y3; y4; m1; m2; d1; d2]
      && Ascii.eqb h1 "-"%char && Ascii.eqb h2 "-"%char
  | _ => false
  end.

(** One decimal digit of any script, as [\d] takes it, and its value: an
    ASCII digit, or the UTF-8 encoding of one character above ASCII that
    the Unicode database knows as a decimal digit. *)
Inductive decimal_char : list ascii -> Z -> Prop :=
| decimal_ascii c v :
    Strptime.ascii_digit c = Some v -> decimal_char [c] v
| decimal_other cs n v :
    Strptime.code_point cs = Some (n, []) -> 128 <= n ->
    decimal_digit n = Some v -> decimal_char cs v.

(** A decimal numeral of one or two ASCII digits and its value. *)
Inductive numeral : list ascii -> Z -> Prop :=
| numeral_1 c v :
    Strptime.ascii_digit c = Some v -> numeral [c] v
| numeral_2 c1 c2 v1 v2 :
    Strptime.ascii_digit c1 = Some v1 -> Strptime.ascii_digit c2 = Some v2 ->
    numeral [c1; c2] (10 * v1 + v2).

(** A year as [strptime] takes it: four decimal digits of any script. *)
Inductive year_field : list ascii -> Z -> Prop :=
| year_4 a b c d va vb vc vd :
    decimal_char a va -> decimal_char b vb ->
    decimal_char c vc -> decimal_char d vd ->
    year_field (a ++ b ++ c ++ d) (1000 * va + 100 * vb + 10 * vc + vd).

(** A day as [strptime] takes it: one or two ASCII digits; or the ASCII
    digit 1 or 2 and a decimal digit of any script; or a space and one
    ASCII digit. *)
Inductive day_field : list ascii -> Z -> Prop :=
| day_numeral cs v : numeral cs v -> day_field cs v
| day_teens c v1 cs v2 :
    Strptime.ascii_digit c = Some v1 -> 1 <= v1 <= 2 -> decimal_char cs v2 ->
    day_field (c :: cs) (10 * v1 + v2)
| day_blank c v : Strptime.ascii_digit c = Some v -> day_field [" "%char; c] v.

(** [reads s d]: [s] is a year, a month and a day in these forms separated
    by hyphens, and they are the calendar date [d]. *)
Definition reads (s : string) (d : date) : Prop :=
  exists Y M D y m dd,
    list_ascii_of_string s = Y ++ "-"%char :: M ++ "-"%char :: D
    /\ year_field Y y /\ numeral M m /\ day_field D dd
    /\ PyDate.check_date_fields y m dd = true
    /\ d = PyDate.Date (PyDate.ymd2ord y m dd).

(** ** What a run stages, as a function of the legacy source *)

(** The objects of a list of rows, up to the first row that raises. *)
Fixpoint mapE {A B} (f : A -> exn + B) (l : list A) : exn + list B :=
  match l with
  | [] => inr []
  | x :: rest => y <-' f x; ys <-' mapE f rest; inr (y :: ys)
  end.

(** The date that stands for a synthesized date when two runs are
    compared. *)
Definition epoch : date := PyDate.Date 0.

(** An object without its synthesized dates. *)
Definition undated (o : obj) : obj :=
  match o with
  | OEngagement e =>
      OEngagement (Engagement.Build (Engagement.id e) (Engagement.name e)
                     (Engagement.description e) epoch epoch
                     (Engagement.team_leader_id e) (Engagement.status e))
  | OProposal p =>
      OProposal (Proposal.Build (Proposal.id p) (Proposal.name p)
                   (Proposal.description p) epoch
                   (Proposal.team_leader_id p) (Proposal.status p))
  | _ => o
  end.

Definition undated_engagement (e : Engagement.t) : Engagement.t :=
  Engagement.Build (Engagement.id e) (Engagement.name e) (Engagement.description e)
                   epoch epoch (Engagement.team_leader_id e) (Engagement.status e).

Definition undated_proposal (p : Proposal.t) : Proposal.t :=
  Proposal.Build (Proposal.id p) (Proposal.name p) (Proposal.description p)
                 epoch (Proposal.team_leader_id p) (Proposal.status p).

(** A store without the synthesized dates of its rows. *)
Definition undated_db (d : database) : database :=
  Database (staff_rows d)
           (map undated_engagement (engagement_rows d))
           (map undated_proposal (proposal_rows d))
           (non_billable_rows d) (hours_log_rows d) (leave_record_rows d)
           (utilization_rows d).

(** A date lies in the window of [fake_date] when it is 1 to 365 days
    after a reading of the clock, the [n]-th or a later one. *)
Definition in_window (clk : nat -> date) (n : nat) (d : date) : Prop :=
  exists k, (n <= k)%nat
            /\ PyDate.toordinal (clk k) < PyDate.toordinal d
               <= PyDate.toordinal (clk k) + 365.

Definition windowed (clk : nat -> date) (n : nat) (o : obj) : Prop :=
  match o with
  | OEngagement e =>
      in_window clk n (Engagement.start_date e) /\ in_window clk n (Engagement.end_date e)
  | OProposal p => in_window clk n (Proposal.due_date p)
  | _ => True
  end.

(** What [transfer_data] leaves alone until it commits. *)
Definition frame (w w' : world) : Prop :=
  fs w' = fs w /\ clock w' = clock w /\ entropy w' = entropy w
  /\ (clock_reads w <= clock_reads w')%nat
  /\ open_connections w' = open_connections w
  /\ committed w' = committed w.

(** The objects that [Add] events stage. *)
Fixpoint added (evs : list event) : list obj :=
  match evs with
  | [] => []
  | Add o :: rest => o :: added rest
  | _ :: rest => added rest
  end.

(** The message of the handler that catches [e] (app.py, lines 270-281). *)
Definition error_message (e : exn) : message :=
  match e with
  | Sqlite3OperationalError => SqliteOperationalError e
  | IntegrityError => IntegrityErrorMsg e
  | _ => Unexpected e
  end.

(** The object the loop over table [t] stages for a row, undated. *)
Definition staged (t : table) (row : row) : exn + obj :=
  match t with
  | staff => o <-' new_Staff row; inr (OStaff o)
  | engagement =>
      id <-' item row 0; name <-' item row 1;
      team_leader_id <-' item row 2; status <-' item row 3;
      inr (OEngagement (Engagement.Build id name fake_description epoch epoch
                                         team_leader_id status))
  | proposal =>
      id <-' item row 0; name <-' item row 1;
      team_leader_id <-' item row 2; status <-' item row 3;
      inr (OProposal (Proposal.Build id name fake_description epoch
                                     team_leader_id status))
  | non_billable => o <-' new_NonBillable row; inr (ONonBillable o)
  | hours_log => o <-' new_HoursLog row; inr (OHoursLog o)
  | leave_record => o <-' new_LeaveRecord row; inr (OLeaveRecord o)
  | utilization => o <-' new_Utilization row; inr (OUtilization o)
  end.

(** What the section of table [t] stages, undated. *)
Definition plan (c : connection) (t : table) : exn + list obj :=
  rows <-' fetch c t; mapE (staged t) rows.

(** What is staged between the flush and the commit, undated. *)
Definition plan_after_flush (c : connection) : exn + list obj :=
  e <-' plan c engagement;
  p <-' plan c proposal;
  n <-' plan c non_billable;
  h <-' plan c hours_log;
  l <-' plan c leave_record;
  u <-' plan c utilization;
  inr (e ++ p ++ n ++ h ++ l ++ u).

(** The store a run commits, undated, or the exception that stops it. *)
Definition reference (c : connection) : exn + database :=
  s <-' plan c staff;
  d <-' insert_all s empty_database;
  r <-' plan_after_flush c;
  insert_all r d.


(** ** Specifications of the loops *)

(** What one round of the loop over table [t] does. *)
Definition body_ok (t : table) (body : row -> M unit) : Prop :=
  forall row w,
    let r := body row w in
    frame w (after r)
    /\ transaction (after r) = transaction w
    /\ match staged t row with
       | inr o' =>
           exists o,
             out r = Returned tt
             /\ pending (after r) = pending w ++ [o]
             /\ events r = [Add o]
             /\ undated o = o'
             /\ table_of o = t
             /\ windowed (clock w) (clock_reads w) o
       | inl e =>
           out r = Raised e /\ pending (after r) = pending w /\ events r = []
       end.

(** What the "Transfer ... data" section of table [t] does. *)
Definition section_ok (c : connection) (t : table) (m : M unit) : Prop :=
  forall w,
    let r := m w in
    frame w (after r)
    /\ transaction (after r) = transaction w
    /\ exists os tail,
        events r = Log INFO (Transferring t) :: Execute t :: map Add os ++ tail
        /\ (tail = [] \/ exists n, tail = [Log INFO (Transferred n t)])
        /\ pending (after r) = pending w ++ os
        /\ Forall (fun o => table_of o = t /\ windowed (clock w) (clock_reads w) o) os
        /\ match plan c t with
           | inr os' => out r = Returned tt /\ map undated os = os'
           | inl e => out r = Raised e
           end.


(** ** Specification of the [try] block *)

(** An event of a section that only reads, logs and stages. *)
Definition staging_event (ev : event) : Prop :=
  match ev with
  | Log INFO _ | Execute _ | Add _ => True
  | _ => False
  end.

(** An event that may occur in the [try] block before the flush. *)
Definition before_flush (ev : event) : Prop :=
  match ev with
  | Add o => table_of o = staff
  | Log INFO _ | Execute _ | BeginNested | Delete _ => True
  | _ => False
  end.

(** An event that may occur in the [try] block after the flush. *)
Definition after_flush (clk : nat -> date) (n : nat) (ev : event) : Prop :=
  match ev with
  | Add o => table_of o <> staff /\ windowed clk n o
  | Log INFO _ | Execute _ | Flush | Commit => True
  | _ => False
  end.

(** A computation that stages objects of class [P]: the undated plan [k]
    tells whether it raises and what it stages. *)
Definition stages_ok (P : obj -> Prop) (k : exn + list obj) (m : M unit) : Prop :=
  forall w,
    let r := m w in
    frame w (after r)
    /\ transaction (after r) = transaction w
    /\ Forall staging_event (events r)
    /\ pending (after r) = pending w ++ added (events r)
    /\ Forall (fun o => P o /\ windowed (clock w) (clock_reads w) o) (added (events r))
    /\ match k with
       | inr os' => out r = Returned tt /\ map undated (added (events r)) = os'
       | inl e => out r = Raised e
       end.

(** The sections between the flush and the commit (app.py, lines 167-263). *)
Definition sections_after_flush (old_cursor : connection) : M unit :=
  transfer_table old_cursor engagement engagement_body ;;
  transfer_table old_cursor proposal proposal_body ;;
  transfer_table old_cursor non_billable non_billable_body ;;
  transfer_table old_cursor hours_log hours_log_body ;;
  transfer_leave_records old_cursor ;;
  transfer_table old_cursor utilization utilization_body.


(** What [transfer_data] never changes but the clock readings it uses. *)
Definition static (w w' : world) : Prop :=
  fs w' = fs w /\ clock w' = clock w /\ entropy w' = entropy w
  /\ (clock_reads w <= clock_reads w')%nat.

(** The events of the clearing (app.py, lines 136-146). *)
Definition clearing_events : list event :=
  [BeginNested; Log INFO Clearing; Delete non_billable; Delete hours_log;
   Delete leave_record; Delete utilization; Delete proposal; Delete engagement;
   Delete staff].

(** The connection [sqlite3.connect] gives for what the path leads to. *)
Definition connects (e : fs_entry) : option connection :=
  match e with
  | Missing | Unopenable => None
  | NotADatabase => Some (Connection None)
  | SqliteFile tables => Some (Connection (Some tables))
  end.

(** The world after [old_conn.close()]. *)
Definition closed (w : world) : world :=
  set_open_connections (Nat.pred (open_connections w)) w.

(** The world after [db.session.rollback()]. *)
Definition rolled_back (w : world) : world :=
  set_session (committed w) None [] w.

(** The world after [sqlite3.connect]. *)
Definition connected (w : world) : world :=
  set_open_connections (S (open_connections w)) w.



(** ** Vocabulary of the further properties *)

(** The number of columns that the loop over table [t] reads of a row. *)
Definition columns_read (t : table) : nat :=
  match t with
  | staff => 6%nat
  | engagement | proposal => 4%nat
  | non_billable => 2%nat
  | hours_log => 6%nat
  | leave_record => 3%nat
  | utilization => 7%nat
  end.

(** The columns that the loop over [t] passes to [float]. *)
Definition float_columns (t : table) : list nat :=
  match t with
  | staff => [3%nat]
  | hours_log => [4%nat]
  | utilization => [3%nat; 4%nat; 5%nat; 6%nat]
  | _ => []
  end.

(** The columns that the loop over [t] passes to [convert_date]; the
    attributes they fill are [db.Date] columns declared [nullable=False]. *)
Definition date_columns (t : table) : list nat :=
  match t with
  | hours_log => [5%nat]
  | leave_record | utilization => [2%nat]
  | _ => []
  end.

(** The columns that the loop over [t] copies as they are into an
    attribute declared [nullable=False]. *)
Definition required_columns (t : table) : list nat :=
  match t with
  | staff => [1%nat; 2%nat]
  | engagement | proposal => [1%nat; 3%nat]
  | non_billable => [1%nat]
  | hours_log => [2%nat; 3%nat]
  | leave_record | utilization => []
  end.

(** The [id] an object was constructed with. *)
Definition key (o : obj) : value :=
  match o with
  | OStaff s => Staff.id s
  | OEngagement e => Engagement.id e
  | OProposal p => Proposal.id p
  | ONonBillable n => NonBillable.id n
  | OHoursLog h => HoursLog.id h
  | OLeaveRecord l => LeaveRecord.id l
  | OUtilization u => Utilization.id u
  end.

Definition with_key (i : value) (o : obj) : obj :=
  match o with
  | OStaff s => OStaff (Staff.with_id i s)
  | OEngagement e => OEngagement (Engagement.with_id i e)
  | OProposal p => OProposal (Proposal.with_id i p)
  | ONonBillable n => ONonBillable (NonBillable.with_id i n)
  | OHoursLog h => OHoursLog (HoursLog.with_id i h)
  | OLeaveRecord l => OLeaveRecord (LeaveRecord.with_id i l)
  | OUtilization u => OUtilization (Utilization.with_id i u)
  end.

(** The store with the row of [o] after the rows of its table. *)
Definition append (o : obj) (d : database) : database :=
  match o with
  | OStaff s =>
      Database (staff_rows d ++ [s]) (engagement_rows d) (proposal_rows d)
               (non_billable_rows d) (hours_log_rows d) (leave_record_rows d)
               (utilization_rows d)
  | OEngagement e =>
      Database (staff_rows d) (engagement_rows d ++ [e]) (proposal_rows d)
               (non_billable_rows d) (hours_log_rows d) (leave_record_rows d)
               (utilization_rows d)
  | OProposal p =>
      Database (staff_rows d) (engagement_rows d) (proposal_rows d ++ [p])
               (non_billable_rows d) (hours_log_rows d) (leave_record_rows d)
               (utilization_rows d)
  | ONonBillable n =>
      Database (staff_rows d) (engagement_rows d) (proposal_rows d)
               (non_billable_rows d ++ [n]) (hours_log_rows d) (leave_record_rows d)
               (utilization_rows d)
  | OHoursLog h =>
      Database (staff_rows d) (engagement_rows d) (proposal_rows d)
               (non_billable_rows d) (hours_log_rows d ++ [h]) (leave_record_rows d)
               (utilization_rows d)
  | OLeaveRecord l =>
      Database (staff_rows d) (engagement_rows d) (proposal_rows d)
               (non_billable_rows d) (hours_log_rows d) (leave_record_rows d ++ [l])
               (utilization_rows d)
  | OUtilization u =>
      Database (staff_rows d) (engagement_rows d) (proposal_rows d)
               (non_billable_rows d) (hours_log_rows d) (leave_record_rows d)
               (utilization_rows d ++ [u])
  end.

(** The rows of table [t], as objects. *)
Definition rows_of (t : table) (d : database) : list obj :=
  match t with
  | staff => map OStaff (staff_rows d)
  | engagement => map OEngagement (engagement_rows d)
  | proposal => map OProposal (proposal_rows d)
  | non_billable => map ONonBillable (non_billable_rows d)
  | hours_log => map OHoursLog (hours_log_rows d)
  | leave_record => map OLeaveRecord (leave_record_rows d)
  | utilization => map OUtilization (utilization_rows d)
  end.

(** The number of rows of table [t]. *)
Definition row_count (t : table) (d : database) : nat := List.length (rows_of t d).

(** The messages of a run, in the order logged. *)
Fixpoint logged (evs : list event) : list (level * message) :=
  match evs with
  | [] => []
  | Log l m :: rest => (l, m) :: logged rest
  | _ :: rest => logged rest
  end.

(** The number of rows of a table of a legacy file. *)
Definition rows_in (tables : legacy_db) (t : table) : nat :=
  match tables t with
  | Some rows => List.length rows
  | None => 0%nat
  end.

(** The messages of a run that completes, for the row counts [n]. *)
Definition success_log (path : string) (n : table -> nat) : list (level * message) :=
  [(INFO, Starting path); (INFO, Clearing);
   (INFO, Transferring staff); (INFO, Transferred (n staff) staff);
   (INFO, Transferring engagement); (INFO, Transferred (n engagement) engagement);
   (INFO, Transferring proposal); (INFO, Transferred (n proposal) proposal);
   (INFO, Transferring non_billable); (INFO, Transferred (n non_billable) non_billable);
   (INFO, Transferring hours_log); (INFO, Transferred (n hours_log) hours_log);
   (INFO, Transferring leave_record); (INFO, Transferred (n leave_record) leave_record);
   (INFO, Transferring utilization); (INFO, Transferred (n utilization) utilization);
   (INFO, Completed)].

(** All that a run stages, in the order staged, undated. *)
Definition plan_all (c : connection) : exn + list obj :=
  s <-' plan c staff; r <-' plan_after_flush c; inr (s ++ r).

(** What the store requires of a row besides a free key: the values of
    the [nullable=False] columns, and dates in the [db.Date] columns. *)
Definition storable (o : obj) : Prop :=
  match o with
  | OStaff s => Staff.name s <> PyNone /\ Staff.email s <> PyNone
  | OEngagement e => Engagement.name e <> PyNone /\ Engagement.status e <> PyNone
  | OProposal p => Proposal.name p <> PyNone /\ Proposal.status p <> PyNone
  | ONonBillable n => NonBillable.name n <> PyNone
  | OHoursLog h =>
      HoursLog.category h <> PyNone /\ HoursLog.item_id h <> PyNone
      /\ HoursLog.hours h <> PyNone
      /\ isinstance_date (HoursLog.date h) = true
  | OLeaveRecord l => isinstance_date (LeaveRecord.date l) = true
  | OUtilization u => isinstance_date (Utilization.week_start u) = true
  end.

(** What the constructor call of the loop over [t] made the attributes of
    [o] from. *)
Definition built_from (row : row) (o : obj) : Prop :=
  nth_error row 0 = Some (key o)
  /\ match o with
     | OStaff s =>
         nth_error row 1 = Some (Staff.name s)
         /\ nth_error row 2 = Some (Staff.email s)
         /\ (exists r3 f, nth_error row 3 = Some r3 /\ float r3 = inr f
                          /\ Staff.leave_days_remaining s = PyFloat f)
         /\ (exists r4, nth_error row 4 = Some r4 /\ Staff.is_team_leader s = py_bool r4)
         /\ (exists r5, nth_error row 5 = Some r5
                        /\ Staff.receive_notifications s = py_bool r5)
     | OEngagement e =>
         nth_error row 1 = Some (Engagement.name e)
         /\ nth_error row 2 = Some (Engagement.team_leader_id e)
         /\ nth_error row 3 = Some (Engagement.status e)
         /\ Engagement.description e = fake_description
     | OProposal p =>
         nth_error row 1 = Some (Proposal.name p)
         /\ nth_error row 2 = Some (Proposal.team_leader_id p)
         /\ nth_error row 3 = Some (Proposal.status p)
         /\ Proposal.description p = fake_description
     | ONonBillable n => nth_error row 1 = Some (NonBillable.name n)
     | OHoursLog h =>
         nth_error row 1 = Some (HoursLog.staff_id h)
         /\ nth_error row 2 = Some (HoursLog.category h)
         /\ nth_error row 3 = Some (HoursLog.item_id h)
         /\ (exists r4 f, nth_error row 4 = Some r4 /\ float r4 = inr f
                          /\ HoursLog.hours h = PyFloat f)
         /\ (exists r5, nth_error row 5 = Some r5
                        /\ convert_date r5 = inr (HoursLog.date h))
     | OLeaveRecord l =>
         nth_error row 1 = Some (LeaveRecord.staff_id l)
         /\ (exists r2, nth_error row 2 = Some r2
                        /\ convert_date r2 = inr (LeaveRecord.date l))
     | OUtilization u =>
         nth_error row 1 = Some (Utilization.staff_id u)
         /\ (exists r2, nth_error row 2 = Some r2
                        /\ convert_date r2 = inr (Utilization.week_start u))
         /\ (exists r3 f, nth_error row 3 = Some r3 /\ float r3 = inr f
                          /\ Utilization.client_utilization_year_to_date u = PyFloat f)
         /\ (exists r4 f, nth_error row 4 = Some r4 /\ float r4 = inr f
                          /\ Utilization.client_utilization_month_to_date u = PyFloat f)
         /\ (exists r5 f, nth_error row 5 = Some r5 /\ float r5 = inr f
                          /\ Utilization.resource_utilization_year_to_date u = PyFloat f)
         /\ (exists r6 f, nth_error row 6 = Some r6 /\ float r6 = inr f
                          /\ Utilization.resource_utilization_month_to_date u = PyFloat f)
     end.

(** An Engagement or a Proposal with the description of
    [fake_description]; nothing is asked of the other objects. *)
Definition has_placeholder (o : obj) : Prop :=
  match o with
  | OEngagement e => Engagement.description e = fake_description
  | OProposal p => Proposal.description p = fake_description
  | _ => True
  end.

(** The events of a "Transfer ... data" section that completes. *)
Definition section_events (t : table) (os : list obj) (n : nat) : list event :=
  Log INFO (Transferring t) :: Execute t :: map Add os ++ [Log INFO (Transferred n t)].

(** Whether [o] is an object of table [t]. *)
Definition of_table (t : table) (o : obj) : bool := table_eqb (table_of o) t.

(** [traces m P]: whenever [m] returns, its value and its events are as
    [P] says. *)
Definition traces {A} (m : M A) (P : A -> list event -> Prop) : Prop :=
  forall w a, out (m w) = Returned a -> P a (events (m w)).

(** A computation that never logs the completion. *)
Definition silent {A} (m : M A) : Prop :=
  forall w, ~ In (Log INFO Completed) (events (m w)).

(** A computation that logs the completion only when it returns [True]. *)
Definition completes (m : M bool) : Prop :=
  forall w, In (Log INFO Completed) (events (m w)) -> out (m w) = Returned true.


(** ** The dates a run synthesizes *)

(** The number [random.randint(1, 365)] returns for a draw of the
    generator. *)
Definition offset (draw : nat) : Z := 1 + Z.of_nat draw mod (365 - 1 + 1).

(** What the call of [fake_date] returns that is the [j]-th after [w]
    (counted from 0): the date the clock gives at that call, plus the
    offset of the draw of that call. *)
Definition date_at (w : world) (j : nat) : date :=
  PyDate.add_days (clock w (j + clock_reads w)) (offset (entropy w (j + draws w))).

(** The synthesized dates of the objects staged, in the order of the
    calls of [fake_date] that made them: [start_date] and [end_date] of an
    Engagement (app.py, lines 178-179), [due_date] of a Proposal
    (line 195). *)
Fixpoint synthesized (evs : list event) : list date :=
  match evs with
  | [] => []
  | Add (OEngagement e) :: rest =>
      Engagement.start_date e :: Engagement.end_date e :: synthesized rest
  | Add (OProposal p) :: rest => Proposal.due_date p :: synthesized rest
  | _ :: rest => synthesized rest
  end.

(** The number of the draws [draws] for which [randint] returns [n]. *)
Definition times_drawn (n : Z) (draws : list nat) : nat :=
  List.length (filter (fun draw => offset draw =? n) draws).

(** A computation that calls [fake_date] for the synthesized dates of the
    objects it stages and for nothing else, and leaves the clock and the
    generator to their course. *)
Definition dates_ok {A} (m : M A) : Prop :=
  forall w,
    let r := m w in
    clock (after r) = clock w
    /\ entropy (after r) = entropy w
    /\ exists k,
        clock_reads (after r) = (k + clock_reads w)%nat
        /\ draws (after r) = (k + draws w)%nat
        /\ synthesized (events r) = map (date_at w) (seq 0 k).

Unset Implicit Arguments.

(** * Properties *)

(** ** [convert_date] *)

Lemma ascii_digit_bounds c v : Strptime.ascii_digit c = Some v -> 0 <= v <= 9.
Proof.
  unfold Strptime.ascii_digit. cbv zeta.
  destruct (_ && _) eqn:E; [|discriminate].
  intros [= <-]. apply andb_true_iff in E. lia.
Qed.

Lemma days_in_month_le y m : PyDate.days_in_month y m <= 31.
Proof.
  unfold PyDate.days_in_month.
  destruct (_ && _); [lia|].
  destruct m as [|p|p]; try lia.
  do 4 (try destruct p as [p|p|]); lia.
Qed.

Lemma check_date_fields_bounds y m d :
  PyDate.check_date_fields y m d = true -> 1 <= m <= 12 /\ 1 <= d <= 31.
Proof.
  unfold PyDate.check_date_fields. rewrite !andb_true_iff.
  pose proof (days_in_month_le y m). lia.
Qed.

Lemma hyphen_inv s r : Strptime.hyphen s = Some r -> s = "-"%char :: r.
Proof.
  destruct s as [|c s]; simpl; [discriminate|].
  destruct (Ascii.eqb c "-") eqn:E; [|discriminate].
  apply Ascii.eqb_eq in E. now intros [= <-]; subst.
Qed.

(** *** The characters of a text *)

Lemma tail_byte_inv x m r :
  Strptime.tail_byte x = Some (m, r) ->
  exists n c, x = Some (n, c :: r)
              /\ forall t, Strptime.tail_byte (Some (n, c :: t)) = Some (m, t).
Proof.
  destruct x as [[n [|c s]]|]; cbn [Strptime.tail_byte]; try discriminate.
  cbv zeta. destruct (_ && _) eqn:E; [|discriminate].
  intros [= <- <-]. exists n, c. split; [reflexivity|].
  intros t. cbn [Strptime.tail_byte]. cbv zeta. now rewrite E.
Qed.

(** A character is read off the head of a text whatever follows it. *)
Lemma code_point_inv s n r :
  Strptime.code_point s = Some (n, r) ->
  exists cs, s = cs ++ r /\ forall t, Strptime.code_point (cs ++ t) = Some (n, t).
Proof.
  destruct s as [|c s]; cbn [Strptime.code_point]; [discriminate|]. cbv zeta.
  destruct (Strptime.byte c <? 128) eqn:E1.
  { intros [= <- <-]. exists [c]. split; [reflexivity|].
    intros t. cbn [app Strptime.code_point]. cbv zeta. now rewrite E1. }
  destruct (Strptime.byte c <? 192) eqn:E2; [discriminate|].
  destruct (Strptime.byte c <? 224) eqn:E3.
  { intros H. apply tail_byte_inv in H as (n1 & c1 & [= <- ->] & H1).
    exists [c; c1]. split; [reflexivity|].
    intros t. cbn [app Strptime.code_point]. cbv zeta. rewrite E1, E2, E3. apply H1. }
  destruct (Strptime.byte c <? 240) eqn:E4.
  { intros H. apply tail_byte_inv in H as (n2 & c2 & H & H2).
    apply tail_byte_inv in H as (n1 & c1 & [= <- ->] & H1).
    exists [c; c1; c2]. split; [reflexivity|].
    intros t. cbn [app Strptime.code_point]. cbv zeta. rewrite E1, E2, E3, E4.
    rewrite H1. apply H2. }
  destruct (Strptime.byte c <? 248) eqn:E5; [|discriminate].
  intros H. apply tail_byte_inv in H as (n3 & c3 & H & H3).
  apply tail_byte_inv in H as (n2 & c2 & H & H2).
  apply tail_byte_inv in H as (n1 & c1 & [= <- ->] & H1).
  exists [c; c1; c2; c3]. split; [reflexivity|].
  intros t. cbn [app Strptime.code_point]. cbv zeta. rewrite E1, E2, E3, E4, E5.
  rewrite H1, H2. apply H3.
Qed.

Lemma code_point_app cs n t :
  Strptime.code_point cs = Some (n, []) -> Strptime.code_point (cs ++ t) = Some (n, t).
Proof.
  intros H. apply code_point_inv in H as (cs' & E & H).
  rewrite app_nil_r in E. subst cs'. apply H.
Qed.

Lemma ascii_digit_byte c v :
  Strptime.ascii_digit c = Some v -> 48 <= Strptime.byte c <= 57 /\ v = Strptime.byte c - 48.
Proof.
  unfold Strptime.ascii_digit. cbv zeta.
  destruct (_ && _) eqn:E; [|discriminate].
  intros [= <-]. apply andb_true_iff in E. lia.
Qed.

Lemma in_range_inv lo hi s v r :
  Strptime.in_range lo hi s = Some (v, r) ->
  exists c, s = c :: r /\ Strptime.ascii_digit c = Some v /\ lo <= v <= hi.
Proof.
  unfold Strptime.in_range. destruct s as [|c s]; [discriminate|].
  destruct (Strptime.ascii_digit c) as [v'|] eqn:Hc; [|discriminate].
  destruct (_ && _) eqn:E; [|discriminate].
  intros [= <- <-]. apply andb_true_iff in E. exists c.
  split; [reflexivity|]. split; [exact Hc | lia].
Qed.

Lemma in_range_eq lo hi c v r :
  Strptime.ascii_digit c = Some v ->
  Strptime.in_range lo hi (c :: r) = if (lo <=? v) && (v <=? hi) then Some (v, r) else None.
Proof. unfold Strptime.in_range. now intros ->. Qed.

Lemma in_range_not_ascii lo hi c r :
  Strptime.ascii_digit c = None -> Strptime.in_range lo hi (c :: r) = None.
Proof. unfold Strptime.in_range. now intros ->. Qed.

Lemma orelse_inv {A} (x y : option A) v :
  Strptime.orelse x y = Some v -> x = Some v \/ (x = None /\ y = Some v).
Proof. destruct x; simpl; auto. Qed.

(** *** [\d] *)

Lemma digit_complete cs v t :
  decimal_char cs v -> Strptime.digit decimal_digit (cs ++ t) = Some (v, t).
Proof.
  intros [c v' Hc | cs' n v' Hcp Hn Hd]; unfold Strptime.digit.
  - pose proof (ascii_digit_bounds _ _ Hc).
    cbn [app]. rewrite (in_range_eq 0 9 _ _ t Hc).
    destruct (Z.leb_spec 0 v'); [|lia]. destruct (Z.leb_spec v' 9); [|lia]. reflexivity.
  - assert (Hhead : exists c rest, cs' = c :: rest /\ Strptime.ascii_digit c = None).
    { destruct cs' as [|c rest]; [discriminate|]. exists c, rest. split; [reflexivity|].
      cbn [Strptime.code_point] in Hcp. cbv zeta in Hcp.
      destruct (Z.ltb_spec (Strptime.byte c) 128) as [Hb|Hb].
      - injection Hcp as <- _. lia.
      - unfold Strptime.ascii_digit. cbv zeta.
        destruct (Z.leb_spec (Strptime.byte c) 57); [lia|].
        now rewrite andb_false_r. }
    destruct Hhead as (c & rest & -> & Hc).
    cbn [app]. rewrite (in_range_not_ascii 0 9 _ _ Hc). cbn [Strptime.orelse].
    change (c :: rest ++ t) with ((c :: rest) ++ t).
    rewrite (code_point_app _ _ t Hcp).
    destruct (Z.leb_spec 128 n); [|lia]. now rewrite Hd.
Qed.

Lemma digit_inv s v r :
  Strptime.digit decimal_digit s = Some (v, r) ->
  exists cs, s = cs ++ r /\ decimal_char cs v.
Proof.
  unfold Strptime.digit. intros H.
  apply orelse_inv in H as [H | [_ H]].
  - apply in_range_inv in H as (c & -> & Hc & _).
    exists [c]. split; [reflexivity | now constructor].
  - destruct (Strptime.code_point s) as [[n rest]|] eqn:Hcp; [|discriminate].
    destruct (Z.leb_spec 128 n) as [Hn|Hn]; [|discriminate].
    destruct (decimal_digit n) as [v'|] eqn:Hd; [|discriminate].
    injection H as <- <-.
    apply code_point_inv in Hcp as (cs & -> & Hcs).
    exists cs. split; [reflexivity|].
    apply decimal_other with n; [|exact Hn | exact Hd].
    specialize (Hcs []). now rewrite app_nil_r in Hcs.
Qed.

(** *** The groups of the pattern *)

Lemma group_Y_inv s y r :
  Strptime.group_Y decimal_digit s = Some (y, r) -> exists Y, s = Y ++ r /\ year_field Y y.
Proof.
  unfold Strptime.group_Y.
  destruct (Strptime.digit _ s) as [[va s1]|] eqn:Ha; [|discriminate].
  destruct (Strptime.digit _ s1) as [[vb s2]|] eqn:Hb; [|discriminate].
  destruct (Strptime.digit _ s2) as [[vc s3]|] eqn:Hc; [|discriminate].
  destruct (Strptime.digit _ s3) as [[vd s4]|] eqn:Hd; [|discriminate].
  intros [= <- <-].
  apply digit_inv in Ha as (a & -> & Ha). apply digit_inv in Hb as (b & -> & Hb).
  apply digit_inv in Hc as (c & -> & Hc). apply digit_inv in Hd as (d & -> & Hd).
  exists (a ++ b ++ c ++ d). split; [now rewrite <- !app_assoc|].
  replace (_ + _) with (1000 * va + 100 * vb + 10 * vc + vd) by lia.
  now constructor.
Qed.

Lemma two_inv p q s v r :
  Strptime.two p q s = Some (v, r) ->
  exists va vb s1, p s = Some (va, s1) /\ q s1 = Some (vb, r) /\ v = va * 10 + vb.
Proof.
  unfold Strptime.two.
  destruct (p s) as [[va s1]|] eqn:Hp; [|discriminate].
  destruct (q s1) as [[vb s2]|] eqn:Hq; [|discriminate].
  intros [= <- <-]. exists va, vb, s1. auto.
Qed.

Lemma two_digits_numeral lo1 hi1 lo2 hi2 s v r :
  Strptime.two (Strptime.in_range lo1 hi1) (Strptime.in_range lo2 hi2) s = Some (v, r) ->
  exists cs, s = cs ++ r /\ numeral cs v.
Proof.
  intros H. apply two_inv in H as (va & vb & s1 & Ha & Hb & ->).
  apply in_range_inv in Ha as (a & -> & Ha & _).
  apply in_range_inv in Hb as (b & -> & Hb & _).
  exists [a; b]. split; [reflexivity|].
  replace (va * 10 + vb) with (10 * va + vb) by lia. now constructor.
Qed.

Lemma one_digit_numeral lo hi s v r :
  Strptime.in_range lo hi s = Some (v, r) ->
  exists cs, s = cs ++ r /\ numeral cs v.
Proof.
  intros H. apply in_range_inv in H as (a & -> & Ha & _).
  exists [a]. split; [reflexivity|]. now constructor.
Qed.

Lemma group_m_inv s m r :
  Strptime.group_m s = Some (m, r) -> exists M, s = M ++ r /\ numeral M m.
Proof.
  unfold Strptime.group_m. intros H.
  apply orelse_inv in H as [H|[_ H]]; [now apply two_digits_numeral in H|].
  apply orelse_inv in H as [H|[_ H]]; [now apply two_digits_numeral in H|].
  now apply one_digit_numeral in H.
Qed.

Lemma blank_inv s v r :
  Strptime.blank s = Some (v, r) -> s = " "%char :: r /\ v = 0.
Proof.
  unfold Strptime.blank. destruct s as [|c s]; [discriminate|].
  destruct (Ascii.eqb c " ") eqn:E; [|discriminate].
  apply Ascii.eqb_eq in E. now intros [= <- <-]; subst.
Qed.

Lemma group_d_inv s d r :
  Strptime.group_d decimal_digit s = Some (d, r) -> exists D, s = D ++ r /\ day_field D d.
Proof.
  unfold Strptime.group_d. intros H.
  apply orelse_inv in H as [H|[_ H]].
  { apply two_digits_numeral in H as (cs & ? & ?). exists cs. split; [easy | now constructor]. }
  apply orelse_inv in H as [H|[_ H]].
  { apply two_inv in H as (va & vb & s1 & Ha & Hb & ->).
    apply in_range_inv in Ha as (a & -> & Ha & Hr).
    apply digit_inv in Hb as (cs & -> & Hb).
    exists (a :: cs). split; [reflexivity|].
    replace (va * 10 + vb) with (10 * va + vb) by lia. now apply day_teens. }
  apply orelse_inv in H as [H|[_ H]].
  { apply two_digits_numeral in H as (cs & ? & ?). exists cs. split; [easy | now constructor]. }
  apply orelse_inv in H as [H|[_ H]].
  { apply one_digit_numeral in H as (cs & ? & ?). exists cs. split; [easy | now constructor]. }
  apply two_inv in H as (va & vb & s1 & Ha & Hb & ->).
  apply blank_inv in Ha as [-> ->]. apply in_range_inv in Hb as (b & -> & Hb & _).
  exists [" "%char; b]. split; [reflexivity|]. now apply day_blank.
Qed.

Lemma some_pair_eq {A} (x y : Z) (r : A) : x = y -> Some (x, r) = Some (y, r).
Proof. now intros ->. Qed.

Lemma group_Y_complete Y y r :
  year_field Y y -> Strptime.group_Y decimal_digit (Y ++ r) = Some (y, r).
Proof.
  intros [a b c d va vb vc vd Ha Hb Hc Hd].
  unfold Strptime.group_Y. rewrite <- !app_assoc.
  rewrite (digit_complete _ _ _ Ha), (digit_complete _ _ _ Hb),
          (digit_complete _ _ _ Hc), (digit_complete _ _ _ Hd).
  apply some_pair_eq. lia.
Qed.

Lemma ascii_digit_hyphen : Strptime.ascii_digit "-" = None.
Proof. reflexivity. Qed.

Lemma ascii_digit_blank : Strptime.ascii_digit " " = None.
Proof. reflexivity. Qed.

Lemma blank_digit c v r : Strptime.ascii_digit c = Some v -> Strptime.blank (c :: r) = None.
Proof.
  intros H. unfold Strptime.blank. destruct (Ascii.eqb_spec c " ") as [->|_]; [|reflexivity].
  rewrite ascii_digit_blank in H. discriminate.
Qed.

(** Running the alternatives of a group on a text whose first characters
    are known. *)
Ltac run_group :=
  repeat first
    [ rewrite in_range_not_ascii by (first [apply ascii_digit_hyphen | apply ascii_digit_blank])
    | match goal with
      | H : Strptime.ascii_digit ?c = Some _ |- context [Strptime.in_range ?lo ?hi (?c :: ?r)] =>
          rewrite (in_range_eq lo hi c _ r H)
      | H : Strptime.ascii_digit ?c = Some _ |- context [Strptime.blank (?c :: ?r)] =>
          rewrite (blank_digit c _ r H)
      | |- context [?a <=? ?b] =>
          let E := fresh "E" in destruct (Z.leb_spec a b) as [E|E]; try lia
      end
    | progress cbn [andb Strptime.orelse Strptime.two Strptime.blank Ascii.eqb Bool.eqb] ].

Lemma group_m_complete M m r :
  numeral M m -> 1 <= m <= 12 ->
  Strptime.group_m (M ++ "-"%char :: r) = Some (m, "-"%char :: r).
Proof.
  intros [c v Hc | c1 c2 v1 v2 H1 H2] Hm.
  - pose proof (ascii_digit_bounds _ _ Hc).
    unfold Strptime.group_m, Strptime.two. cbn [app].
    run_group; reflexivity.
  - pose proof (ascii_digit_bounds _ _ H1). pose proof (ascii_digit_bounds _ _ H2).
    unfold Strptime.group_m, Strptime.two. cbn [app].
    run_group; try (apply some_pair_eq; lia).
Qed.

Lemma decimal_char_head cs v :
  decimal_char cs v -> exists c rest, cs = c :: rest.
Proof.
  intros [c v' _ | cs' n v' Hcp _ _]; [eauto|].
  destruct cs' as [|c rest]; [discriminate | eauto].
Qed.

Lemma group_d_complete D d :
  day_field D d -> 1 <= d <= 31 ->
  Strptime.group_d decimal_digit (D ++ []) = Some (d, []).
Proof.
  intros [cs v [c v' Hc | c1 c2 v1 v2 H1 H2] | c v1 cs v2 Hc Hv Hcs | c v Hc] Hd.
  - pose proof (ascii_digit_bounds _ _ Hc).
    unfold Strptime.group_d, Strptime.two. cbn [app].
    run_group; reflexivity.
  - pose proof (ascii_digit_bounds _ _ H1). pose proof (ascii_digit_bounds _ _ H2).
    assert (Hdig : forall t, Strptime.digit decimal_digit (c2 :: t) = Some (v2, t)).
    { intros t. apply (digit_complete [c2] v2 t). now constructor. }
    unfold Strptime.group_d, Strptime.two. cbn [app].
    run_group; rewrite ?Hdig; try (apply some_pair_eq; lia).
  - unfold Strptime.group_d, Strptime.two. cbn [app].
    run_group; rewrite ?(digit_complete _ _ [] Hcs); run_group;
      try (apply some_pair_eq; lia).
  - pose proof (ascii_digit_bounds _ _ Hc).
    unfold Strptime.group_d, Strptime.two. cbn [app].
    run_group; try (apply some_pair_eq; lia).
Qed.

Lemma strptime_date_reads s d :
  Strptime.strptime_date decimal_digit s = Some d <-> reads s d.
Proof.
  unfold Strptime.strptime_date, Strptime.regex_match. split.
  - destruct (Strptime.group_Y _ _) as [[y s1]|] eqn:HY; [|discriminate].
    destruct (Strptime.hyphen s1) as [s2|] eqn:H1; [|discriminate].
    destruct (Strptime.group_m s2) as [[m s3]|] eqn:HM; [|discriminate].
    destruct (Strptime.hyphen s3) as [s4|] eqn:H2; [|discriminate].
    destruct (Strptime.group_d _ s4) as [[dd s5]|] eqn:HD; [|discriminate].
    destruct s5; [|discriminate].
    unfold PyDate.make. destruct (PyDate.check_date_fields y m dd) eqn:HC; [|discriminate].
    intros [= <-].
    apply group_Y_inv in HY as (Y & HY & ?). apply hyphen_inv in H1.
    apply group_m_inv in HM as (M & HM & ?). apply hyphen_inv in H2.
    apply group_d_inv in HD as (D & HD & ?).
    exists Y, M, D, y, m, dd. rewrite HY, H1, HM, H2, HD, app_nil_r. auto 10.
  - intros (Y & M & D & y & m & dd & -> & HY & HM & HD & HC & ->).
    destruct (check_date_fields_bounds _ _ _ HC).
    rewrite (group_Y_complete _ _ _ HY). simpl.
    rewrite (group_m_complete _ _ _ HM) by assumption. simpl.
    rewrite <- (app_nil_r D), (group_d_complete _ _ HD) by assumption.
    unfold PyDate.make. now rewrite HC.
Qed.

(** C10. [convert_date] returns every value that is not a string (None,
    an integer, a float, bytes, a date) unchanged: there is no validation
    of such an input and no error. *)
Theorem C10_convert_date_passes_non_strings (v : value) :
  isinstance_str v = false -> convert_date v = inr v.
Proof. destruct v; simpl; [reflexivity .. | discriminate | reflexivity | reflexivity]. Qed.

(** C6, as amended.  A string is converted exactly when it [reads] as a
    date: a year of four decimal digits, a hyphen, a month of one or two
    ASCII digits, a hyphen, and a day of one or two ASCII digits, or of
    1 or 2 and one decimal digit, or of a space and one ASCII digit, which
    together are a date of the calendar; a decimal digit is an ASCII digit
    or a decimal digit of another script.  Every other string raises
    [ValueError], "2024-02-30" among them.  A date is returned unchanged. *)
Theorem C6_convert_date_reads :
  (forall s d, convert_date (PyStr s) = inr (PyDate d) <-> reads s d)
  /\ (forall s, (exists d, convert_date (PyStr s) = inr (PyDate d))
                \/ convert_date (PyStr s) = inl ValueError)
  /\ convert_date (PyStr "2024-02-30") = inl ValueError
  /\ (forall d, convert_date (PyDate d) = inr (PyDate d)).
Proof.
  repeat split.
  - intros H. apply strptime_date_reads. simpl in H.
    destruct (Strptime.strptime_date decimal_digit s); [now injection H as -> | discriminate].
  - intros H. apply strptime_date_reads in H. simpl. now rewrite H.
  - intros s. simpl. destruct (Strptime.strptime_date decimal_digit s); eauto.
Qed.

(** ** The frame *)

Lemma frame_refl w : frame w w.
Proof. unfold frame. auto 10. Qed.

Lemma frame_trans w1 w2 w3 : frame w1 w2 -> frame w2 w3 -> frame w1 w3.
Proof.
  unfold frame. intros (? & ? & ? & ? & ? & ?) (? & ? & ? & ? & ? & ?).
  repeat split; try congruence. lia.
Qed.

Ltac solve_frame := unfold frame; simpl; repeat split; solve [auto | lia].

Lemma in_window_mono clk n n' d :
  (n <= n')%nat -> in_window clk n' d -> in_window clk n d.
Proof. intros Hn (k & Hk & H). exists k. split; [lia | exact H]. Qed.

Lemma windowed_mono clk n n' o :
  (n <= n')%nat -> windowed clk n' o -> windowed clk n o.
Proof.
  intros Hn. destruct o; simpl; auto.
  - intros [? ?]. split; eapply in_window_mono; eauto.
  - apply in_window_mono; assumption.
Qed.

Lemma added_app a b : added (a ++ b) = added a ++ added b.
Proof.
  induction a as [|e a IH]; simpl; [reflexivity|].
  destruct e; simpl; rewrite ?IH; reflexivity.
Qed.

Lemma added_map_Add os : added (map Add os) = os.
Proof. induction os; simpl; congruence. Qed.

(** ** [fake_date] *)

Lemma randint_bounds w :
  1 <= 1 + Z.of_nat (entropy w (draws w)) mod (365 - 1 + 1) <= 365.
Proof.
  pose proof (Z.mod_pos_bound (Z.of_nat (entropy w (draws w))) (365 - 1 + 1)). lia.
Qed.

Lemma fake_date_value w :
  fake_date w =
  Result (Returned (PyDate.add_days (clock w (clock_reads w))
                      (1 + Z.of_nat (entropy w (draws w)) mod 365)))
         (set_draws (S (draws w)) (set_clock_reads (S (clock_reads w)) w)) [].
Proof. reflexivity. Qed.

Lemma fake_date_run w :
  exists n,
    1 <= n <= 365
    /\ fake_date w =
       Result (Returned (PyDate.add_days (clock w (clock_reads w)) n))
              (set_draws (S (draws w)) (set_clock_reads (S (clock_reads w)) w)) [].
Proof.
  exists (1 + Z.of_nat (entropy w (draws w)) mod (365 - 1 + 1)).
  split; [apply randint_bounds | reflexivity].
Qed.

Lemma add_days_in_window clk k n m :
  (n <= k)%nat -> 1 <= m <= 365 -> in_window clk n (PyDate.add_days (clk k) m).
Proof. intros Hk Hm. exists k. split; [exact Hk | simpl; lia]. Qed.

(** ** Running a computation step by step *)

Lemma bind_Returned {A B} (m : M A) (f : A -> M B) w a w1 e1 :
  m w = Result (Returned a) w1 e1 ->
  bind m f w = Result (out (f a w1)) (after (f a w1)) (e1 ++ events (f a w1)).
Proof. unfold bind. now intros ->. Qed.

Lemma bind_Raised {A B} (m : M A) (f : A -> M B) w e w1 e1 :
  m w = Result (Raised e) w1 e1 ->
  bind m f w = Result (Raised e) w1 e1.
Proof. unfold bind. now intros ->. Qed.

Lemma result_eta {A} (r : result A) : Result (out r) (after r) (events r) = r.
Proof. now destruct r. Qed.

(** ** The bodies of the loops *)

Lemma add_new_ok T (new : row -> exn + T) (inj : T -> obj) t :
  (forall row, staged t row = (o <-' new row; inr (inj o))) ->
  (forall o, undated (inj o) = inj o /\ table_of (inj o) = t
             /\ forall clk n, windowed clk n (inj o)) ->
  body_ok t (add_new new inj).
Proof.
  intros Hs Hi row w. rewrite Hs. unfold add_new, bind. simpl.
  destruct (new row) as [e|o]; simpl.
  - split; [apply frame_refl|]. auto.
  - split; [solve_frame|]. split; [reflexivity|].
    exists (inj o). destruct (Hi o) as (? & ? & ?). auto 10.
Qed.

Lemma staff_body_ok : body_ok staff staff_body.
Proof. apply add_new_ok; [reflexivity | intros; simpl; auto]. Qed.

Lemma non_billable_body_ok : body_ok non_billable non_billable_body.
Proof. apply add_new_ok; [reflexivity | intros; simpl; auto]. Qed.

Lemma hours_log_body_ok : body_ok hours_log hours_log_body.
Proof. apply add_new_ok; [reflexivity | intros; simpl; auto]. Qed.

Lemma utilization_body_ok : body_ok utilization utilization_body.
Proof. apply add_new_ok; [reflexivity | intros; simpl; auto]. Qed.

Lemma new_Engagement_run row w r0 r1 r2 r3 :
  item row 0 = inr r0 -> item row 1 = inr r1 ->
  item row 2 = inr r2 -> item row 3 = inr r3 ->
  exists n1 n2,
    1 <= n1 <= 365 /\ 1 <= n2 <= 365
    /\ new_Engagement row w =
       Result (Returned (Engagement.Build r0 r1 fake_description
                           (PyDate.add_days (clock w (clock_reads w)) n1)
                           (PyDate.add_days (clock w (S (clock_reads w))) n2) r2 r3))
              (set_draws (S (S (draws w))) (set_clock_reads (S (S (clock_reads w))) w)) [].
Proof.
  intros H0 H1 H2 H3.
  destruct (fake_date_run w) as (n1 & Hn1 & E1).
  destruct (fake_date_run (set_draws (S (draws w)) (set_clock_reads (S (clock_reads w)) w)))
    as (n2 & Hn2 & E2).
  exists n1, n2. split; [assumption|]. split; [assumption|].
  unfold new_Engagement. rewrite H0, H1, H2, H3.
  do 4 (erewrite bind_Returned by reflexivity).
  erewrite bind_Returned by exact E1.
  erewrite bind_Returned by exact E2.
  reflexivity.
Qed.

Lemma new_Engagement_raises row w e :
  (id <-' item row 0; name <-' item row 1; tl <-' item row 2; st <-' item row 3;
   inr (id, name, tl, st)) = inl e ->
  new_Engagement row w = Result (Raised e) w [].
Proof.
  unfold new_Engagement.
  destruct (item row 0); simpl; [now intros [= ->]|].
  destruct (item row 1); simpl; [now intros [= ->]|].
  destruct (item row 2); simpl; [now intros [= ->]|].
  destruct (item row 3); simpl; [now intros [= ->]|].
  discriminate.
Qed.

Lemma engagement_body_ok : body_ok engagement engagement_body.
Proof.
  intros row w r. subst r. unfold engagement_body.
  destruct (item row 0) as [e|r0] eqn:H0;
    [erewrite bind_Raised by (apply new_Engagement_raises; rewrite H0; reflexivity);
     simpl; rewrite H0; simpl; auto using frame_refl|].
  destruct (item row 1) as [e|r1] eqn:H1;
    [erewrite bind_Raised by (apply new_Engagement_raises; rewrite H0, H1; reflexivity);
     simpl; rewrite H0, H1; simpl; auto using frame_refl|].
  destruct (item row 2) as [e|r2] eqn:H2;
    [erewrite bind_Raised by (apply new_Engagement_raises; rewrite H0, H1, H2; reflexivity);
     simpl; rewrite H0, H1, H2; simpl; auto using frame_refl|].
  destruct (item row 3) as [e|r3] eqn:H3;
    [erewrite bind_Raised by (apply new_Engagement_raises; rewrite H0, H1, H2, H3; reflexivity);
     simpl; rewrite H0, H1, H2, H3; simpl; auto using frame_refl|].
  destruct (new_Engagement_run row w _ _ _ _ H0 H1 H2 H3) as (n1 & n2 & Hn1 & Hn2 & E).
  erewrite bind_Returned by exact E.
  cbn [staged]. rewrite H0, H1, H2, H3. cbn [bindE out after events session_add app].
  split; [solve_frame|]. split; [reflexivity|].
  eexists. repeat split; try reflexivity; cbn [windowed Engagement.start_date Engagement.end_date].
  - apply add_days_in_window; [lia | assumption].
  - apply add_days_in_window; [lia | assumption].
Qed.

Lemma new_Proposal_run row w r0 r1 r2 r3 :
  item row 0 = inr r0 -> item row 1 = inr r1 ->
  item row 2 = inr r2 -> item row 3 = inr r3 ->
  exists n1,
    1 <= n1 <= 365
    /\ new_Proposal row w =
       Result (Returned (Proposal.Build r0 r1 fake_description
                           (PyDate.add_days (clock w (clock_reads w)) n1) r2 r3))
              (set_draws (S (draws w)) (set_clock_reads (S (clock_reads w)) w)) [].
Proof.
  intros H0 H1 H2 H3.
  destruct (fake_date_run w) as (n1 & Hn1 & E1).
  exists n1. split; [assumption|].
  unfold new_Proposal. rewrite H0, H1, H2, H3.
  do 4 (erewrite bind_Returned by reflexivity).
  erewrite bind_Returned by exact E1.
  reflexivity.
Qed.

Lemma new_Proposal_raises row w e :
  (id <-' item row 0; name <-' item row 1; tl <-' item row 2; st <-' item row 3;
   inr (id, name, tl, st)) = inl e ->
  new_Proposal row w = Result (Raised e) w [].
Proof.
  unfold new_Proposal.
  destruct (item row 0); simpl; [now intros [= ->]|].
  destruct (item row 1); simpl; [now intros [= ->]|].
  destruct (item row 2); simpl; [now intros [= ->]|].
  destruct (item row 3); simpl; [now intros [= ->]|].
  discriminate.
Qed.

Lemma proposal_body_ok : body_ok proposal proposal_body.
Proof.
  intros row w r. subst r. unfold proposal_body.
  destruct (item row 0) as [e|r0] eqn:H0;
    [erewrite bind_Raised by (apply new_Proposal_raises; rewrite H0; reflexivity);
     simpl; rewrite H0; simpl; auto using frame_refl|].
  destruct (item row 1) as [e|r1] eqn:H1;
    [erewrite bind_Raised by (apply new_Proposal_raises; rewrite H0, H1; reflexivity);
     simpl; rewrite H0, H1; simpl; auto using frame_refl|].
  destruct (item row 2) as [e|r2] eqn:H2;
    [erewrite bind_Raised by (apply new_Proposal_raises; rewrite H0, H1, H2; reflexivity);
     simpl; rewrite H0, H1, H2; simpl; auto using frame_refl|].
  destruct (item row 3) as [e|r3] eqn:H3;
    [erewrite bind_Raised by (apply new_Proposal_raises; rewrite H0, H1, H2, H3; reflexivity);
     simpl; rewrite H0, H1, H2, H3; simpl; auto using frame_refl|].
  destruct (new_Proposal_run row w _ _ _ _ H0 H1 H2 H3) as (n1 & Hn1 & E).
  erewrite bind_Returned by exact E.
  cbn [staged]. rewrite H0, H1, H2, H3. cbn [bindE out after events session_add app].
  split; [solve_frame|]. split; [reflexivity|].
  eexists. repeat split; try reflexivity; cbn [windowed Proposal.due_date].
  apply add_days_in_window; [lia | assumption].
Qed.

(** The handler of the loop over [leave_record] is never entered: the
    constructor call raises no [IntegrityError] and [db.session.add]
    raises nothing. *)
Lemma new_LeaveRecord_not_IntegrityError row :
  new_LeaveRecord row <> inl IntegrityError.
Proof.
  unfold new_LeaveRecord, item, convert_date.
  destruct (nth_error row 0); [|discriminate].
  destruct (nth_error row 1); [|discriminate].
  destruct (nth_error row 2) as [[| | |s| |]|]; simpl; try discriminate.
  destruct (Strptime.strptime_date decimal_digit s); discriminate.
Qed.

Lemma leave_record_body_run n row w :
  leave_record_body n row w =
  match new_LeaveRecord row with
  | inr l =>
      Result (Returned (S n))
             (set_session (committed w) (transaction w) (pending w ++ [OLeaveRecord l]) w)
             [Add (OLeaveRecord l)]
  | inl e => Result (Raised e) w []
  end.
Proof.
  pose proof (new_LeaveRecord_not_IntegrityError row) as H.
  unfold leave_record_body, try_except.
  destruct (new_LeaveRecord row) as [e|l].
  - erewrite bind_Raised by reflexivity. cbn [out after events].
    destruct e; try reflexivity. congruence.
  - reflexivity.
Qed.

(** ** The loops *)

Lemma for_each_ok t body :
  body_ok t body ->
  forall rows w,
    let r := for_each rows body w in
    frame w (after r)
    /\ transaction (after r) = transaction w
    /\ exists os,
        events r = map Add os
        /\ pending (after r) = pending w ++ os
        /\ Forall (fun o => table_of o = t /\ windowed (clock w) (clock_reads w) o) os
        /\ match mapE (staged t) rows with
           | inr os' => out r = Returned tt /\ map undated os = os'
           | inl e => out r = Raised e
           end.
Proof.
  intros Hb rows. induction rows as [|row rows IH]; intros w r; subst r.
  - simpl. split; [apply frame_refl|]. split; [reflexivity|].
    exists []. rewrite app_nil_r. auto.
  - cbn [for_each mapE].
    destruct (Hb row w) as (Hf & Ht & Hrow).
    destruct (staged t row) as [e|o'].
    + destruct Hrow as (Ho & Hp & He).
      destruct (body row w) as [o1 w1 e1] eqn:Hrun. cbn [out after events] in *. subst.
      erewrite bind_Raised by exact Hrun. cbn [out after events bindE].
      split; [assumption|]. split; [assumption|].
      exists []. rewrite app_nil_r. auto.
    + destruct Hrow as (o & Ho & Hp & He & Hu & Hc & Hw).
      destruct (body row w) as [o1 w1 e1] eqn:Hrun. cbn [out after events] in *. subst o1 e1.
      erewrite bind_Returned by exact Hrun.
      destruct (IH w1) as (Hf' & Ht' & os & He' & Hp' & Hall & Hout).
      cbn [out after events bindE].
      split; [eapply frame_trans; eassumption|].
      split; [congruence|].
      exists (o :: os). split; [cbn [map app]; now rewrite He'|].
      split; [rewrite Hp', Hp, <- app_assoc; reflexivity|].
      destruct Hf as (_ & Hclk & _ & Hn & _).
      split.
      { constructor; [auto|].
        eapply Forall_impl; [|exact Hall]. intros x [? Hx]. split; [assumption|].
        rewrite Hclk in Hx. eapply windowed_mono; eassumption. }
      destruct (mapE (staged t) rows) as [e|os'']; cbn [bindE].
      * assumption.
      * destruct Hout as [? ?]. split; [assumption|]. cbn [map]. congruence.
Qed.

Lemma leave_loop_ok :
  forall rows n w,
    let r := for_each_with rows n leave_record_body w in
    frame w (after r)
    /\ transaction (after r) = transaction w
    /\ exists os,
        events r = map Add os
        /\ pending (after r) = pending w ++ os
        /\ Forall (fun o => table_of o = leave_record
                            /\ windowed (clock w) (clock_reads w) o) os
        /\ match mapE (staged leave_record) rows with
           | inr os' =>
               out r = Returned (n + List.length rows)%nat /\ map undated os = os'
           | inl e => out r = Raised e
           end.
Proof.
  induction rows as [|row rows IH]; intros n w r; subst r.
  - simpl. split; [apply frame_refl|]. split; [reflexivity|].
    exists []. rewrite app_nil_r, Nat.add_0_r. auto.
  - cbn [for_each_with mapE staged].
    pose proof (leave_record_body_run n row w) as Hrun.
    destruct (new_LeaveRecord row) as [e|l]; cbn [bindE].
    + erewrite bind_Raised by exact Hrun. cbn [out after events].
      split; [apply frame_refl|]. split; [reflexivity|].
      exists []. rewrite app_nil_r. auto.
    + erewrite bind_Returned by exact Hrun.
      match goal with |- context [for_each_with rows (S n) _ ?w1] =>
        destruct (IH (S n) w1) as (Hf' & Ht' & os & He' & Hp' & Hall & Hout) end.
      cbn [out after events].
      split; [eapply frame_trans; [|exact Hf']; solve_frame|].
      split; [rewrite Ht'; reflexivity|].
      exists (OLeaveRecord l :: os). split; [cbn [map app]; now rewrite He'|].
      split; [rewrite Hp'; cbn [pending set_session]; rewrite <- app_assoc; reflexivity|].
      split.
      { constructor; [simpl; auto|]. exact Hall. }
      fold (staged leave_record).
      destruct (mapE (staged leave_record) rows) as [e|os'']; cbn [bindE].
      * assumption.
      * destruct Hout as [Ho ?]. split; [|cbn [map undated]; congruence].
        rewrite Ho. f_equal. cbn [List.length]. lia.
Qed.

(** ** The "Transfer ... data" sections *)

Lemma transfer_table_ok c t body :
  body_ok t body -> section_ok c t (transfer_table c t body).
Proof.
  intros Hb w r. subst r. unfold transfer_table, plan.
  erewrite bind_Returned by reflexivity.
  destruct (fetch c t) as [e|rows] eqn:Hfetch; cbn [bindE].
  - erewrite bind_Raised by (unfold select_all; rewrite Hfetch; reflexivity).
    cbn [out after events app].
    split; [apply frame_refl|]. split; [reflexivity|].
    exists [], []. rewrite !app_nil_r. cbn [map]. auto 10.
  - erewrite bind_Returned by (unfold select_all; rewrite Hfetch; reflexivity).
    destruct (for_each_ok _ _ Hb rows w) as (Hf & Ht & os & He & Hp & Hall & Hout).
    destruct (for_each rows body w) as [o1 w1 e1] eqn:Hrun.
    cbn [out after events] in *. subst e1.
    destruct (mapE (staged t) rows) as [e|os'].
    + subst o1. erewrite bind_Raised by exact Hrun. cbn [out after events app].
      split; [assumption|]. split; [assumption|].
      exists os, []. rewrite !app_nil_r. auto 10.
    + destruct Hout as [-> Hu].
      erewrite bind_Returned by exact Hrun. cbn [out after events app logging_info].
      split; [assumption|]. split; [assumption|].
      exists os, [Log INFO (Transferred (List.length rows) t)]. eauto 10.
Qed.

Lemma transfer_leave_records_ok c :
  section_ok c leave_record (transfer_leave_records c).
Proof.
  intros w r. subst r. unfold transfer_leave_records, plan.
  erewrite bind_Returned by reflexivity.
  destruct (fetch c leave_record) as [e|rows] eqn:Hfetch; cbn [bindE].
  - erewrite bind_Raised by (unfold select_all; rewrite Hfetch; reflexivity).
    cbn [out after events app].
    split; [apply frame_refl|]. split; [reflexivity|].
    exists [], []. rewrite !app_nil_r. cbn [map]. auto 10.
  - erewrite bind_Returned by (unfold select_all; rewrite Hfetch; reflexivity).
    destruct (leave_loop_ok rows 0 w) as (Hf & Ht & os & He & Hp & Hall & Hout).
    destruct (for_each_with rows 0%nat leave_record_body w) as [o1 w1 e1] eqn:Hrun.
    cbn [out after events] in *. subst e1.
    destruct (mapE (staged leave_record) rows) as [e|os'].
    + subst o1. erewrite bind_Raised by exact Hrun. cbn [out after events app].
      split; [assumption|]. split; [assumption|].
      exists os, []. rewrite !app_nil_r. auto 10.
    + destruct Hout as [-> Hu].
      erewrite bind_Returned by exact Hrun. cbn [out after events app logging_info].
      split; [assumption|]. split; [assumption|].
      exists os, [Log INFO (Transferred (0 + List.length rows) leave_record)]. eauto 10.
Qed.


(** ** Sequencing *)

Lemma bind_assoc {A B C} (m : M A) (f : A -> M B) (g : B -> M C) w :
  bind (bind m f) g w = bind m (fun a => bind (f a) g) w.
Proof.
  unfold bind. destruct (m w) as [[a|e] w1 e1]; cbn [out after events]; [|reflexivity].
  destruct (f a w1) as [[b|e] w2 e2]; cbn [out after events]; [|reflexivity].
  now rewrite app_assoc.
Qed.

Lemma bind_ext {A B} (m : M A) (f g : A -> M B) w :
  (forall a w', f a w' = g a w') -> bind m f w = bind m g w.
Proof. intros H. unfold bind. destruct (out (m w)); [now rewrite H | reflexivity]. Qed.

Lemma Forall_staging_added_map os :
  Forall staging_event (map Add os).
Proof. induction os; simpl; constructor; simpl; auto. Qed.

Lemma section_stages c t m :
  section_ok c t m -> stages_ok (fun o => table_of o = t) (plan c t) m.
Proof.
  intros H w r. subst r.
  destruct (H w) as (Hf & Ht & os & tail & He & Htail & Hp & Hall & Hout).
  assert (Ha : added (events (m w)) = os).
  { rewrite He. cbn [added]. rewrite added_app, added_map_Add.
    destruct Htail as [-> | [n ->]]; cbn [added]; apply app_nil_r. }
  assert (Hs : Forall staging_event (events (m w))).
  { rewrite He. constructor; [exact I|]. constructor; [exact I|].
    apply Forall_app. split; [apply Forall_staging_added_map|].
    destruct Htail as [-> | [n ->]]; repeat constructor. }
  rewrite Ha. auto 10.
Qed.

Lemma stages_weaken (P Q : obj -> Prop) k m :
  (forall o, P o -> Q o) -> stages_ok P k m -> stages_ok Q k m.
Proof.
  intros HPQ H w r. subst r.
  destruct (H w) as (Hf & Ht & He & Hp & Hall & Hout).
  do 4 (split; [assumption|]). split; [|assumption].
  eapply Forall_impl; [|exact Hall]. intros o [? ?]. auto.
Qed.

Lemma stages_seq P k1 k2 m1 m2 :
  stages_ok P k1 m1 -> stages_ok P k2 m2 ->
  stages_ok P (a <-' k1; b <-' k2; inr (a ++ b)) (m1 ;; m2).
Proof.
  intros H1 H2 w r. subst r.
  destruct (H1 w) as (Hf1 & Ht1 & He1 & Hp1 & Hall1 & Hout1).
  destruct (m1 w) as [o1 w1 e1] eqn:Hrun1. cbn [out after events] in *.
  destruct k1 as [e|os1]; cbn [bindE].
  - subst o1. erewrite bind_Raised by exact Hrun1. cbn [out after events].
    auto 10.
  - destruct Hout1 as [-> Hu1]. erewrite bind_Returned by exact Hrun1.
    destruct (H2 w1) as (Hf2 & Ht2 & He2 & Hp2 & Hall2 & Hout2).
    cbn [out after events]. rewrite added_app.
    split; [eapply frame_trans; eassumption|].
    split; [congruence|].
    split; [apply Forall_app; auto|].
    split; [rewrite Hp2, Hp1, app_assoc; reflexivity|].
    split.
    { apply Forall_app. split; [assumption|].
      destruct Hf1 as (_ & Hclk & _ & Hn & _).
      eapply Forall_impl; [|exact Hall2]. intros x [? Hx]. split; [assumption|].
      rewrite Hclk in Hx. eapply windowed_mono; eassumption. }
    destruct k2 as [e|os2]; cbn [bindE]; [assumption|].
    destruct Hout2 as [? ?]. split; [assumption|].
    rewrite map_app. congruence.
Qed.

Lemma plan_after_flush_eq c :
  plan_after_flush c =
  (a <-' plan c engagement;
   b <-' (a <-' plan c proposal;
          b <-' (a <-' plan c non_billable;
                 b <-' (a <-' plan c hours_log;
                        b <-' (a <-' plan c leave_record;
                               b <-' plan c utilization; inr (a ++ b));
                        inr (a ++ b));
                 inr (a ++ b));
          inr (a ++ b));
   inr (a ++ b)).
Proof.
  unfold plan_after_flush.
  destruct (plan c engagement); cbn [bindE]; [reflexivity|].
  destruct (plan c proposal); cbn [bindE]; [reflexivity|].
  destruct (plan c non_billable); cbn [bindE]; [reflexivity|].
  destruct (plan c hours_log); cbn [bindE]; [reflexivity|].
  destruct (plan c leave_record); cbn [bindE]; [reflexivity|].
  destruct (plan c utilization); cbn [bindE]; reflexivity.
Qed.

Lemma sections_after_flush_ok c :
  stages_ok (fun o => table_of o <> staff) (plan_after_flush c)
            (sections_after_flush c).
Proof.
  rewrite plan_after_flush_eq. unfold sections_after_flush.
  repeat apply stages_seq;
    (eapply stages_weaken;
     [| apply section_stages;
        first [ apply transfer_leave_records_ok
              | apply transfer_table_ok;
                first [ apply engagement_body_ok | apply proposal_body_ok
                      | apply non_billable_body_ok | apply hours_log_body_ok
                      | apply utilization_body_ok ] ] ];
     cbv beta; intros o ->; discriminate).
Qed.

Lemma try_block_sections c w :
  try_block c w =
  (begin_nested ;;
   clear_tables ;;
   transfer_table c staff staff_body ;;
   session_flush ;;
   sections_after_flush c ;;
   session_commit ;;
   logging_info Completed ;;
   ret true) w.
Proof.
  unfold try_block, sections_after_flush.
  do 4 (apply bind_ext; intros _ ?).
  repeat (rewrite bind_assoc; apply bind_ext; intros _ ?).
  reflexivity.
Qed.


(** ** The store and the synthesized dates *)

Lemma primary_key_map {A B} (f : A -> B) (ida : A -> value) (idb : B -> value) rows i :
  (forall x, idb (f x) = ida x) ->
  primary_key (map idb (map f rows)) i = primary_key (map ida rows) i.
Proof.
  intros H. rewrite map_map. f_equal. apply map_ext. exact H.
Qed.

Lemma stored_undated o : stored (undated o) = undated (stored o).
Proof. destruct o; reflexivity. Qed.

Lemma insert_row_undated o d :
  insert_row (undated o) (undated_db d) =
  match insert_row o d with inl e => inl e | inr d' => inr (undated_db d') end.
Proof.
  destruct o as [s|e|p|n|h|l|u]; cbn [undated insert_row undated_db staff_rows engagement_rows
    proposal_rows non_billable_rows hours_log_rows leave_record_rows utilization_rows].
  - destruct (insert_staff s (staff_rows d)); reflexivity.
  - unfold insert_engagement. cbn [Engagement.id Engagement.name Engagement.status].
    rewrite (primary_key_map undated_engagement Engagement.id Engagement.id) by reflexivity.
    destruct (primary_key _ _); cbn [bindE]; [reflexivity|].
    destruct (not_null (Engagement.name e)); cbn [bindE]; [reflexivity|].
    destruct (not_null (Engagement.status e)); cbn [bindE]; [reflexivity|].
    unfold undated_db. cbn. rewrite map_app. reflexivity.
  - unfold insert_proposal. cbn [Proposal.id Proposal.name Proposal.status].
    rewrite (primary_key_map undated_proposal Proposal.id Proposal.id) by reflexivity.
    destruct (primary_key _ _); cbn [bindE]; [reflexivity|].
    destruct (not_null (Proposal.name p)); cbn [bindE]; [reflexivity|].
    destruct (not_null (Proposal.status p)); cbn [bindE]; [reflexivity|].
    unfold undated_db. cbn. rewrite map_app. reflexivity.
  - destruct (insert_non_billable n (non_billable_rows d)); reflexivity.
  - destruct (insert_hours_log h (hours_log_rows d)); reflexivity.
  - destruct (insert_leave_record l (leave_record_rows d)); reflexivity.
  - destruct (insert_utilization u (utilization_rows d)); reflexivity.
Qed.

Lemma insert_undated o d :
  insert (undated o) (undated_db d) =
  match insert o d with inl e => inl e | inr d' => inr (undated_db d') end.
Proof. unfold insert. rewrite stored_undated. apply insert_row_undated. Qed.

Lemma insert_all_undated os d :
  insert_all (map undated os) (undated_db d) =
  match insert_all os d with inl e => inl e | inr d' => inr (undated_db d') end.
Proof.
  revert d. induction os as [|o os IH]; intros d; cbn [map insert_all]; [reflexivity|].
  rewrite insert_undated. destruct (insert o d) as [e|d']; cbn [bindE]; [reflexivity|].
  apply IH.
Qed.

Lemma undated_staff_only os :
  Forall (fun o => table_of o = staff) os -> map undated os = os.
Proof.
  induction 1 as [|o os Ho _ IH]; cbn [map]; [reflexivity|].
  rewrite IH. destruct o; try discriminate. reflexivity.
Qed.

Lemma insert_staff_keeps_dated os : forall d d',
  Forall (fun o => table_of o = staff) os ->
  insert_all os d = inr d' ->
  engagement_rows d' = engagement_rows d /\ proposal_rows d' = proposal_rows d.
Proof.
  induction os as [|o os IH]; intros d d' Hall; cbn [insert_all].
  - intros [= ->]. auto.
  - inversion Hall as [|? ? Ho Hos]; subst.
    destruct o; try discriminate. unfold insert. cbn [stored insert_row].
    destruct (insert_staff _ (staff_rows d)) as [e|rows]; cbn [bindE]; [discriminate|].
    intros H. apply (IH _ _ Hos) in H. exact H.
Qed.


Lemma mapE_Forall {A B} (f : A -> exn + B) (P : B -> Prop) l l' :
  (forall x y, f x = inr y -> P y) -> mapE f l = inr l' -> Forall P l'.
Proof.
  intros H. revert l'. induction l as [|x l IH]; intros l'; cbn [mapE].
  - intros [= <-]. constructor.
  - destruct (f x) as [e|y] eqn:E; cbn [bindE]; [discriminate|].
    destruct (mapE f l) as [e|ys]; cbn [bindE]; [discriminate|].
    intros [= <-]. constructor; eauto.
Qed.

Lemma mapE_Forall2 {A B} (f : A -> exn + B) l l' :
  mapE f l = inr l' -> Forall2 (fun x y => f x = inr y) l l'.
Proof.
  revert l'. induction l as [|x l IH]; intros l'; cbn [mapE].
  - intros [= <-]. constructor.
  - destruct (f x) as [e|y] eqn:E; cbn [bindE]; [discriminate|].
    destruct (mapE f l) as [e|ys]; cbn [bindE]; [discriminate|].
    intros [= <-]. constructor; auto.
Qed.

Lemma staged_table_of t row o : staged t row = inr o -> table_of o = t.
Proof.
  destruct t; cbn [staged];
    repeat match goal with
           | |- (_ <-' ?x; _) = _ -> _ => destruct x; cbn [bindE]; [discriminate|]
           end;
    now intros [= <-].
Qed.

Lemma plan_table_of c t os :
  plan c t = inr os -> Forall (fun o => table_of o = t) os.
Proof.
  unfold plan. destruct (fetch c t) as [e|rows]; cbn [bindE]; [discriminate|].
  apply mapE_Forall. intros row o. apply staged_table_of.
Qed.

Lemma clear_tables_run w :
  (begin_nested ;; clear_tables) w =
  Result (Returned tt) (set_session (committed w) (Some empty_database) (pending w) w)
         clearing_events.
Proof. reflexivity. Qed.


(** ** The [try] block *)

Lemma frame_static w w' : frame w w' -> static w w'.
Proof. unfold frame, static. intuition. Qed.

Lemma staging_before_flush evs :
  Forall staging_event evs ->
  Forall (fun o => table_of o = staff) (added evs) ->
  Forall before_flush evs.
Proof.
  induction evs as [|ev evs IH]; intros Hs Ha; [constructor|].
  inversion Hs as [|? ? Hev Hrest]; subst.
  destruct ev as [l m| | | | | |o| | |]; try destruct l;
    cbn [staging_event added] in *; try contradiction;
    try (constructor; [exact I | auto]).
  inversion Ha; subst. constructor; [assumption | auto].
Qed.

Lemma staging_after_flush clk n evs :
  Forall staging_event evs ->
  Forall (fun o => table_of o <> staff /\ windowed clk n o) (added evs) ->
  Forall (after_flush clk n) evs.
Proof.
  induction evs as [|ev evs IH]; intros Hs Ha; [constructor|].
  inversion Hs as [|? ? Hev Hrest]; subst.
  destruct ev as [l m| | | | | |o| | |]; try destruct l;
    cbn [staging_event added] in *; try contradiction;
    try (constructor; [exact I | auto]).
  inversion Ha; subst. constructor; [assumption | auto].
Qed.

Lemma try_block_run c w :
  pending w = [] ->
  let r := try_block c w in
  static w (after r)
  /\ open_connections (after r) = open_connections w
  /\ (exists ev1 ev2,
        events r = ev1 ++ ev2
        /\ Forall before_flush ev1
        /\ (ev2 = []
            \/ exists ev3,
                ev2 = Flush :: ev3
                /\ Forall (after_flush (clock w) (clock_reads w)) ev3
                /\ plan c staff = inr (added ev1)))
  /\ match reference c with
     | inr d =>
         out r = Returned true
         /\ undated_db (committed (after r)) = d
         /\ transaction (after r) = None
         /\ pending (after r) = []
     | inl e =>
         out r = Raised e /\ committed (after r) = committed w
     end.
Proof.
  intros Hpending r. subst r. rewrite try_block_sections.
  rewrite <- bind_assoc. erewrite bind_Returned by apply clear_tables_run.
  set (w1 := set_session (committed w) (Some empty_database) (pending w) w).
  (* the staff section *)
  pose proof (section_stages _ _ _ (transfer_table_ok c _ _ staff_body_ok) w1) as Hstaff.
  cbv zeta in Hstaff.
  destruct Hstaff as (Hf1 & Ht1 & He1 & Hp1 & Hall1 & Hout1).
  destruct (transfer_table c staff staff_body w1) as [o2 w2 e2] eqn:Hrun2.
  cbn [out after events] in *.
  assert (Hstaff_only : Forall (fun o => table_of o = staff) (added e2)).
  { eapply Forall_impl; [|exact Hall1]. now intros o [? _]. }
  assert (Hbefore : Forall before_flush (clearing_events ++ e2)).
  { apply Forall_app. split; [repeat constructor|].
    now apply staging_before_flush. }
  assert (Hf01 : frame w w1) by (subst w1; solve_frame).
  unfold reference.
  destruct (plan c staff) as [e|s] eqn:Hplan; cbn [bindE].
  { subst o2. erewrite bind_Raised by exact Hrun2. cbn [out after events].
    pose proof (frame_trans _ _ _ Hf01 Hf1) as Hf.
    split; [now apply frame_static|]. split; [apply Hf|].
    split; [|split; [reflexivity | apply Hf]].
    exists (clearing_events ++ e2), []. rewrite app_nil_r. auto. }
  destruct Hout1 as [-> Hs]. erewrite bind_Returned by exact Hrun2.
  rewrite (undated_staff_only _ Hstaff_only) in Hs.
  (* the flush *)
  assert (Hview2 : view w2 = empty_database) by (unfold view; now rewrite Ht1).
  assert (Hpend2 : pending w2 = s).
  { rewrite Hp1. subst w1. cbn [pending set_session]. now rewrite Hpending, Hs. }
  destruct (insert_all s empty_database) as [e|d1] eqn:Hflush; cbn [bindE].
  { erewrite bind_Raised
      by (unfold session_flush; rewrite Hpend2, Hview2, Hflush; reflexivity).
    cbn [out after events].
    pose proof (frame_trans _ _ _ Hf01 Hf1) as Hf.
    split; [now apply frame_static|]. split; [apply Hf|].
    split; [|split; [reflexivity | apply Hf]].
    exists (clearing_events ++ e2), [Flush]. rewrite <- app_assoc.
    split; [reflexivity|]. split; [assumption|]. right. exists [].
    rewrite added_app, Hs. auto. }
  erewrite bind_Returned
    by (unfold session_flush; rewrite Hpend2, Hview2, Hflush; reflexivity).
  set (w3 := set_session (committed w2) (Some d1) [] w2).
  assert (Hf03 : frame w w3).
  { eapply frame_trans; [exact Hf01|]. eapply frame_trans; [exact Hf1|].
    subst w3. solve_frame. }
  (* the sections between the flush and the commit *)
  pose proof (sections_after_flush_ok c w3) as Hrest. cbv zeta in Hrest.
  destruct Hrest as (Hf4 & Ht4 & He4 & Hp4 & Hall4 & Hout4).
  destruct (sections_after_flush c w3) as [o4 w4 e4] eqn:Hrun4.
  cbn [out after events] in *.
  assert (Hafter : Forall (after_flush (clock w) (clock_reads w)) e4).
  { apply staging_after_flush; [assumption|].
    eapply Forall_impl; [|exact Hall4]. intros o [? Hw]. split; [assumption|].
    destruct Hf03 as (_ & Hclk & _ & Hn & _). rewrite Hclk in Hw.
    eapply windowed_mono; eassumption. }
  pose proof (frame_trans _ _ _ Hf03 Hf4) as Hf04.
  destruct (plan_after_flush c) as [e|rest] eqn:Hplan2; cbn [bindE].
  { subst o4. erewrite bind_Raised by exact Hrun4. cbn [out after events].
    split; [now apply frame_static|]. split; [apply Hf04|].
    split; [|split; [reflexivity | apply Hf04]].
    exists (clearing_events ++ e2), (Flush :: e4).
    rewrite <- !app_assoc. split; [reflexivity|]. split; [assumption|].
    right. exists e4. rewrite added_app, Hs. auto. }
  destruct Hout4 as [-> Hrest]. erewrite bind_Returned by exact Hrun4.
  (* the commit *)
  assert (Hview4 : view w4 = d1) by (unfold view; rewrite Ht4; reflexivity).
  assert (Hpend4 : pending w4 = added e4) by (rewrite Hp4; reflexivity).
  assert (Hd1 : undated_db d1 = d1).
  { destruct (insert_staff_keeps_dated _ _ _ (plan_table_of _ _ _ Hplan) Hflush) as [E1 E2].
    destruct d1. unfold undated_db. cbn in *. now rewrite E1, E2. }
  pose proof (insert_all_undated (added e4) d1) as Hu.
  rewrite Hrest, Hd1 in Hu.
  destruct (insert_all (added e4) d1) as [e|d2] eqn:Hcommit.
  { rewrite Hu.
    erewrite bind_Raised
      by (unfold session_commit, session_flush;
          rewrite Hpend4, Hview4, Hcommit; reflexivity).
    cbn [out after events].
    split; [now apply frame_static|]. split; [apply Hf04|].
    split; [|split; [reflexivity | apply Hf04]].
    exists (clearing_events ++ e2), (Flush :: e4 ++ [Commit; Flush]).
    rewrite <- !app_assoc. split; [reflexivity|]. split; [assumption|].
    right. exists (e4 ++ [Commit; Flush]). split; [reflexivity|].
    split; [apply Forall_app; split; [assumption | repeat constructor]|].
    rewrite added_app, Hs. reflexivity. }
  rewrite Hu.
  erewrite bind_Returned
    by (unfold session_commit, session_flush;
        rewrite Hpend4, Hview4, Hcommit; reflexivity).
  erewrite bind_Returned by reflexivity.
  cbn [out after events ret view transaction committed pending set_session fs clock
       entropy clock_reads open_connections].
  split; [apply frame_static in Hf04; exact Hf04|]. split; [apply Hf04|].
  split; [|auto].
  exists (clearing_events ++ e2),
         (Flush :: e4 ++ [Commit; Flush; Log INFO Completed]).
  rewrite <- !app_assoc. split; [reflexivity|]. split; [assumption|].
  right. exists (e4 ++ [Commit; Flush; Log INFO Completed]). split; [reflexivity|].
  split; [apply Forall_app; split; [assumption | repeat constructor]|].
  rewrite added_app, Hs. reflexivity.
Qed.

(** ** [transfer_data], by what the path leads to *)

Lemma transfer_data_missing path w :
  fs w path = Missing ->
  transfer_data path w =
  Result (Returned false) w [Log INFO (Starting path); Log ERROR (NotFound path)].
Proof.
  intros H. unfold transfer_data.
  erewrite bind_Returned by reflexivity.
  erewrite bind_Returned by (unfold os_path_exists; rewrite H; reflexivity).
  reflexivity.
Qed.

Lemma transfer_data_unopenable path w :
  fs w path = Unopenable ->
  transfer_data path w =
  Result (Raised Sqlite3OperationalError) w [Log INFO (Starting path)].
Proof.
  intros H. unfold transfer_data.
  erewrite bind_Returned by reflexivity.
  erewrite bind_Returned by (unfold os_path_exists; rewrite H; reflexivity).
  cbn [negb].
  erewrite bind_Raised by (unfold sqlite3_connect; rewrite H; reflexivity).
  reflexivity.
Qed.

Lemma handlers_run e w :
  handlers e w =
  Result (Returned false) (rolled_back w) [Log ERROR (error_message e); Rollback].
Proof. destruct e; reflexivity. Qed.

Lemma transfer_data_connected path w c :
  connects (fs w path) = Some c ->
  transfer_data path w =
  let rb := try_block c (connected w) in
  match out rb with
  | Returned b =>
      Result (Returned b) (closed (after rb))
             (Log INFO (Starting path) :: Connect path :: events rb ++ [Close])
  | Raised e =>
      Result (Returned false) (closed (rolled_back (after rb)))
             (Log INFO (Starting path) :: Connect path
              :: events rb ++ [Log ERROR (error_message e); Rollback; Close])
  end.
Proof.
  intros H. unfold transfer_data.
  erewrite bind_Returned by reflexivity.
  assert (Hc : sqlite3_connect path w = Result (Returned c) (connected w) [Connect path]
               /\ os_path_exists path w = Result (Returned true) w []).
  { unfold sqlite3_connect, os_path_exists.
    destruct (fs w path); try discriminate; injection H as <-; split; reflexivity. }
  destruct Hc as [Hc Hx].
  erewrite bind_Returned by exact Hx. cbn [negb].
  erewrite bind_Returned by exact Hc.
  cbv zeta. unfold try_finally, try_except.
  destruct (try_block c (connected w)) as [[b|e] wb eb]; cbn [out after events].
  - cbn [close out after events app]. reflexivity.
  - rewrite handlers_run. cbn [close out after events app].
    rewrite <- app_assoc. reflexivity.
Qed.

(** ** Runs of [transfer_data] *)

Lemma pending_connected_new_session w : pending (connected (new_session w)) = [].
Proof. reflexivity. Qed.

Lemma try_block_begins c w :
  exists evs, events (try_block c w) = clearing_events ++ evs.
Proof.
  rewrite try_block_sections, <- bind_assoc.
  erewrite bind_Returned by apply clear_tables_run.
  eexists. reflexivity.
Qed.

(** C2. A run in which the [try] block raises, whatever the exception
    (a table the legacy file does not have, a date string that is no date,
    a constraint the store enforces, an error of a constructor call),
    returns [False] after a rollback: the committed store is the one the
    run found, and the session is left without transaction and without
    pending objects, so the clearing deletes and the flushed Staff rows
    are gone. *)
Theorem C2_fatal_error_rolls_back path w c e :
  connects (fs w path) = Some c ->
  out (try_block c (connected (new_session w))) = Raised e ->
  let r := transfer_data path (new_session w) in
  out r = Returned false
  /\ committed (after r) = committed w
  /\ transaction (after r) = None
  /\ pending (after r) = []
  /\ exists evs,
      events r = evs ++ [Log ERROR (error_message e); Rollback; Close]
      /\ In BeginNested evs.
Proof.
  intros Hc He r. subst r.
  rewrite (transfer_data_connected path (new_session w) c Hc). cbv zeta.
  destruct (try_block_run c _ (pending_connected_new_session w)) as (_ & _ & _ & Href).
  destruct (try_block_begins c (connected (new_session w))) as (evs & Hevs).
  destruct (try_block c (connected (new_session w))) as [ob wb eb].
  cbn [out after events] in *. subst ob eb.
  destruct (reference c) as [e'|d]; [|destruct Href as [[=] _]].
  destruct Href as [_ Hcommitted].
  cbn [out after events closed rolled_back committed transaction pending
       set_session set_open_connections].
  split; [reflexivity|]. split; [exact Hcommitted|]. split; [reflexivity|].
  split; [reflexivity|].
  exists (Log INFO (Starting path) :: Connect path :: clearing_events ++ evs).
  split; [reflexivity|]. right. right. left. reflexivity.
Qed.

Lemma reference_needs_tables c d t :
  reference c = inr d -> exists rows, fetch c t = inr rows.
Proof.
  unfold reference, plan_after_flush, plan. intros H.
  destruct (fetch c staff) eqn:E1; cbn [bindE] in H; [discriminate|].
  destruct (mapE (staged staff) l); cbn [bindE] in H; [discriminate|].
  destruct (insert_all l0 empty_database); cbn [bindE] in H; [discriminate|].
  destruct (fetch c engagement) eqn:E2; cbn [bindE] in H; [discriminate|].
  destruct (mapE (staged engagement) l1); cbn [bindE] in H; [discriminate|].
  destruct (fetch c proposal) eqn:E3; cbn [bindE] in H; [discriminate|].
  destruct (mapE (staged proposal) l3); cbn [bindE] in H; [discriminate|].
  destruct (fetch c non_billable) eqn:E4; cbn [bindE] in H; [discriminate|].
  destruct (mapE (staged non_billable) l5); cbn [bindE] in H; [discriminate|].
  destruct (fetch c hours_log) eqn:E5; cbn [bindE] in H; [discriminate|].
  destruct (mapE (staged hours_log) l7); cbn [bindE] in H; [discriminate|].
  destruct (fetch c leave_record) eqn:E6; cbn [bindE] in H; [discriminate|].
  destruct (mapE (staged leave_record) l9); cbn [bindE] in H; [discriminate|].
  destruct (fetch c utilization) eqn:E7; cbn [bindE] in H; [discriminate|].
  destruct t; eauto.
Qed.

(** A legacy file without one of the seven tables ([hours_log], say)
    makes the [try] block raise, so the run fails as C2 says. *)
Lemma missing_table_is_fatal path w tables t :
  fs w path = SqliteFile tables -> tables t = None ->
  exists e, out (try_block (Connection (Some tables)) (connected (new_session w))) = Raised e.
Proof.
  intros Hfs Ht.
  destruct (try_block_run (Connection (Some tables)) _ (pending_connected_new_session w))
    as (_ & _ & _ & Href).
  destruct (reference (Connection (Some tables))) as [e|d] eqn:E.
  - exists e. apply Href.
  - destruct (reference_needs_tables _ _ t E) as [rows Hrows].
    cbn [fetch] in Hrows. rewrite Ht in Hrows. discriminate.
Qed.

(** C3, as amended.  For a path that leads to nothing the function
    returns [False] at once: it logs the two messages and touches neither
    the legacy file nor the session nor the store.  For a 0-byte file,
    which exists and which SQLite opens as a database without tables, it
    also returns [False] and leaves the committed store as it was, but
    only after it has opened the transaction and sent the seven deletes,
    which the rollback undoes when the first SELECT fails. *)
Theorem C3_missing_or_empty_source path w :
  (fs w path = Missing ->
   transfer_data path w =
   Result (Returned false) w [Log INFO (Starting path); Log ERROR (NotFound path)])
  /\ (fs w path = zero_byte_file ->
      let r := transfer_data path w in
      out r = Returned false
      /\ committed (after r) = committed w
      /\ transaction (after r) = None
      /\ pending (after r) = []
      /\ open_connections (after r) = open_connections w
      /\ events r =
         Log INFO (Starting path) :: Connect path :: clearing_events
         ++ [Log INFO (Transferring staff); Execute staff;
             Log ERROR (SqliteOperationalError Sqlite3OperationalError);
             Rollback; Close]).
Proof.
  split; [apply transfer_data_missing|].
  intros H r. subst r.
  assert (Hc : connects (fs w path) = Some (Connection (Some (fun _ => None))))
    by (rewrite H; reflexivity).
  rewrite (transfer_data_connected path w _ Hc). cbv zeta.
  rewrite try_block_sections, <- bind_assoc.
  erewrite bind_Returned by apply clear_tables_run.
  erewrite bind_Raised by reflexivity.
  cbn [out after events]. repeat split.
Qed.

(** C9. The legacy connection is closed on every way out of a run: the
    number of open connections after the run is the number before it,
    whether the run returns [True], returns [False] or lets an exception
    through, and when the connection was opened the last event of the run
    is its [close]. *)
Theorem C9_connection_closed path w :
  let r := transfer_data path (new_session w) in
  open_connections (after r) = open_connections w
  /\ (forall p, In (Connect p) (events r) ->
                exists evs, events r = evs ++ [Close] /\ ~ In Close evs).
Proof.
  intros r. subst r.
  destruct (connects (fs w path)) as [c|] eqn:Hc.
  - rewrite (transfer_data_connected path (new_session w) c Hc). cbv zeta.
    destruct (try_block_run c _ (pending_connected_new_session w))
      as (_ & Hopen & (ev1 & ev2 & Hev & H1 & H2) & _).
    assert (Hnoclose : ~ In Close (events (try_block c (connected (new_session w))))).
    { rewrite Hev. intros Hin. apply in_app_or in Hin as [Hin|Hin].
      - rewrite Forall_forall in H1. apply (H1 _ Hin).
      - destruct H2 as [-> | (ev3 & -> & H3 & _)]; [exact Hin|].
        destruct Hin as [Hin|Hin]; [discriminate|].
        rewrite Forall_forall in H3. apply (H3 _ Hin). }
    destruct (try_block c (connected (new_session w))) as [[b|e] wb eb];
      cbn [out after events] in *.
    + split; [cbn; rewrite Hopen; reflexivity|]. intros _ _.
      exists (Log INFO (Starting path) :: Connect path :: eb).
      split; [reflexivity|]. intros [Hin|[Hin|Hin]]; try discriminate. auto.
    + split; [cbn; rewrite Hopen; reflexivity|]. intros _ _.
      exists (Log INFO (Starting path) :: Connect path
              :: eb ++ [Log ERROR (error_message e); Rollback]).
      split; [cbn [app]; rewrite <- app_assoc; reflexivity|].
      intros [Hin|[Hin|Hin]]; try discriminate.
      apply in_app_or in Hin as [Hin|[Hin|[Hin|[]]]]; try discriminate. auto.
  - assert (Hfs : fs (new_session w) path = Missing \/ fs (new_session w) path = Unopenable).
    { cbn. destruct (fs w path); try discriminate; auto. }
    destruct Hfs as [Hfs|Hfs].
    + rewrite (transfer_data_missing _ _ Hfs). cbn. split; [reflexivity|].
      intros p [Hin|[Hin|[]]]; discriminate.
    + rewrite (transfer_data_unopenable _ _ Hfs). cbn. split; [reflexivity|].
      intros p [Hin|[]]; discriminate.
Qed.

Lemma try_finally_closes {A} (m : M A) c w :
  let r := try_finally m (close c) w in
  out r = out (m w)
  /\ events r = events (m w) ++ [Close]
  /\ open_connections (after r) = Nat.pred (open_connections (after (m w))).
Proof. unfold try_finally. cbn. auto. Qed.


Lemma plan_rows c t os :
  plan c t = inr os ->
  exists rows, fetch c t = inr rows /\ Forall2 (fun row o => staged t row = inr o) rows os.
Proof.
  unfold plan. destruct (fetch c t) as [e|rows]; cbn [bindE]; [discriminate|].
  intros H. exists rows. split; [reflexivity|]. now apply mapE_Forall2.
Qed.

(** ** The synthesized dates *)

Lemma offset_bounds draw : 1 <= offset draw <= 365.
Proof.
  unfold offset. pose proof (Z.mod_pos_bound (Z.of_nat draw) (365 - 1 + 1)). lia.
Qed.

Lemma offset_period draw : offset (draw + 365) = offset draw.
Proof.
  unfold offset. f_equal.
  rewrite Nat2Z.inj_add. change (365 - 1 + 1) with 365. change (Z.of_nat 365) with (1 * 365).
  apply Z.mod_add. lia.
Qed.

Lemma offset_small draw : (draw < 365)%nat -> offset draw = 1 + Z.of_nat draw.
Proof. intros H. unfold offset. rewrite Z.mod_small; lia. Qed.

Lemma times_drawn_app n a b : times_drawn n (a ++ b) = (times_drawn n a + times_drawn n b)%nat.
Proof. unfold times_drawn. now rewrite filter_app, length_app. Qed.

Lemma times_drawn_none n a len :
  (forall draw, (a <= draw < a + len)%nat -> offset draw <> n) ->
  times_drawn n (seq a len) = 0%nat.
Proof.
  revert a. induction len as [|len IH]; intros a H; [reflexivity|].
  unfold times_drawn. cbn [seq filter].
  destruct (Z.eqb_spec (offset a) n) as [E|_]; [exfalso; apply (H a); [lia | exact E]|].
  apply IH. intros draw Hd. apply H. lia.
Qed.

(** Among the draws below 365, one gives the offset [n]. *)
Lemma times_drawn_first_period n len :
  (len <= 365)%nat ->
  times_drawn n (seq 0 len) = if (1 <=? n) && (n <=? Z.of_nat len) then 1%nat else 0%nat.
Proof.
  induction len as [|len IH]; intros Hlen.
  - cbn. destruct (1 <=? n) eqn:E; [|reflexivity]. cbn.
    destruct (Z.leb_spec n 0); [lia | reflexivity].
  - rewrite seq_S, times_drawn_app, IH by lia. cbn [Nat.add].
    unfold times_drawn at 1. cbn [filter]. rewrite offset_small by lia.
    destruct (Z.eqb_spec (1 + Z.of_nat len) n) as [E|E]; cbn [List.length];
      destruct (Z.leb_spec 1 n); cbn [andb];
      destruct (Z.leb_spec n (Z.of_nat len)); destruct (Z.leb_spec n (Z.of_nat (S len)));
      try lia; reflexivity.
Qed.

Lemma times_drawn_shift n a len :
  times_drawn n (seq (a + 365) len) = times_drawn n (seq a len).
Proof.
  revert a. induction len as [|len IH]; intros a; [reflexivity|].
  unfold times_drawn in *. cbn [seq filter]. rewrite offset_period.
  change (S (a + 365)) with (S a + 365)%nat.
  destruct (offset a =? n); cbn [List.length]; now rewrite IH.
Qed.

Lemma times_drawn_periods n k :
  1 <= n <= 365 -> times_drawn n (seq 0 (365 * k)) = k.
Proof.
  intros Hn. induction k as [|k IH]; [reflexivity|].
  replace (365 * S k)%nat with (365 + 365 * k)%nat by lia.
  rewrite seq_app, times_drawn_app. cbn [Nat.add].
  rewrite times_drawn_first_period by lia.
  destruct (Z.leb_spec 1 n); [|lia]. destruct (Z.leb_spec n (Z.of_nat 365)); [|lia].
  cbn [andb].
  change 365%nat with (0 + 365)%nat at 1. rewrite times_drawn_shift, IH. reflexivity.
Qed.

Lemma synthesized_app a b : synthesized (a ++ b) = synthesized a ++ synthesized b.
Proof.
  induction a as [|ev a IH]; [reflexivity|].
  destruct ev as [| | | | | |o| | |]; cbn [app synthesized]; try exact IH.
  destruct o; cbn [app]; rewrite ?IH; reflexivity.
Qed.

Lemma map_seq_from {A} len : forall (f : nat -> A) k,
  map f (seq k len) = map (fun j => f (k + j)%nat) (seq 0 len).
Proof.
  induction len as [|len IH]; intros f k; [reflexivity|].
  cbn [seq map]. rewrite Nat.add_0_r. f_equal.
  rewrite (IH f (S k)), (IH (fun j => f (k + j)%nat) 1%nat).
  apply map_ext. intros j. f_equal. lia.
Qed.

Lemma dates_seq w w1 k1 k2 :
  clock w1 = clock w -> entropy w1 = entropy w ->
  clock_reads w1 = (k1 + clock_reads w)%nat -> draws w1 = (k1 + draws w)%nat ->
  map (date_at w) (seq 0 k1) ++ map (date_at w1) (seq 0 k2)
  = map (date_at w) (seq 0 (k2 + k1)).
Proof.
  intros Hc He Hr Hd.
  replace (k2 + k1)%nat with (k1 + k2)%nat by lia.
  rewrite seq_app, map_app. apply (f_equal (app _)). cbn [Nat.add].
  rewrite (map_seq_from k2 (date_at w) k1). apply map_ext. intros j.
  unfold date_at. rewrite Hc, He, Hr, Hd. do 2 f_equal; [|f_equal]; lia.
Qed.

Lemma dates_bind {A B} (m : M A) (f : A -> M B) :
  dates_ok m -> (forall a, dates_ok (f a)) -> dates_ok (bind m f).
Proof.
  intros Hm Hf w. unfold bind. specialize (Hm w). cbv zeta in Hm.
  destruct (m w) as [[a|e] w1 e1]; cbn [out after events] in *; [|exact Hm].
  specialize (Hf a w1). cbv zeta in Hf.
  destruct (f a w1) as [o2 w2 e2]. cbn [out after events] in *.
  destruct Hm as (Hc & He & k1 & Hr & Hd & Hs).
  destruct Hf as (Hc2 & He2 & k2 & Hr2 & Hd2 & Hs2).
  split; [congruence|]. split; [congruence|].
  exists (k2 + k1)%nat. split; [lia|]. split; [lia|].
  rewrite synthesized_app, Hs, Hs2. now apply dates_seq.
Qed.

Lemma dates_try_except {A} (m : M A) (handler : exn -> M A) :
  dates_ok m -> (forall e, dates_ok (handler e)) -> dates_ok (try_except m handler).
Proof.
  intros Hm Hh w. unfold try_except. specialize (Hm w). cbv zeta in Hm.
  destruct (m w) as [[a|e] w1 e1]; cbn [out after events] in *; [exact Hm|].
  specialize (Hh e w1). cbv zeta in Hh.
  destruct (handler e w1) as [o2 w2 e2]. cbn [out after events] in *.
  destruct Hm as (Hc & He & k1 & Hr & Hd & Hs).
  destruct Hh as (Hc2 & He2 & k2 & Hr2 & Hd2 & Hs2).
  split; [congruence|]. split; [congruence|].
  exists (k2 + k1)%nat. split; [lia|]. split; [lia|].
  rewrite synthesized_app, Hs, Hs2. now apply dates_seq.
Qed.

Lemma dates_try_finally {A} (m : M A) (fin : M unit) :
  dates_ok m -> dates_ok fin -> dates_ok (try_finally m fin).
Proof.
  intros Hm Hf w. unfold try_finally. specialize (Hm w). cbv zeta in Hm.
  destruct (m w) as [o1 w1 e1]; cbn [out after events] in *.
  specialize (Hf w1). cbv zeta in Hf.
  destruct (fin w1) as [o2 w2 e2]. cbn [out after events] in *.
  destruct Hm as (Hc & He & k1 & Hr & Hd & Hs).
  destruct Hf as (Hc2 & He2 & k2 & Hr2 & Hd2 & Hs2).
  assert (H : clock w2 = clock w /\ entropy w2 = entropy w
              /\ exists k, clock_reads w2 = (k + clock_reads w)%nat
                           /\ draws w2 = (k + draws w)%nat
                           /\ synthesized (e1 ++ e2) = map (date_at w) (seq 0 k)).
  { split; [congruence|]. split; [congruence|].
    exists (k2 + k1)%nat. split; [lia|]. split; [lia|].
    rewrite synthesized_app, Hs, Hs2. now apply dates_seq. }
  destruct o2; exact H.
Qed.

(** A step that reads neither the clock nor the generator and stages
    nothing with a synthesized date. *)
Ltac undated_step :=
  intros w; cbv zeta;
  repeat match goal with
         | |- context [match ?x with _ => _ end] => destruct x
         end;
  cbn [out after events clock entropy clock_reads draws synthesized
       set_session set_open_connections create_file];
  (split; [reflexivity|]); (split; [reflexivity|]);
  exists 0%nat; repeat split.

Lemma dates_ret {A} (a : A) : dates_ok (ret a).
Proof. unfold ret. undated_step. Qed.

Lemma dates_raise {A} e : dates_ok (@raise A e).
Proof. unfold raise. undated_step. Qed.

Lemma dates_of_sum {A} (x : exn + A) : dates_ok (of_sum x).
Proof. destruct x; [apply dates_raise | apply dates_ret]. Qed.

Lemma dates_logging_info m : dates_ok (logging_info m).
Proof. unfold logging_info. undated_step. Qed.

Lemma dates_logging_warning m : dates_ok (logging_warning m).
Proof. unfold logging_warning. undated_step. Qed.

Lemma dates_logging_error m : dates_ok (logging_error m).
Proof. unfold logging_error. undated_step. Qed.

Lemma dates_os_path_exists path : dates_ok (os_path_exists path).
Proof.
  unfold os_path_exists. intros w. cbv zeta. cbn. repeat split.
  exists 0%nat. repeat split.
Qed.

Lemma dates_sqlite3_connect path : dates_ok (sqlite3_connect path).
Proof. unfold sqlite3_connect. undated_step. Qed.

Lemma dates_close c : dates_ok (close c).
Proof. unfold close. undated_step. Qed.

Lemma dates_select_all c t : dates_ok (select_all c t).
Proof. unfold select_all. undated_step. Qed.

Lemma dates_begin_nested : dates_ok begin_nested.
Proof. unfold begin_nested. undated_step. Qed.

Lemma dates_query_delete t : dates_ok (query_delete t).
Proof. unfold query_delete. undated_step. Qed.

Lemma dates_session_rollback : dates_ok session_rollback.
Proof. unfold session_rollback. undated_step. Qed.

Lemma dates_session_flush : dates_ok session_flush.
Proof. unfold session_flush. undated_step. Qed.

Lemma dates_session_commit : dates_ok session_commit.
Proof.
  intros w. cbv zeta. unfold session_commit.
  pose proof (dates_session_flush w) as H. cbv zeta in H.
  destruct (session_flush w) as [o w1 e1]. cbn [out after events] in *.
  destruct H as (Hc & He & k & Hr & Hd & Hs).
  destruct o as [u|e];
    cbn [out after events clock entropy clock_reads draws set_session synthesized];
    (split; [assumption|]; split; [assumption|]; exists k; auto).
Qed.

Lemma dates_fake_date : 
  forall w,
    fake_date w
    = Result (Returned (date_at w 0))
             (set_draws (S (draws w)) (set_clock_reads (S (clock_reads w)) w)) [].
Proof. reflexivity. Qed.

Lemma dates_add_new T (new : row -> exn + T) (inj : T -> obj) row :
  (forall o, synthesized [Add (inj o)] = []) -> dates_ok (add_new new inj row).
Proof.
  intros H. unfold add_new. apply dates_bind; [apply dates_of_sum|].
  intros o w. cbv zeta. unfold session_add.
  cbn [out after events clock entropy clock_reads draws set_session].
  rewrite H. split; [reflexivity|]. split; [reflexivity|]. exists 0%nat. repeat split.
Qed.

Lemma dates_engagement_body row : dates_ok (engagement_body row).
Proof.
  unfold engagement_body, new_Engagement. intros w. cbv zeta.
  destruct (item row 0) as [e|r0];
    [erewrite bind_Raised by (erewrite bind_Raised by reflexivity; reflexivity);
     apply (dates_raise (A:=unit) e w)|].
  destruct (item row 1) as [e|r1];
    [erewrite bind_Raised
       by (erewrite bind_Returned by reflexivity;
           erewrite bind_Raised by reflexivity; reflexivity);
     apply (dates_raise (A:=unit) e w)|].
  destruct (item row 2) as [e|r2];
    [erewrite bind_Raised
       by (do 2 (erewrite bind_Returned by reflexivity);
           erewrite bind_Raised by reflexivity; reflexivity);
     apply (dates_raise (A:=unit) e w)|].
  destruct (item row 3) as [e|r3];
    [erewrite bind_Raised
       by (do 3 (erewrite bind_Returned by reflexivity);
           erewrite bind_Raised by reflexivity; reflexivity);
     apply (dates_raise (A:=unit) e w)|].
  erewrite bind_Returned
    by (do 4 (erewrite bind_Returned by reflexivity);
        erewrite bind_Returned by apply dates_fake_date;
        erewrite bind_Returned by apply dates_fake_date;
        reflexivity).
  cbn [out after events app ret session_add synthesized clock entropy clock_reads draws
       set_session set_draws set_clock_reads Engagement.start_date Engagement.end_date].
  split; [reflexivity|]. split; [reflexivity|]. exists 2%nat. repeat split.
Qed.

Lemma dates_proposal_body row : dates_ok (proposal_body row).
Proof.
  unfold proposal_body, new_Proposal. intros w. cbv zeta.
  destruct (item row 0) as [e|r0];
    [erewrite bind_Raised by (erewrite bind_Raised by reflexivity; reflexivity);
     apply (dates_raise (A:=unit) e w)|].
  destruct (item row 1) as [e|r1];
    [erewrite bind_Raised
       by (erewrite bind_Returned by reflexivity;
           erewrite bind_Raised by reflexivity; reflexivity);
     apply (dates_raise (A:=unit) e w)|].
  destruct (item row 2) as [e|r2];
    [erewrite bind_Raised
       by (do 2 (erewrite bind_Returned by reflexivity);
           erewrite bind_Raised by reflexivity; reflexivity);
     apply (dates_raise (A:=unit) e w)|].
  destruct (item row 3) as [e|r3];
    [erewrite bind_Raised
       by (do 3 (erewrite bind_Returned by reflexivity);
           erewrite bind_Raised by reflexivity; reflexivity);
     apply (dates_raise (A:=unit) e w)|].
  erewrite bind_Returned
    by (do 4 (erewrite bind_Returned by reflexivity);
        erewrite bind_Returned by apply dates_fake_date;
        reflexivity).
  cbn [out after events app ret session_add synthesized clock entropy clock_reads draws
       set_session set_draws set_clock_reads Proposal.due_date].
  split; [reflexivity|]. split; [reflexivity|]. exists 1%nat. repeat split.
Qed.

Lemma dates_leave_record_body n row : dates_ok (leave_record_body n row).
Proof.
  unfold leave_record_body. apply dates_try_except.
  - apply dates_bind; [apply dates_of_sum|]. intros l.
    apply dates_bind; [|intros; apply dates_ret].
    intros w. cbv zeta. unfold session_add.
    cbn [out after events clock entropy clock_reads draws set_session synthesized].
    split; [reflexivity|]. split; [reflexivity|]. exists 0%nat. repeat split.
  - intros e. destruct e; try apply dates_raise.
    apply dates_bind; [apply dates_of_sum|]. intros r1.
    apply dates_bind; [apply dates_of_sum|]. intros r2.
    apply dates_bind; [apply dates_logging_warning|]. intros _.
    apply dates_bind; [apply dates_session_rollback|]. intros _. apply dates_ret.
Qed.

Lemma dates_for_each {A} (l : list A) body :
  (forall x, dates_ok (body x)) -> dates_ok (for_each l body).
Proof.
  intros H. induction l as [|x l IH]; cbn [for_each]; [apply dates_ret|].
  apply dates_bind; [apply H | intros _; exact IH].
Qed.

Lemma dates_for_each_with {A S} (l : list A) (body : S -> A -> M S) :
  (forall s x, dates_ok (body s x)) -> forall s, dates_ok (for_each_with l s body).
Proof.
  intros H. induction l as [|x l IH]; intros s; cbn [for_each_with]; [apply dates_ret|].
  apply dates_bind; [apply H | intros s'; apply IH].
Qed.

Lemma dates_transfer_table c t body :
  (forall row, dates_ok (body row)) -> dates_ok (transfer_table c t body).
Proof.
  intros H. unfold transfer_table.
  apply dates_bind; [apply dates_logging_info|]. intros _.
  apply dates_bind; [apply dates_select_all|]. intros data.
  apply dates_bind; [now apply dates_for_each|]. intros _.
  apply dates_logging_info.
Qed.

Lemma dates_clear_tables : dates_ok clear_tables.
Proof.
  unfold clear_tables.
  apply dates_bind; [apply dates_logging_info|]. intros _.
  repeat (apply dates_bind; [apply dates_query_delete|]; intros _).
  apply dates_query_delete.
Qed.

Lemma dates_try_block c : dates_ok (try_block c).
Proof.
  unfold try_block.
  apply dates_bind; [apply dates_begin_nested|]. intros _.
  apply dates_bind; [apply dates_clear_tables|]. intros _.
  apply dates_bind;
    [apply dates_transfer_table; intros row; now apply dates_add_new|]. intros _.
  apply dates_bind; [apply dates_session_flush|]. intros _.
  apply dates_bind; [apply dates_transfer_table, dates_engagement_body|]. intros _.
  apply dates_bind; [apply dates_transfer_table, dates_proposal_body|]. intros _.
  apply dates_bind;
    [apply dates_transfer_table; intros row; now apply dates_add_new|]. intros _.
  apply dates_bind;
    [apply dates_transfer_table; intros row; now apply dates_add_new|]. intros _.
  apply dates_bind.
  { unfold transfer_leave_records.
    apply dates_bind; [apply dates_logging_info|]. intros _.
    apply dates_bind; [apply dates_select_all|]. intros data.
    apply dates_bind; [apply dates_for_each_with, dates_leave_record_body|]. intros n.
    apply dates_logging_info. }
  intros _.
  apply dates_bind;
    [apply dates_transfer_table; intros row; now apply dates_add_new|]. intros _.
  apply dates_bind; [apply dates_session_commit|]. intros _.
  apply dates_bind; [apply dates_logging_info|]. intros _.
  apply dates_ret.
Qed.

Lemma dates_handlers e : dates_ok (handlers e).
Proof.
  destruct e; cbn [handlers];
    (apply dates_bind; [apply dates_logging_error|]; intros _;
     apply dates_bind; [apply dates_session_rollback|]; intros _; apply dates_ret).
Qed.

Lemma dates_transfer_data path : dates_ok (transfer_data path).
Proof.
  unfold transfer_data.
  apply dates_bind; [apply dates_logging_info|]. intros _.
  apply dates_bind; [apply dates_os_path_exists|]. intros found.
  destruct found; cbn [negb].
  - apply dates_bind; [apply dates_sqlite3_connect|]. intros c. cbv zeta.
    apply dates_try_finally; [|apply dates_close].
    apply dates_try_except; [apply dates_try_block | apply dates_handlers].
  - apply dates_bind; [apply dates_logging_error|]. intros _. apply dates_ret.
Qed.

Lemma date_at_window w j :
  PyDate.toordinal (clock w (j + clock_reads w)) < PyDate.toordinal (date_at w j)
  <= PyDate.toordinal (clock w (j + clock_reads w)) + 365.
Proof.
  unfold date_at. cbn [PyDate.add_days PyDate.toordinal].
  pose proof (offset_bounds (entropy w (j + draws w))). lia.
Qed.

(** C8. A call of [fake_date] returns the date that the clock gives at
    that call plus the number that [randint] makes of the draw of that
    call, a number from 1 to 365: a date strictly later than the current
    date and at most 365 days after it.  The number is uniform when the
    draw is: of the draws 0 to 365 k - 1, exactly k give each number from
    1 to 365 (one draw in 365 for k = 1, the range of the generator behind
    [randint]).  In a run, the synthesized dates of the objects staged
    (start and end of each Engagement, then due date of each Proposal, in
    the order staged) are the results of successive calls: the j-th of
    them is made from the j-th reading of the clock and the j-th draw
    after the start of the run, so it lies in the window of that very
    reading. *)
Theorem C8_synthesized_dates_in_window :
  (forall w,
      let now := clock w (clock_reads w) in
      let n := offset (entropy w (draws w)) in
      fake_date w
      = Result (Returned (PyDate.add_days now n))
               (set_draws (S (draws w)) (set_clock_reads (S (clock_reads w)) w)) []
      /\ 1 <= n <= 365
      /\ PyDate.toordinal now < PyDate.toordinal (PyDate.add_days now n)
         <= PyDate.toordinal now + 365)
  /\ (forall k n, 1 <= n <= 365 -> times_drawn n (seq 0 (365 * k)) = k)
  /\ (forall path w,
        let evs := events (transfer_data path (new_session w)) in
        synthesized evs = map (date_at w) (seq 0 (List.length (synthesized evs)))
        /\ (forall e, In (Add (OEngagement e)) evs ->
                      In (Engagement.start_date e) (synthesized evs)
                      /\ In (Engagement.end_date e) (synthesized evs))
        /\ (forall p, In (Add (OProposal p)) evs ->
                      In (Proposal.due_date p) (synthesized evs))
        /\ (forall j d, nth_error (synthesized evs) j = Some d ->
              let now := clock w (j + clock_reads w) in
              d = PyDate.add_days now (offset (entropy w (j + draws w)))
              /\ PyDate.toordinal now < PyDate.toordinal d
                 <= PyDate.toordinal now + 365)).
Proof.
  split; [|split].
  - intros w now n. split; [reflexivity|].
    pose proof (offset_bounds (entropy w (draws w))). subst now n.
    cbn [PyDate.add_days PyDate.toordinal]. lia.
  - intros k n Hn. now apply times_drawn_periods.
  - intros path w evs.
    assert (Hs : synthesized evs = map (date_at w) (seq 0 (List.length (synthesized evs)))).
    { destruct (dates_transfer_data path (new_session w)) as (_ & _ & k & _ & _ & Hs).
      fold evs in Hs. rewrite Hs at 2. rewrite length_map, length_seq. exact Hs. }
    split; [exact Hs|].
    assert (Hin : forall o, In (Add o) evs ->
                            match o with
                            | OEngagement e =>
                                In (Engagement.start_date e) (synthesized evs)
                                /\ In (Engagement.end_date e) (synthesized evs)
                            | OProposal p => In (Proposal.due_date p) (synthesized evs)
                            | _ => True
                            end).
    { clear Hs. generalize evs. clear evs. intros evs o.
      induction evs as [|ev evs IH]; [contradiction|].
      intros [->|Hin].
      - destruct o; cbn [synthesized In]; auto.
      - specialize (IH Hin).
        destruct ev as [| | | | | |o'| | |]; cbn [synthesized]; try exact IH.
        destruct o'; destruct o; cbn [In]; tauto. }
    split; [intros e He; exact (Hin _ He)|].
    split; [intros p Hp; exact (Hin _ Hp)|].
    intros j d Hj now.
    rewrite Hs in Hj.
    assert (Hlt : (j < List.length (synthesized evs))%nat).
    { apply nth_error_Some. rewrite Hs at 1. congruence. }
    rewrite nth_error_map, nth_error_seq in Hj.
    destruct (Nat.ltb_spec j (List.length (synthesized evs))) as [_|]; [|lia].
    cbn [option_map Nat.add] in Hj. injection Hj as <-.
    split; [reflexivity | apply date_at_window].
Qed.

(** ** The Staff table *)

Lemma value_eqb_eq a b : value_eqb a b = true <-> a = b.
Proof. unfold value_eqb. destruct (value_eq_dec a b); split; congruence. Qed.


Lemma max_rowid_bound ids :
  match max_rowid ids with
  | Some m => forall z, In (PyInt z) ids -> z <= m
  | None => forall z, ~ In (PyInt z) ids
  end.
Proof.
  induction ids as [|v ids IH]; cbn [max_rowid]; [intros z []|].
  destruct v as [|z0|f|s|s|d];
    try (destruct (max_rowid ids) as [m|]; intros z [Hx|Hx];
         [discriminate | exact (IH z Hx) | discriminate | exact (IH z Hx)]).
  destruct (max_rowid ids) as [m|].
  - intros z [[= ->]|Hin]; [lia|]. specialize (IH z Hin). lia.
  - intros z [[= ->]|Hin]; [lia|]. destruct (IH z Hin).
Qed.

Lemma primary_key_fresh ids i i' :
  primary_key ids i = inr i' ->
  ~ In i' ids
  /\ (exists z, i' = PyInt z)
  /\ (i <> PyNone -> integer_affinity i = i').
Proof.
  assert (Hconv : forall v,
             match integer_affinity v with
             | PyInt z =>
                 if existsb (value_eqb (PyInt z)) ids then inl IntegrityError
                 else inr (PyInt z)
             | _ => inl IntegrityError
             end = inr i' ->
             ~ In i' ids /\ (exists z, i' = PyInt z) /\ integer_affinity v = i').
  { intros v. destruct (integer_affinity v) as [|z| | | |]; try discriminate.
    destruct (existsb (value_eqb (PyInt z)) ids) eqn:E; [discriminate|].
    intros [= <-]. split; [|eauto].
    intros Hin. assert (existsb (value_eqb (PyInt z)) ids = true); [|congruence].
    apply existsb_exists. exists (PyInt z). split; [assumption | now apply value_eqb_eq]. }
  unfold primary_key. destruct i;
    try (intros H; apply Hconv in H as (? & ? & ?); auto).
  intros [= <-]. split; [|split; [eauto | congruence]].
  pose proof (max_rowid_bound ids) as H.
  destruct (max_rowid ids) as [m|]; [|apply H].
  intros Hin. apply H in Hin. lia.
Qed.







Lemma Forall2_In_left {A B} (R : A -> B -> Prop) l l' x :
  Forall2 R l l' -> In x l -> exists y, In y l' /\ R x y.
Proof.
  induction 1 as [|a b l l' Hab _ IH]; intros Hin; [contradiction|].
  destruct Hin as [<-|Hin].
  - exists b. split; [left; reflexivity | assumption].
  - destruct (IH Hin) as (y & Hy & Hxy). exists y. split; [right; assumption | assumption].
Qed.


(** What a run leaves, by the [reference] of its connection. *)
Lemma transfer_data_commits path w :
  let r := transfer_data path (new_session w) in
  fs (after r) = fs w
  /\ match connects (fs w path) with
     | None => committed (after r) = committed w
     | Some c =>
         match reference c with
         | inr d => out r = Returned true /\ undated_db (committed (after r)) = d
         | inl _ => out r = Returned false /\ committed (after r) = committed w
         end
     end.
Proof.
  intros r. subst r.
  destruct (connects (fs w path)) as [c|] eqn:Hc.
  - rewrite (transfer_data_connected path (new_session w) c Hc). cbv zeta.
    destruct (try_block_run c _ (pending_connected_new_session w))
      as ((Hfs & _) & _ & _ & Href).
    destruct (try_block c (connected (new_session w))) as [ob wb eb].
    cbn [out after events] in *.
    destruct (reference c) as [e|d].
    + destruct Href as [-> Hcommitted]. cbn. auto.
    + destruct Href as (-> & Hd & _). cbn. auto.
  - assert (Hfs : fs (new_session w) path = Missing
                  \/ fs (new_session w) path = Unopenable).
    { cbn. destruct (fs w path); try discriminate; auto. }
    destruct Hfs as [Hfs|Hfs];
      [rewrite (transfer_data_missing _ _ Hfs)
      |rewrite (transfer_data_unopenable _ _ Hfs)]; cbn; auto.
Qed.

(** C5. Two runs in succession from the same legacy source leave the
    same Staff, NonBillable, HoursLog and Utilization tables: what the
    destination holds after the second run is what it held after the
    first. *)
Theorem C5_second_run_same_tables path w :
  let r1 := transfer_data path (new_session w) in
  let r2 := transfer_data path (new_session (after r1)) in
  staff_rows (committed (after r2)) = staff_rows (committed (after r1))
  /\ non_billable_rows (committed (after r2)) = non_billable_rows (committed (after r1))
  /\ hours_log_rows (committed (after r2)) = hours_log_rows (committed (after r1))
  /\ utilization_rows (committed (after r2)) = utilization_rows (committed (after r1)).
Proof.
  intros r1 r2.
  destruct (transfer_data_commits path w) as [Hfs H1]. fold r1 in Hfs, H1.
  destruct (transfer_data_commits path (after r1)) as [_ H2]. fold r2 in H2.
  rewrite Hfs in H2.
  clearbody r1 r2.
  assert (Hsame : forall x y : database,
             undated_db x = undated_db y ->
             staff_rows x = staff_rows y
             /\ non_billable_rows x = non_billable_rows y
             /\ hours_log_rows x = hours_log_rows y
             /\ utilization_rows x = utilization_rows y).
  { intros x y H. unfold undated_db in H. injection H. auto. }
  destruct (connects (fs w path)) as [c|].
  - destruct (reference c) as [e|d].
    + destruct H1 as [_ H1]. destruct H2 as [_ H2]. rewrite H2. auto.
    + destruct H1 as [_ H1]. destruct H2 as [_ H2]. apply Hsame. congruence.
  - rewrite H2. auto.
Qed.

(** ** Duplicate leave records *)

Lemma insert_all_app os1 os2 d :
  insert_all (os1 ++ os2) d = (d' <-' insert_all os1 d; insert_all os2 d').
Proof.
  revert d. induction os1 as [|o os1 IH]; intros d; cbn [app insert_all bindE];
    [reflexivity|].
  destruct (insert o d) as [e|d1]; cbn [bindE]; [reflexivity | apply IH].
Qed.

Lemma mapE_app_inv {A B} (f : A -> exn + B) xs ys os :
  mapE f (xs ++ ys) = inr os ->
  exists os1 os2, os = os1 ++ os2 /\ mapE f xs = inr os1 /\ mapE f ys = inr os2.
Proof.
  revert os. induction xs as [|x xs IH]; intros os; cbn [app mapE].
  - intros H. exists [], os. auto.
  - destruct (f x) as [e|y]; cbn [bindE]; [discriminate|].
    destruct (mapE f (xs ++ ys)) as [e|os']; cbn [bindE]; [discriminate|].
    intros [= <-]. destruct (IH _ eq_refl) as (os1 & os2 & -> & -> & ->).
    exists (y :: os1), os2. auto.
Qed.

Lemma insert_leave_record_inv l rows rows' :
  insert_leave_record l rows = inr rows' ->
  exists i, rows' = rows ++ [LeaveRecord.with_id i l].
Proof.
  unfold insert_leave_record.
  destruct (date_param _); cbn [bindE]; [discriminate|].
  destruct (primary_key _ _) as [|i]; cbn [bindE]; [discriminate|].
  destruct (not_null _); cbn [bindE]; [discriminate|].
  destruct (require _ _); cbn [bindE]; [discriminate|].
  intros [= <-]. eauto.
Qed.

Lemma insert_row_keeps_leave_records o d d' x :
  insert_row o d = inr d' ->
  In x (leave_record_rows d) -> In x (leave_record_rows d').
Proof.
  destruct o; cbn [insert_row]; intros H;
    match type of H with
    | (_ <-' ?y; _) = _ => destruct y eqn:E; cbn [bindE] in H; [discriminate|]
    end;
    injection H as <-; cbn [leave_record_rows]; auto.
  apply insert_leave_record_inv in E as [i ->]. intros Hx. apply in_or_app. auto.
Qed.

Lemma insert_keeps_leave_records o d d' x :
  insert o d = inr d' ->
  In x (leave_record_rows d) -> In x (leave_record_rows d').
Proof. apply insert_row_keeps_leave_records. Qed.

Lemma insert_all_keeps_leave_records os : forall d d' x,
  insert_all os d = inr d' ->
  In x (leave_record_rows d) -> In x (leave_record_rows d').
Proof.
  induction os as [|o os IH]; intros d d' x; cbn [insert_all].
  - now intros [= <-].
  - destruct (insert o d) as [e|d1] eqn:E; cbn [bindE]; [discriminate|].
    intros H Hx. eapply IH; [exact H|]. eapply insert_keeps_leave_records; eassumption.
Qed.

Lemma sql_eqb_refl v : v <> PyNone -> sql_eqb v v = true.
Proof.
  intros H. unfold sql_eqb.
  assert (value_eqb v v = true) as -> by now apply value_eqb_eq.
  destruct v; try reflexivity. contradiction.
Qed.

Lemma insert_leave_record_conflict l x rows :
  In x rows ->
  LeaveRecord.staff_id x = LeaveRecord.staff_id l ->
  LeaveRecord.date x = LeaveRecord.date l ->
  LeaveRecord.staff_id l <> PyNone ->
  exists e, insert_leave_record l rows = inl e.
Proof.
  intros Hx Hs Hd Hnone. unfold insert_leave_record.
  destruct (date_param _); cbn [bindE]; [eauto|].
  destruct (primary_key _ _) as [|i]; cbn [bindE]; [eauto|].
  destruct (not_null (LeaveRecord.date l)) eqn:Hnn; cbn [bindE]; [eauto|].
  assert (Hdate : LeaveRecord.date l <> PyNone).
  { intros E. rewrite E in Hnn. discriminate. }
  assert (Hex : existsb (fun r => sql_eqb (LeaveRecord.staff_id r) (LeaveRecord.staff_id l)
                                  && sql_eqb (LeaveRecord.date r) (LeaveRecord.date l))
                        rows = true).
  { apply existsb_exists. exists x. split; [assumption|].
    rewrite Hs, Hd, !sql_eqb_refl by assumption. reflexivity. }
  rewrite Hex. cbn. eauto.
Qed.

Lemma integral_not_none f : integral f <> PyNone.
Proof. unfold integral. destruct (integer_of_float f); discriminate. Qed.

Lemma integer_affinity_not_none v : v <> PyNone -> integer_affinity v <> PyNone.
Proof.
  destruct v; cbn [integer_affinity]; try (intros _; discriminate); try contradiction.
  - intros _. apply integral_not_none.
  - intros _. destruct (numeric_of_text s) as [[z|f]|]; try discriminate.
    apply integral_not_none.
Qed.

Lemma text_affinity_not_none v : v <> PyNone -> text_affinity v <> PyNone.
Proof. destruct v; cbn [text_affinity]; try (intros _; discriminate); contradiction. Qed.

(** Two objects for the same member and day, one staged after the other,
    cannot both be inserted. *)
Lemma duplicate_leave_records_refused l1 l2 a b c d :
  LeaveRecord.staff_id l1 = LeaveRecord.staff_id l2 ->
  LeaveRecord.date l1 = LeaveRecord.date l2 ->
  LeaveRecord.staff_id l2 <> PyNone ->
  exists e, insert_all (a ++ OLeaveRecord l1 :: b ++ OLeaveRecord l2 :: c) d = inl e.
Proof.
  intros Hs Hd Hnone.
  rewrite insert_all_app.
  destruct (insert_all a d) as [e|d1]; cbn [bindE]; [eauto|].
  cbn [insert_all].
  destruct (insert (OLeaveRecord l1) d1) as [e|d2] eqn:E1; cbn [bindE]; [eauto|].
  rewrite insert_all_app.
  destruct (insert_all b d2) as [e|d3] eqn:E2; cbn [bindE]; [eauto|].
  cbn [insert_all]. unfold insert at 1. cbn [stored insert_row].
  assert (Hin : exists i, In (LeaveRecord.with_id i (stored_leave_record l1))
                             (leave_record_rows d3)).
  { unfold insert in E1. cbn [stored insert_row] in E1.
    destruct (insert_leave_record (stored_leave_record l1) (leave_record_rows d1))
      as [|rows] eqn:E; cbn [bindE] in E1; [discriminate|].
    injection E1 as <-. apply insert_leave_record_inv in E as [i ->]. exists i.
    eapply insert_all_keeps_leave_records; [exact E2|].
    cbn [leave_record_rows]. apply in_or_app. right. left. reflexivity. }
  destruct Hin as [i Hin].
  destruct (insert_leave_record_conflict (stored_leave_record l2) _ _ Hin) as [e He].
  - cbn [LeaveRecord.with_id stored_leave_record LeaveRecord.staff_id]. now rewrite Hs.
  - cbn [LeaveRecord.with_id stored_leave_record LeaveRecord.date]. exact Hd.
  - cbn [stored_leave_record LeaveRecord.staff_id]. now apply integer_affinity_not_none.
  - rewrite He. cbn [bindE]. eauto.
Qed.

Lemma new_LeaveRecord_inv row l :
  new_LeaveRecord row = inr l ->
  exists r2,
    nth_error row 1 = Some (LeaveRecord.staff_id l)
    /\ nth_error row 2 = Some r2
    /\ convert_date r2 = inr (LeaveRecord.date l).
Proof.
  unfold new_LeaveRecord, item.
  destruct (nth_error row 0); cbn [bindE]; [|discriminate].
  destruct (nth_error row 1); cbn [bindE]; [|discriminate].
  destruct (nth_error row 2) as [r2|]; cbn [bindE]; [|discriminate].
  destruct (convert_date r2) as [|dt] eqn:E; cbn [bindE]; [discriminate|].
  intros [= <-]. exists r2. auto.
Qed.

Lemma staged_leave_record_inv row o :
  staged leave_record row = inr o ->
  exists l, o = OLeaveRecord l /\ new_LeaveRecord row = inr l.
Proof.
  cbn [staged]. destruct (new_LeaveRecord row) as [|l]; cbn [bindE]; [discriminate|].
  intros [= <-]. eauto.
Qed.

(** C1, on the code: whenever the legacy [leave_record] table holds two
    rows with the same member, not NULL, and the same date, the run
    returns [False] and the committed store is unchanged; neither row
    survives in the destination and the transaction is aborted. *)
Theorem C1_duplicate_leave_records_abort_run
        path w tables ra row1 rb row2 rc member day :
  fs w path = SqliteFile tables ->
  tables leave_record = Some (ra ++ row1 :: rb ++ row2 :: rc) ->
  nth_error row1 1 = Some member -> nth_error row2 1 = Some member ->
  member <> PyNone ->
  nth_error row1 2 = Some day -> nth_error row2 2 = Some day ->
  let r := transfer_data path (new_session w) in
  out r = Returned false /\ committed (after r) = committed w.
Proof.
  intros Hfs Htable H11 H21 Hmember H12 H22 r.
  destruct (transfer_data_commits path w) as [_ H]. fold r in H. clearbody r.
  rewrite Hfs in H. cbn [connects] in H.
  destruct (reference (Connection (Some tables))) as [e|d] eqn:Href; [exact H|].
  exfalso. clear H.
  unfold reference in Href.
  destruct (plan _ staff) as [|s]; cbn [bindE] in Href; [discriminate|].
  destruct (insert_all s empty_database) as [|d1]; cbn [bindE] in Href; [discriminate|].
  unfold plan_after_flush in Href.
  destruct (plan _ engagement) as [|pe]; cbn [bindE] in Href; [discriminate|].
  destruct (plan _ proposal) as [|pp]; cbn [bindE] in Href; [discriminate|].
  destruct (plan _ non_billable) as [|pn]; cbn [bindE] in Href; [discriminate|].
  destruct (plan _ hours_log) as [|ph]; cbn [bindE] in Href; [discriminate|].
  destruct (plan _ leave_record) as [|pl] eqn:Hplan; cbn [bindE] in Href; [discriminate|].
  destruct (plan _ utilization) as [|pu]; cbn [bindE] in Href; [discriminate|].
  unfold plan in Hplan. cbn [fetch] in Hplan. rewrite Htable in Hplan. cbn [bindE] in Hplan.
  apply mapE_app_inv in Hplan as (oa & o1 & -> & _ & Hplan).
  cbn [mapE] in Hplan.
  destruct (staged leave_record row1) as [|x1] eqn:Hx1; cbn [bindE] in Hplan; [discriminate|].
  destruct (mapE _ (rb ++ row2 :: rc)) as [|o2] eqn:Hrest; cbn [bindE] in Hplan;
    [discriminate|].
  injection Hplan as <-.
  apply mapE_app_inv in Hrest as (ob & o3 & -> & _ & Hrest).
  cbn [mapE] in Hrest.
  destruct (staged leave_record row2) as [|x2] eqn:Hx2; cbn [bindE] in Hrest; [discriminate|].
  destruct (mapE _ rc) as [|oc]; cbn [bindE] in Hrest; [discriminate|].
  injection Hrest as <-.
  apply staged_leave_record_inv in Hx1 as (l1 & -> & Hl1).
  apply staged_leave_record_inv in Hx2 as (l2 & -> & Hl2).
  apply new_LeaveRecord_inv in Hl1 as (d1' & Hs1 & Hd1 & Hc1).
  apply new_LeaveRecord_inv in Hl2 as (d2' & Hs2 & Hd2 & Hc2).
  assert (Hsame_member : LeaveRecord.staff_id l1 = LeaveRecord.staff_id l2) by congruence.
  assert (Hsame_day : LeaveRecord.date l1 = LeaveRecord.date l2) by congruence.
  assert (Hnone : LeaveRecord.staff_id l2 <> PyNone) by congruence.
  destruct (duplicate_leave_records_refused l1 l2
              (pe ++ pp ++ pn ++ ph ++ oa) ob (oc ++ pu) d1
              Hsame_member Hsame_day Hnone) as [e He].
  rewrite <- !app_assoc in He. cbn [app] in He.
  rewrite <- !app_assoc in Href. cbn [app] in Href. rewrite <- !app_assoc in Href. 
  cbn [app] in Href.
  congruence.
Qed.

(** The handler inside the loop over [leave_record] never runs: no run
    logs a skipped duplicate. *)
Lemma no_duplicate_is_ever_skipped path w a b :
  ~ In (Log WARNING (SkippingDuplicate a b)) (events (transfer_data path (new_session w))).
Proof.
  intros Hin.
  destruct (connects (fs w path)) as [c|] eqn:Hc.
  2:{ assert (Hfs : fs (new_session w) path = Missing
                    \/ fs (new_session w) path = Unopenable).
      { cbn. destruct (fs w path); try discriminate; auto. }
      destruct Hfs as [Hfs|Hfs];
        [rewrite (transfer_data_missing _ _ Hfs) in Hin
        |rewrite (transfer_data_unopenable _ _ Hfs) in Hin];
        cbn in Hin; intuition discriminate. }
  rewrite (transfer_data_connected path (new_session w) c Hc) in Hin. cbv zeta in Hin.
  destruct (try_block_run c _ (pending_connected_new_session w))
    as (_ & _ & (ev1 & ev2 & Hevs & H1 & H2) & _).
  destruct (try_block c (connected (new_session w))) as [ob wb eb].
  cbn [out after events] in *. subst eb.
  assert (Hin' : In (Log WARNING (SkippingDuplicate a b)) (ev1 ++ ev2)).
  { destruct ob; cbn [events] in Hin;
      destruct Hin as [Hin|[Hin|Hin]]; try discriminate;
      apply in_app_or in Hin as [Hin|Hin]; try assumption;
      cbn in Hin; intuition discriminate. }
  apply in_app_or in Hin' as [Hin'|Hin'].
  - rewrite Forall_forall in H1. exact (H1 _ Hin').
  - destruct H2 as [-> | (ev3 & -> & H3 & _)]; [contradiction|].
    destruct Hin' as [Hin'|Hin']; [discriminate|].
    rewrite Forall_forall in H3. exact (H3 _ Hin').
Qed.

(** * Further properties *)

(** ** What a run that commits has inserted *)

Lemma reference_plans c d :
  reference c = inr d ->
  exists s e p n h l u,
    plan c staff = inr s /\ plan c engagement = inr e /\ plan c proposal = inr p
    /\ plan c non_billable = inr n /\ plan c hours_log = inr h
    /\ plan c leave_record = inr l /\ plan c utilization = inr u
    /\ insert_all (s ++ e ++ p ++ n ++ h ++ l ++ u) empty_database = inr d.
Proof.
  unfold reference, plan_after_flush. intros H.
  destruct (plan c staff) as [|s]; cbn [bindE] in H; [discriminate|].
  destruct (insert_all s empty_database) as [|d1] eqn:E; cbn [bindE] in H; [discriminate|].
  destruct (plan c engagement) as [|e]; cbn [bindE] in H; [discriminate|].
  destruct (plan c proposal) as [|p]; cbn [bindE] in H; [discriminate|].
  destruct (plan c non_billable) as [|n]; cbn [bindE] in H; [discriminate|].
  destruct (plan c hours_log) as [|h]; cbn [bindE] in H; [discriminate|].
  destruct (plan c leave_record) as [|l]; cbn [bindE] in H; [discriminate|].
  destruct (plan c utilization) as [|u]; cbn [bindE] in H; [discriminate|].
  exists s, e, p, n, h, l, u. repeat (split; [reflexivity|]).
  rewrite insert_all_app, E. exact H.
Qed.

(** The objects of one table lie together in what a run inserts. *)
Lemma reference_table c d t :
  reference c = inr d ->
  exists os pre post,
    plan c t = inr os /\ insert_all (pre ++ os ++ post) empty_database = inr d.
Proof.
  intros H. destruct (reference_plans c d H)
    as (s & e & p & n & h & l & u & Hs & He & Hp & Hn & Hh & Hl & Hu & Hall).
  destruct t.
  - exists s, [], (e ++ p ++ n ++ h ++ l ++ u). auto.
  - exists e, s, (p ++ n ++ h ++ l ++ u). auto.
  - exists p, (s ++ e), (n ++ h ++ l ++ u). rewrite <- !app_assoc. auto.
  - exists n, (s ++ e ++ p), (h ++ l ++ u). rewrite <- !app_assoc. auto.
  - exists h, (s ++ e ++ p ++ n), (l ++ u). rewrite <- !app_assoc. auto.
  - exists l, (s ++ e ++ p ++ n ++ h), u. rewrite <- !app_assoc. auto.
  - exists u, (s ++ e ++ p ++ n ++ h ++ l), []. rewrite <- !app_assoc, app_nil_r. auto.
Qed.

Lemma insert_all_In os : forall d d' o,
  insert_all os d = inr d' -> In o os -> exists d1 d2, insert o d1 = inr d2.
Proof.
  induction os as [|x os IH]; intros d d' o; cbn [insert_all]; [contradiction|].
  destruct (insert x d) as [|d1] eqn:E; cbn [bindE]; [discriminate|].
  intros H [->|Hin]; [eauto | eapply IH; eassumption].
Qed.

(** A run from a legacy file whose staging or whose inserts cannot
    succeed returns [False] and leaves the store as it was. *)
Lemma run_without_reference path w tables :
  fs w path = SqliteFile tables ->
  (forall d, reference (Connection (Some tables)) <> inr d) ->
  let r := transfer_data path (new_session w) in
  out r = Returned false /\ committed (after r) = committed w.
Proof.
  intros Hfs Hno r.
  destruct (transfer_data_commits path w) as [_ H]. fold r in H. clearbody r.
  rewrite Hfs in H. cbn [connects] in H.
  destruct (reference (Connection (Some tables))) as [e|d] eqn:Href; [exact H|].
  destruct (Hno d eq_refl).
Qed.

(** One row that cannot be staged, or whose object cannot be inserted,
    fails the run. *)
Lemma bad_row_fails path w tables t rows row :
  fs w path = SqliteFile tables ->
  tables t = Some rows ->
  In row rows ->
  (forall o d d', staged t row = inr o -> insert o d <> inr d') ->
  let r := transfer_data path (new_session w) in
  out r = Returned false /\ committed (after r) = committed w.
Proof.
  intros Hfs Ht Hin Hbad. apply run_without_reference with (tables := tables); [exact Hfs|].
  intros d Href.
  destruct (reference_table _ _ t Href) as (os & pre & post & Hplan & Hall).
  destruct (plan_rows _ _ _ Hplan) as (rows' & Hfetch & Hstaged).
  cbn [fetch] in Hfetch. rewrite Ht in Hfetch. injection Hfetch as <-.
  destruct (Forall2_In_left _ _ _ _ Hstaged Hin) as (o & Ho & Hrow).
  assert (Hin' : In o (pre ++ os ++ post)).
  { apply in_or_app. right. apply in_or_app. left. exact Ho. }
  destruct (insert_all_In _ _ _ _ Hall Hin') as (d1 & d2 & Hins).
  exact (Hbad o d1 d2 Hrow Hins).
Qed.

Lemma Forall2_split_two {A B} (R : A -> B -> Prop) ra x rb y rc os :
  Forall2 R (ra ++ x :: rb ++ y :: rc) os ->
  exists a o1 b o2 c, os = a ++ o1 :: b ++ o2 :: c /\ R x o1 /\ R y o2.
Proof.
  intros H.
  apply Forall2_app_inv_l in H as (a & r1 & _ & H & ->).
  inversion H as [|? o1 ? r2 Hx H2]; subst.
  apply Forall2_app_inv_l in H2 as (b & r3 & _ & H3 & ->).
  inversion H3 as [|? o2 ? c Hy _]; subst.
  exists a, o1, b, o2, c. auto.
Qed.

(** Two rows of a table whose objects cannot both be inserted, one after
    the other, fail the run. *)
Lemma conflicting_rows_fail path w tables t ra row1 rb row2 rc :
  fs w path = SqliteFile tables ->
  tables t = Some (ra ++ row1 :: rb ++ row2 :: rc) ->
  (forall o1 o2 a b c d d',
      staged t row1 = inr o1 -> staged t row2 = inr o2 ->
      insert_all (a ++ o1 :: b ++ o2 :: c) d <> inr d') ->
  let r := transfer_data path (new_session w) in
  out r = Returned false /\ committed (after r) = committed w.
Proof.
  intros Hfs Ht Hbad. apply run_without_reference with (tables := tables); [exact Hfs|].
  intros d Href.
  destruct (reference_table _ _ t Href) as (os & pre & post & Hplan & Hall).
  destruct (plan_rows _ _ _ Hplan) as (rows' & Hfetch & Hstaged).
  cbn [fetch] in Hfetch. rewrite Ht in Hfetch. injection Hfetch as <-.
  apply Forall2_split_two in Hstaged as (a & o1 & b & o2 & c & -> & H1 & H2).
  apply (Hbad o1 o2 (pre ++ a) b (c ++ post) empty_database d H1 H2).
  rewrite <- Hall. rewrite <- !app_assoc. cbn [app]. rewrite <- !app_assoc. reflexivity.
Qed.

(** ** What staging and inserting require *)

Ltac take_item H :=
  match type of H with
  | context [item ?r ?k] =>
      unfold item at 1 in H;
      let E := fresh "Hcol" in
      destruct (nth_error r k) eqn:E; cbn [bindE] in H; [|discriminate H]
  end.

Ltac take_float H :=
  match type of H with
  | context [py_float ?f ?v] =>
      let E := fresh "Hfloat" in
      destruct (py_float f v) eqn:E; cbn [bindE] in H; [discriminate H|]
  end.

Ltac take_date H :=
  match type of H with
  | context [convert_date ?v] =>
      let E := fresh "Hdate" in
      destruct (convert_date v) eqn:E; cbn [bindE] in H; [discriminate H|]
  end.

Lemma staged_built_from t row o :
  staged t row = inr o -> table_of o = t /\ built_from row o.
Proof.
  intros H. destruct t; cbn [staged] in H;
    unfold new_Staff, new_NonBillable, new_HoursLog, new_LeaveRecord, new_Utilization in H;
    repeat first [take_item H | take_float H | take_date H];
    injection H as <-; (split; [reflexivity|]); unfold built_from;
    cbn [key Staff.id Staff.name Staff.email Staff.leave_days_remaining
         Staff.is_team_leader Staff.receive_notifications
         Engagement.id Engagement.name Engagement.description
         Engagement.team_leader_id Engagement.status
         Proposal.id Proposal.name Proposal.description
         Proposal.team_leader_id Proposal.status
         NonBillable.id NonBillable.name
         HoursLog.id HoursLog.staff_id HoursLog.category HoursLog.item_id
         HoursLog.hours HoursLog.date
         LeaveRecord.id LeaveRecord.staff_id LeaveRecord.date
         Utilization.id Utilization.staff_id Utilization.week_start
         Utilization.client_utilization_year_to_date
         Utilization.client_utilization_month_to_date
         Utilization.resource_utilization_year_to_date
         Utilization.resource_utilization_month_to_date];
    repeat split; eauto.
Qed.

Lemma built_from_length row o :
  built_from row o -> (columns_read (table_of o) <= List.length row)%nat.
Proof.
  assert (Hlen : forall i v, nth_error row i = Some v -> (S i <= List.length row)%nat).
  { intros i v H. apply Nat.le_succ_l. apply nth_error_Some. rewrite H. discriminate. }
  intros [_ H]. destruct o; cbn [table_of columns_read].
  - destruct H as (_ & _ & _ & _ & r5 & H & _). exact (Hlen _ _ H).
  - destruct H as (_ & _ & H & _). exact (Hlen _ _ H).
  - destruct H as (_ & _ & H & _). exact (Hlen _ _ H).
  - exact (Hlen _ _ H).
  - destruct H as (_ & _ & _ & _ & r5 & H & _). exact (Hlen _ _ H).
  - destruct H as (_ & r2 & H & _). exact (Hlen _ _ H).
  - destruct H as (_ & _ & _ & _ & _ & r6 & f & H & _). exact (Hlen _ _ H).
Qed.

Lemma not_null_inr v : not_null v = inr tt -> v <> PyNone.
Proof. intros H ->. discriminate. Qed.

Lemma date_param_not_null v :
  date_param v = inr tt -> not_null v = inr tt -> isinstance_date v = true.
Proof. destruct v; cbn; congruence. Qed.

Ltac take_check H :=
  match type of H with
  | context [bindE (date_param ?v) _] =>
      let E := fresh "Hparam" in
      destruct (date_param v) as [|[]] eqn:E; cbn [bindE] in H; [discriminate H|]
  | context [bindE (primary_key ?ids ?i) _] =>
      let E := fresh "Hkey" in
      destruct (primary_key ids i) eqn:E; cbn [bindE] in H; [discriminate H|]
  | context [bindE (not_null ?v) _] =>
      let E := fresh "Hnn" in
      destruct (not_null v) as [|[]] eqn:E; cbn [bindE] in H; [discriminate H|]
  | context [bindE (require ?b ?e) _] =>
      let E := fresh "Hreq" in
      destruct (require b e) as [|[]] eqn:E; cbn [bindE] in H; [discriminate H|]
  end.

(** An INSERT that succeeds appends the row, under the key the object has
    or the store generates, and the row was storable. *)
Lemma insert_inv o d d' :
  insert o d = inr d' ->
  exists i,
    primary_key (map key (rows_of (table_of o) d)) (key o) = inr i
    /\ d' = append (with_key i (stored o)) d
    /\ storable (stored o).
Proof.
  intros H. unfold insert in H. destruct o; cbn [stored insert_row] in H;
    unfold insert_staff, insert_engagement, insert_proposal, insert_non_billable,
           insert_hours_log, insert_leave_record, insert_utilization in H;
    repeat take_check H; injection H as <-;
    cbn [table_of rows_of key]; rewrite map_map; cbn [key];
    (eexists; split; [eassumption|]); (split; [reflexivity|]);
    cbn [storable stored]; repeat split;
    first [ solve [apply not_null_inr; assumption]
          | solve [apply date_param_not_null; assumption] ].
Qed.

(** A row is storable only if the object was: no column makes a value
    of NULL. *)
Lemma storable_stored o : storable (stored o) -> storable o.
Proof.
  assert (Ht : forall v, text_affinity v <> PyNone -> v <> PyNone).
  { intros v H ->. now apply H. }
  assert (Hi : forall v, integer_affinity v <> PyNone -> v <> PyNone).
  { intros v H ->. now apply H. }
  assert (Hr : forall v, real_affinity v <> PyNone -> v <> PyNone).
  { intros v H ->. now apply H. }
  destruct o; cbn [storable stored stored_staff stored_engagement stored_proposal
                   stored_non_billable stored_hours_log stored_leave_record
                   stored_utilization
                   Staff.name Staff.email Engagement.name Engagement.status
                   Proposal.name Proposal.status NonBillable.name
                   HoursLog.category HoursLog.item_id HoursLog.hours HoursLog.date
                   LeaveRecord.date Utilization.week_start];
    intros H; repeat match goal with H : _ /\ _ |- _ => destruct H end;
    repeat split; auto.
Qed.

Lemma table_of_stored o : table_of (stored o) = table_of o.
Proof. now destruct o. Qed.

Lemma key_stored o : key (stored o) = key o.
Proof. now destruct o. Qed.

Lemma table_of_with_key i o : table_of (with_key i o) = table_of o.
Proof. now destruct o. Qed.

Lemma key_with_key i o : key (with_key i o) = i.
Proof. now destruct o. Qed.

Lemma table_eqb_eq a b : table_eqb a b = true <-> a = b.
Proof. destruct a, b; cbn; split; congruence. Qed.

Lemma table_eqb_refl t : table_eqb t t = true.
Proof. now destruct t. Qed.

Lemma rows_of_append t o d :
  rows_of t (append o d) =
  rows_of t d ++ (if table_eqb (table_of o) t then [o] else []).
Proof.
  destruct t, o; cbn [rows_of append table_of table_eqb staff_rows engagement_rows
                      proposal_rows non_billable_rows hours_log_rows leave_record_rows
                      utilization_rows];
    rewrite ?map_app, ?app_nil_r; reflexivity.
Qed.

Lemma insert_keeps_rows o d d' t x :
  insert o d = inr d' -> In x (rows_of t d) -> In x (rows_of t d').
Proof.
  intros H Hx. apply insert_inv in H as (i & _ & -> & _).
  rewrite rows_of_append. apply in_or_app. now left.
Qed.

Lemma insert_all_keeps_rows os : forall d d' t x,
  insert_all os d = inr d' -> In x (rows_of t d) -> In x (rows_of t d').
Proof.
  induction os as [|o os IH]; intros d d' t x; cbn [insert_all].
  - now intros [= <-].
  - destruct (insert o d) as [e|d1] eqn:E; cbn [bindE]; [discriminate|].
    intros H Hx. eapply IH; [exact H|]. eapply insert_keeps_rows; eassumption.
Qed.

(** When the row of [o1], once stored, stands in the way of [o2], the two
    cannot be inserted one after the other. *)
Lemma conflict_refused o1 o2 :
  (forall i d d',
      (key o1 <> PyNone -> integer_affinity (key o1) = i) ->
      In (with_key i (stored o1)) (rows_of (table_of o1) d) ->
      insert o2 d <> inr d') ->
  forall a b c d d', insert_all (a ++ o1 :: b ++ o2 :: c) d <> inr d'.
Proof.
  intros Hconflict a b c d d' H.
  rewrite insert_all_app in H.
  destruct (insert_all a d) as [|d1]; cbn [bindE] in H; [discriminate|].
  cbn [insert_all] in H.
  destruct (insert o1 d1) as [|d2] eqn:E1; cbn [bindE] in H; [discriminate|].
  rewrite insert_all_app in H.
  destruct (insert_all b d2) as [|d3] eqn:E2; cbn [bindE] in H; [discriminate|].
  cbn [insert_all] in H.
  destruct (insert o2 d3) as [|d4] eqn:E3; cbn [bindE] in H; [discriminate|].
  apply insert_inv in E1 as (i & Hkey & -> & _).
  apply primary_key_fresh in Hkey as (_ & _ & Hi).
  apply (Hconflict i d3 d4 Hi); [|exact E3].
  eapply insert_all_keeps_rows; [exact E2|].
  rewrite rows_of_append, table_of_with_key, table_of_stored, table_eqb_refl.
  apply in_or_app. right. now left.
Qed.

(** ** Legacy rows that fail the run *)

(** X7. A row with fewer columns than the loop over its table reads
    (6 of [staff], 4 of [engagement] and [proposal], 2 of [non_billable],
    6 of [hours_log], 3 of [leave_record], 7 of [utilization]) fails the
    run: it returns [False] and the destination is left as it was. *)
Theorem short_row_fails_run path w tables t rows row :
  fs w path = SqliteFile tables ->
  tables t = Some rows ->
  In row rows ->
  (List.length row < columns_read t)%nat ->
  let r := transfer_data path (new_session w) in
  out r = Returned false /\ committed (after r) = committed w.
Proof.
  intros Hfs Ht Hin Hlen.
  apply (bad_row_fails path w tables t rows row Hfs Ht Hin).
  intros o d d' Hst _.
  apply staged_built_from in Hst as [<- Hb]. apply built_from_length in Hb. lia.
Qed.

(** X8. A value that [float] refuses (NULL, a date, text that is no
    number, an integer too large for a double) in a column that the loop
    passes to [float] ([leave_days_remaining] of [staff], [hours] of
    [hours_log], the four percentages of [utilization]) fails the run,
    whatever default the destination column declares. *)
Theorem uncoercible_number_fails_run path w tables t rows row i v e :
  fs w path = SqliteFile tables ->
  tables t = Some rows ->
  In row rows ->
  In i (float_columns t) ->
  nth_error row i = Some v ->
  float v = inl e ->
  let r := transfer_data path (new_session w) in
  out r = Returned false /\ committed (after r) = committed w.
Proof.
  intros Hfs Ht Hin Hi Hv He.
  apply (bad_row_fails path w tables t rows row Hfs Ht Hin).
  intros o d d' Hst _.
  apply staged_built_from in Hst as [<- [_ Hb]].
  destruct o; cbn [table_of float_columns In] in Hi;
    repeat match goal with H : _ \/ _ |- _ => destruct H as [<-|H] end;
    try contradiction;
    repeat match goal with
           | H : _ /\ _ |- _ => destruct H
           | H : exists _, _ |- _ => destruct H
           end;
    congruence.
Qed.

(** X9. NULL in a column that the loop copies into an attribute declared
    [nullable=False] (name and email of [staff], name and status of
    [engagement] and [proposal], name of [non_billable], category and
    item_id of [hours_log]) fails the run. *)
Theorem null_in_required_column_fails_run path w tables t rows row i :
  fs w path = SqliteFile tables ->
  tables t = Some rows ->
  In row rows ->
  In i (required_columns t) ->
  nth_error row i = Some PyNone ->
  let r := transfer_data path (new_session w) in
  out r = Returned false /\ committed (after r) = committed w.
Proof.
  intros Hfs Ht Hin Hi Hv.
  apply (bad_row_fails path w tables t rows row Hfs Ht Hin).
  intros o d d' Hst Hins.
  apply staged_built_from in Hst as [<- [_ Hb]].
  apply insert_inv in Hins as (k & _ & _ & Hs). apply storable_stored in Hs.
  destruct o; cbn [table_of required_columns In storable] in Hi, Hs;
    repeat match goal with H : _ \/ _ |- _ => destruct H as [<-|H] end;
    try contradiction;
    repeat match goal with
           | H : _ /\ _ |- _ => destruct H
           | H : exists _, _ |- _ => destruct H
           end;
    congruence.
Qed.

(** X10. A value that [convert_date] does not turn into a date, in a
    column that the loop passes to it ([date] of [hours_log] and of
    [leave_record], [week_start] of [utilization]), fails the run: a
    string that is no date raises in [convert_date]; NULL, a number or
    bytes pass through [convert_date] unchanged and are refused by the
    destination column when the row is written. *)
Theorem no_date_in_date_column_fails_run path w tables t rows row i v :
  fs w path = SqliteFile tables ->
  tables t = Some rows ->
  In row rows ->
  In i (date_columns t) ->
  nth_error row i = Some v ->
  (forall d, convert_date v <> inr (PyDate d)) ->
  let r := transfer_data path (new_session w) in
  out r = Returned false /\ committed (after r) = committed w.
Proof.
  intros Hfs Ht Hin Hi Hv Hno.
  apply (bad_row_fails path w tables t rows row Hfs Ht Hin).
  intros o d d' Hst Hins.
  apply staged_built_from in Hst as [<- [_ Hb]].
  apply insert_inv in Hins as (k & _ & _ & Hs). apply storable_stored in Hs.
  assert (Hdate : forall x, isinstance_date x = true -> convert_date v = inr x -> False).
  { intros [] Hx Hc; try discriminate. exact (Hno _ Hc). }
  destruct o; cbn [table_of date_columns In storable] in Hi, Hs;
    repeat match goal with H : _ \/ _ |- _ => destruct H as [<-|H] end;
    try contradiction;
    repeat match goal with
           | H : _ /\ _ |- _ => destruct H
           | H : exists _, _ |- _ => destruct H
           end;
    match goal with
    | Hx : isinstance_date ?x = true |- _ => apply (Hdate x Hx); congruence
    end.
Qed.

(** ** Legacy rows that clash *)

Lemma same_key_refused o1 o2 z :
  table_of o1 = table_of o2 -> key o1 = PyInt z -> key o2 = PyInt z ->
  forall a b c d d', insert_all (a ++ o1 :: b ++ o2 :: c) d <> inr d'.
Proof.
  intros Ht H1 H2. apply conflict_refused. intros i d d' Hi Hin Hins.
  rewrite H1 in Hi. specialize (Hi ltac:(discriminate)). cbn [integer_affinity] in Hi.
  subst i.
  apply insert_inv in Hins as (i2 & Hkey & _ & _).
  apply primary_key_fresh in Hkey as (Hfresh & _ & Hi2).
  rewrite H2 in Hi2. specialize (Hi2 ltac:(discriminate)). cbn [integer_affinity] in Hi2.
  subst i2.
  apply Hfresh. rewrite <- Ht.
  apply in_map_iff. exists (with_key (PyInt z) (stored o1)).
  split; [apply key_with_key | exact Hin].
Qed.

(** X11. Two rows of one legacy table with the same integer id fail the
    run: the primary key of the destination table refuses the second. *)
Theorem duplicate_id_fails_run path w tables t ra row1 rb row2 rc z :
  fs w path = SqliteFile tables ->
  tables t = Some (ra ++ row1 :: rb ++ row2 :: rc) ->
  nth_error row1 0 = Some (PyInt z) ->
  nth_error row2 0 = Some (PyInt z) ->
  let r := transfer_data path (new_session w) in
  out r = Returned false /\ committed (after r) = committed w.
Proof.
  intros Hfs Ht H1 H2.
  apply (conflicting_rows_fail path w tables t ra row1 rb row2 rc Hfs Ht).
  intros o1 o2 a b c d d' Hs1 Hs2.
  apply staged_built_from in Hs1 as [Ht1 [Hk1 _]].
  apply staged_built_from in Hs2 as [Ht2 [Hk2 _]].
  apply (same_key_refused o1 o2 z); congruence.
Qed.

Lemma same_email_refused s1 s2 :
  Staff.email s1 = Staff.email s2 -> Staff.email s2 <> PyNone ->
  forall a b c d d', insert_all (a ++ OStaff s1 :: b ++ OStaff s2 :: c) d <> inr d'.
Proof.
  intros He Hnone. apply conflict_refused. intros i d d' _ Hin Hins.
  cbn [with_key stored table_of rows_of] in Hin.
  apply in_map_iff in Hin as (x & [= ->] & Hin).
  unfold insert in Hins. cbn [stored insert_row] in Hins. unfold insert_staff in Hins.
  repeat take_check Hins.
  assert (Hex : existsb (fun r => sql_eqb (Staff.email r) (Staff.email (stored_staff s2)))
                        (staff_rows d)
                = true).
  { apply existsb_exists. exists (Staff.with_id i (stored_staff s1)). split; [exact Hin|].
    cbn [Staff.with_id stored_staff Staff.email]. rewrite He.
    apply sql_eqb_refl. now apply text_affinity_not_none. }
  rewrite Hex in Hreq. discriminate.
Qed.

(** X12. Two legacy [staff] rows with the same email, not NULL, fail the
    run: the column is declared [unique=True]. *)
Theorem duplicate_email_fails_run path w tables ra row1 rb row2 rc email :
  fs w path = SqliteFile tables ->
  tables staff = Some (ra ++ row1 :: rb ++ row2 :: rc) ->
  nth_error row1 2 = Some email ->
  nth_error row2 2 = Some email ->
  email <> PyNone ->
  let r := transfer_data path (new_session w) in
  out r = Returned false /\ committed (after r) = committed w.
Proof.
  intros Hfs Ht H1 H2 Hnone.
  apply (conflicting_rows_fail path w tables staff ra row1 rb row2 rc Hfs Ht).
  intros o1 o2 a b c d d' Hs1 Hs2.
  apply staged_built_from in Hs1 as [Ht1 [_ Hb1]].
  apply staged_built_from in Hs2 as [Ht2 [_ Hb2]].
  destruct o1; try discriminate. destruct o2; try discriminate.
  destruct Hb1 as (_ & He1 & _). destruct Hb2 as (_ & He2 & _).
  apply same_email_refused; congruence.
Qed.

(** X13. Two legacy [leave_record] rows for the same member, not NULL,
    whose dates [convert_date] takes to the same value fail the run, also
    when the two dates are written differently ("2024-1-5" and
    "2024-01-05"): the unique constraint is on the converted date. *)
Theorem same_day_written_twice_fails_run
        path w tables ra row1 rb row2 rc member day1 day2 :
  fs w path = SqliteFile tables ->
  tables leave_record = Some (ra ++ row1 :: rb ++ row2 :: rc) ->
  nth_error row1 1 = Some member -> nth_error row2 1 = Some member ->
  member <> PyNone ->
  nth_error row1 2 = Some day1 -> nth_error row2 2 = Some day2 ->
  convert_date day1 = convert_date day2 ->
  let r := transfer_data path (new_session w) in
  out r = Returned false /\ committed (after r) = committed w.
Proof.
  intros Hfs Ht H11 H21 Hmember H12 H22 Hsame.
  apply (conflicting_rows_fail path w tables leave_record ra row1 rb row2 rc Hfs Ht).
  intros o1 o2 a b c d d' Hs1 Hs2.
  apply staged_built_from in Hs1 as [Ht1 [_ Hb1]].
  apply staged_built_from in Hs2 as [Ht2 [_ Hb2]].
  destruct o1; try discriminate. destruct o2; try discriminate.
  destruct Hb1 as (Hm1 & r1 & Hr1 & Hc1). destruct Hb2 as (Hm2 & r2 & Hr2 & Hc2).
  assert (Hs : LeaveRecord.staff_id l = LeaveRecord.staff_id l0) by congruence.
  assert (Hd : LeaveRecord.date l = LeaveRecord.date l0) by congruence.
  assert (Hn : LeaveRecord.staff_id l0 <> PyNone) by congruence.
  destruct (duplicate_leave_records_refused l l0 a b c d Hs Hd Hn) as [e He].
  congruence.
Qed.

(** ** Runs that return [True] *)

Lemma run_true_inv path w :
  out (transfer_data path (new_session w)) = Returned true ->
  exists tables,
    fs w path = SqliteFile tables
    /\ reference (Connection (Some tables))
       = inr (undated_db (committed (after (transfer_data path (new_session w))))).
Proof.
  intros Htrue.
  destruct (transfer_data_commits path w) as [_ H].
  destruct (fs w path) as [| | |tables] eqn:Hfs; cbn [connects] in H.
  - rewrite (transfer_data_missing path (new_session w) Hfs) in Htrue. discriminate.
  - rewrite (transfer_data_unopenable path (new_session w) Hfs) in Htrue. discriminate.
  - unfold reference, plan in H. cbn [fetch bindE] in H.
    destruct H as [H _]. rewrite H in Htrue. discriminate.
  - exists tables. split; [reflexivity|].
    destruct (reference (Connection (Some tables))) as [e|d].
    + destruct H as [H _]. rewrite H in Htrue. discriminate.
    + destruct H as [_ <-]. reflexivity.
Qed.

Lemma mapE_length {A B} (f : A -> exn + B) l : forall l',
  mapE f l = inr l' -> List.length l' = List.length l.
Proof.
  induction l as [|x l IH]; intros l'; cbn [mapE].
  - now intros [= <-].
  - destruct (f x); cbn [bindE]; [discriminate|].
    destruct (mapE f l) as [|ys]; cbn [bindE]; [discriminate|].
    intros [= <-]. cbn [List.length]. now rewrite (IH ys eq_refl).
Qed.

Lemma plan_length c t os :
  plan c t = inr os -> exists rows, fetch c t = inr rows /\ List.length os = List.length rows.
Proof.
  unfold plan. destruct (fetch c t) as [|rows]; cbn [bindE]; [discriminate|].
  intros H. exists rows. split; [reflexivity | now apply mapE_length in H].
Qed.

Lemma insert_all_row_count os : forall d d' t,
  insert_all os d = inr d' ->
  row_count t d' = (row_count t d + List.length (filter (of_table t) os))%nat.
Proof.
  induction os as [|o os IH]; intros d d' t; cbn [insert_all filter List.length].
  - intros [= <-]. lia.
  - destruct (insert o d) as [|d1] eqn:E; cbn [bindE]; [discriminate|].
    intros H. rewrite (IH d1 d' t H).
    apply insert_inv in E as (i & _ & -> & _).
    unfold row_count. rewrite rows_of_append, length_app, table_of_with_key, table_of_stored.
    unfold of_table. destruct (table_eqb (table_of o) t); cbn [List.length]; lia.
Qed.

Lemma filter_of_table t t' os :
  Forall (fun o => table_of o = t') os ->
  List.length (filter (of_table t) os)
  = if table_eqb t' t then List.length os else 0%nat.
Proof.
  induction 1 as [|o os Ho _ IH]; cbn [filter List.length].
  - now destruct (table_eqb t' t).
  - unfold of_table at 1. rewrite Ho.
    destruct (table_eqb t' t); cbn [List.length]; lia.
Qed.

Lemma reference_row_count c d t :
  reference c = inr d ->
  exists rows, fetch c t = inr rows /\ row_count t d = List.length rows.
Proof.
  intros H. destruct (reference_plans c d H)
    as (s & e & p & n & h & l & u & Hs & He & Hp & Hn & Hh & Hl & Hu & Hall).
  rewrite (insert_all_row_count _ _ _ t Hall).
  rewrite !filter_app, !length_app.
  rewrite (filter_of_table t _ _ (plan_table_of _ _ _ Hs)),
          (filter_of_table t _ _ (plan_table_of _ _ _ He)),
          (filter_of_table t _ _ (plan_table_of _ _ _ Hp)),
          (filter_of_table t _ _ (plan_table_of _ _ _ Hn)),
          (filter_of_table t _ _ (plan_table_of _ _ _ Hh)),
          (filter_of_table t _ _ (plan_table_of _ _ _ Hl)),
          (filter_of_table t _ _ (plan_table_of _ _ _ Hu)).
  destruct t; cbn [table_eqb row_count rows_of empty_database staff_rows engagement_rows
                   proposal_rows non_billable_rows hours_log_rows leave_record_rows
                   utilization_rows map List.length];
    [ destruct (plan_length _ _ _ Hs) as (rows & Hf & Hlen)
    | destruct (plan_length _ _ _ He) as (rows & Hf & Hlen)
    | destruct (plan_length _ _ _ Hp) as (rows & Hf & Hlen)
    | destruct (plan_length _ _ _ Hn) as (rows & Hf & Hlen)
    | destruct (plan_length _ _ _ Hh) as (rows & Hf & Hlen)
    | destruct (plan_length _ _ _ Hl) as (rows & Hf & Hlen)
    | destruct (plan_length _ _ _ Hu) as (rows & Hf & Hlen) ];
    exists rows; (split; [exact Hf | lia]).
Qed.

Lemma row_count_undated t d : row_count t (undated_db d) = row_count t d.
Proof.
  destruct t; unfold row_count, rows_of, undated_db;
    cbn [staff_rows engagement_rows proposal_rows non_billable_rows hours_log_rows
         leave_record_rows utilization_rows];
    now rewrite ?length_map.
Qed.

(** X14. After a run that returns [True] every destination table holds as
    many rows as the legacy table of its name, whatever the destination
    held before: what was there is gone and no legacy row is left out. *)
Theorem committed_row_counts path w :
  let r := transfer_data path (new_session w) in
  out r = Returned true ->
  exists tables,
    fs w path = SqliteFile tables
    /\ forall t, exists rows,
         tables t = Some rows
         /\ row_count t (committed (after r)) = List.length rows.
Proof.
  intros r Htrue. subst r.
  destruct (run_true_inv path w Htrue) as (tables & Hfs & Href).
  exists tables. split; [exact Hfs|]. intros t.
  destruct (reference_row_count _ _ t Href) as (rows & Hfetch & Hcount).
  rewrite row_count_undated in Hcount.
  cbn [fetch] in Hfetch. destruct (tables t) as [rows'|]; [|discriminate].
  injection Hfetch as ->. exists rows. auto.
Qed.

Lemma has_placeholder_with_key i o : has_placeholder o -> has_placeholder (with_key i o).
Proof. now destruct o. Qed.

Lemma has_placeholder_stored o : has_placeholder o -> has_placeholder (stored o).
Proof.
  destruct o; cbn [has_placeholder stored stored_engagement stored_proposal
                   Engagement.description Proposal.description]; auto;
    intros ->; reflexivity.
Qed.

Lemma insert_all_placeholders os : forall d d',
  insert_all os d = inr d' ->
  Forall has_placeholder os ->
  (forall t, Forall has_placeholder (rows_of t d)) ->
  forall t, Forall has_placeholder (rows_of t d').
Proof.
  induction os as [|o os IH]; intros d d'; cbn [insert_all].
  - now intros [= <-].
  - destruct (insert o d) as [|d1] eqn:E; cbn [bindE]; [discriminate|].
    intros H Hos Hd. inversion Hos as [|? ? Ho Hos']; subst.
    apply (IH d1 d' H Hos').
    apply insert_inv in E as (i & _ & -> & _).
    intros t. rewrite rows_of_append, table_of_with_key, table_of_stored.
    apply Forall_app. split; [apply Hd|].
    destruct (table_eqb (table_of o) t); constructor;
      [now apply has_placeholder_with_key, has_placeholder_stored | constructor].
Qed.

Lemma plan_placeholders c t os : plan c t = inr os -> Forall has_placeholder os.
Proof.
  intros H. destruct (plan_rows _ _ _ H) as (rows & _ & H2). clear H.
  induction H2 as [|row o rows os Hst _ IH]; constructor; [|exact IH].
  apply staged_built_from in Hst as [_ [_ Hb]].
  destruct o; cbn [has_placeholder]; try exact I; apply Hb.
Qed.

(** X17. After a run that returns [True] every Engagement and every
    Proposal of the destination has the one description that
    [fake_description] returns. *)
Theorem committed_descriptions path w :
  let r := transfer_data path (new_session w) in
  out r = Returned true ->
  Forall (fun e => Engagement.description e = fake_description)
         (engagement_rows (committed (after r)))
  /\ Forall (fun p => Proposal.description p = fake_description)
            (proposal_rows (committed (after r))).
Proof.
  intros r Htrue. subst r.
  destruct (run_true_inv path w Htrue) as (tables & Hfs & Href).
  destruct (reference_plans _ _ Href)
    as (s & e & p & n & h & l & u & Hs & He & Hp & Hn & Hh & Hl & Hu & Hall).
  assert (Hos : Forall has_placeholder (s ++ e ++ p ++ n ++ h ++ l ++ u)).
  { repeat (apply Forall_app; split); eapply plan_placeholders; eassumption. }
  assert (Hempty : forall t, Forall has_placeholder (rows_of t empty_database)).
  { intros []; constructor. }
  pose proof (insert_all_placeholders _ _ _ Hall Hos Hempty) as Hd.
  split.
  - specialize (Hd engagement). cbn [rows_of undated_db engagement_rows] in Hd.
    rewrite Forall_map, Forall_map in Hd. exact Hd.
  - specialize (Hd proposal). cbn [rows_of undated_db proposal_rows] in Hd.
    rewrite Forall_map, Forall_map in Hd. exact Hd.
Qed.

(** X15. The outcome of a run and, but for the synthesized dates, the
    destination it commits depend on the legacy file alone: two runs on
    the same file, at whatever time, with whatever draws of the random
    generator and whatever the destination held before, both return
    [True] or both fail, and when they return [True] the two destinations
    have the same rows in the tables without synthesized dates, and
    Engagements and Proposals that differ in nothing but [start_date],
    [end_date] and [due_date]. *)
Theorem runs_differ_only_in_synthesized_dates path w1 w2 :
  fs w1 path = fs w2 path ->
  let r1 := transfer_data path (new_session w1) in
  let r2 := transfer_data path (new_session w2) in
  out r1 = out r2
  /\ (out r1 = Returned true ->
      staff_rows (committed (after r1)) = staff_rows (committed (after r2))
      /\ non_billable_rows (committed (after r1)) = non_billable_rows (committed (after r2))
      /\ hours_log_rows (committed (after r1)) = hours_log_rows (committed (after r2))
      /\ leave_record_rows (committed (after r1)) = leave_record_rows (committed (after r2))
      /\ utilization_rows (committed (after r1)) = utilization_rows (committed (after r2))
      /\ map undated_engagement (engagement_rows (committed (after r1)))
         = map undated_engagement (engagement_rows (committed (after r2)))
      /\ map undated_proposal (proposal_rows (committed (after r1)))
         = map undated_proposal (proposal_rows (committed (after r2)))).
Proof.
  intros Hfs r1 r2.
  destruct (transfer_data_commits path w1) as [_ H1]. fold r1 in H1.
  destruct (transfer_data_commits path w2) as [_ H2]. fold r2 in H2.
  assert (Hout : forall w, connects (fs w path) = None ->
                           out (transfer_data path (new_session w))
                           = match fs w path with
                             | Missing => Returned false
                             | _ => Raised Sqlite3OperationalError
                             end).
  { intros w Hc. destruct (fs w path) eqn:E; try discriminate.
    - now rewrite (transfer_data_missing path (new_session w) E).
    - now rewrite (transfer_data_unopenable path (new_session w) E). }
  pose proof (Hout w1) as Ho1. pose proof (Hout w2) as Ho2.
  fold r1 in Ho1. fold r2 in Ho2. clearbody r1 r2. clear Hout.
  rewrite <- Hfs in H2, Ho2.
  destruct (connects (fs w1 path)) as [c|].
  - destruct (reference c) as [e|d].
    + destruct H1 as [-> _]. destruct H2 as [-> _]. split; [reflexivity | discriminate].
    + destruct H1 as [-> E1]. destruct H2 as [-> E2]. split; [reflexivity|].
      intros _. rewrite <- E2 in E1. unfold undated_db in E1. injection E1. auto 10.
  - rewrite (Ho1 eq_refl), (Ho2 eq_refl). split; [reflexivity|].
    destruct (fs w1 path); discriminate.
Qed.

(** ** The events of a run that completes *)

Lemma clear_tables_returns w :
  out (clear_tables w) = Returned tt
  /\ events (clear_tables w) =
     [Log INFO Clearing; Delete non_billable; Delete hours_log; Delete leave_record;
      Delete utilization; Delete proposal; Delete engagement; Delete staff].
Proof. split; reflexivity. Qed.

Lemma session_flush_events w : events (session_flush w) = [Flush].
Proof. unfold session_flush. now destruct (insert_all (pending w) (view w)). Qed.

Lemma session_commit_events w : events (session_commit w) = [Commit; Flush].
Proof.
  unfold session_commit. pose proof (session_flush_events w) as H.
  destruct (session_flush w) as [[a|e] w1 e1]; cbn [out after events] in *; now subst.
Qed.

Lemma transfer_table_returns c t body w :
  body_ok t body ->
  out (transfer_table c t body w) = Returned tt ->
  exists rows os,
    fetch c t = inr rows
    /\ List.length os = List.length rows
    /\ events (transfer_table c t body w) = section_events t os (List.length rows).
Proof.
  intros Hb. unfold transfer_table.
  erewrite bind_Returned by reflexivity.
  destruct (fetch c t) as [e|rows] eqn:Hfetch.
  - erewrite bind_Raised by (unfold select_all; rewrite Hfetch; reflexivity).
    cbn [out after events]. discriminate.
  - erewrite bind_Returned by (unfold select_all; rewrite Hfetch; reflexivity).
    destruct (for_each_ok _ _ Hb rows w) as (_ & _ & os & He & _ & _ & Hout).
    destruct (for_each rows body w) as [o1 w1 e1] eqn:Hrun.
    cbn [out after events] in *. subst e1.
    destruct (mapE (staged t) rows) as [e|os'] eqn:Hmap.
    + subst o1. erewrite bind_Raised by exact Hrun. cbn [out after events]. discriminate.
    + destruct Hout as [-> Hu]. erewrite bind_Returned by exact Hrun.
      cbn [out after events app logging_info]. intros _.
      exists rows, os. split; [reflexivity|]. split; [|reflexivity].
      apply mapE_length in Hmap. rewrite <- Hmap, <- Hu. now rewrite length_map.
Qed.

Lemma transfer_leave_records_returns c w :
  out (transfer_leave_records c w) = Returned tt ->
  exists rows os,
    fetch c leave_record = inr rows
    /\ List.length os = List.length rows
    /\ events (transfer_leave_records c w)
       = section_events leave_record os (List.length rows).
Proof.
  unfold transfer_leave_records.
  erewrite bind_Returned by reflexivity.
  destruct (fetch c leave_record) as [e|rows] eqn:Hfetch.
  - erewrite bind_Raised by (unfold select_all; rewrite Hfetch; reflexivity).
    cbn [out after events]. discriminate.
  - erewrite bind_Returned by (unfold select_all; rewrite Hfetch; reflexivity).
    destruct (leave_loop_ok rows 0 w) as (_ & _ & os & He & _ & _ & Hout).
    destruct (for_each_with rows 0%nat leave_record_body w) as [o1 w1 e1] eqn:Hrun.
    cbn [out after events] in *. subst e1.
    destruct (mapE (staged leave_record) rows) as [e|os'] eqn:Hmap.
    + subst o1. erewrite bind_Raised by exact Hrun. cbn [out after events]. discriminate.
    + destruct Hout as [-> Hu]. erewrite bind_Returned by exact Hrun.
      cbn [out after events app logging_info Nat.add]. intros _.
      exists rows, os. split; [reflexivity|]. split; [|reflexivity].
      apply mapE_length in Hmap. rewrite <- Hmap, <- Hu. now rewrite length_map.
Qed.

Lemma traces_bind {A B} (m : M A) (f : A -> M B)
      (P : A -> list event -> Prop) (Q : B -> list event -> Prop) :
  traces m P -> (forall a, traces (f a) Q) ->
  traces (bind m f) (fun b evs => exists a e1 e2, evs = e1 ++ e2 /\ P a e1 /\ Q b e2).
Proof.
  intros Hm Hf w b. unfold bind. specialize (Hm w).
  destruct (m w) as [[a|e] w1 e1]; cbn [out after events] in *; [|discriminate].
  intros H. exists a, e1, (events (f a w1)).
  split; [reflexivity|]. split; [now apply Hm | now apply Hf].
Qed.

Lemma traces_transfer_table c t body :
  body_ok t body ->
  traces (transfer_table c t body)
         (fun _ evs => exists rows os,
              fetch c t = inr rows /\ List.length os = List.length rows
              /\ evs = section_events t os (List.length rows)).
Proof. intros Hb w [] H. now apply transfer_table_returns. Qed.

Lemma traces_transfer_leave_records c :
  traces (transfer_leave_records c)
         (fun _ evs => exists rows os,
              fetch c leave_record = inr rows /\ List.length os = List.length rows
              /\ evs = section_events leave_record os (List.length rows)).
Proof. intros w [] H. now apply transfer_leave_records_returns. Qed.

Lemma traces_begin_nested : traces begin_nested (fun _ evs => evs = [BeginNested]).
Proof. intros w a _. reflexivity. Qed.

Lemma traces_clear_tables :
  traces clear_tables
         (fun _ evs => evs = [Log INFO Clearing; Delete non_billable; Delete hours_log;
                              Delete leave_record; Delete utilization; Delete proposal;
                              Delete engagement; Delete staff]).
Proof. intros w a _. apply clear_tables_returns. Qed.

Lemma traces_session_flush : traces session_flush (fun _ evs => evs = [Flush]).
Proof. intros w a _. apply session_flush_events. Qed.

Lemma traces_session_commit : traces session_commit (fun _ evs => evs = [Commit; Flush]).
Proof. intros w a _. apply session_commit_events. Qed.

Lemma traces_logging_info m : traces (logging_info m) (fun _ evs => evs = [Log INFO m]).
Proof. intros w a _. reflexivity. Qed.

Lemma traces_ret {A} (x : A) : traces (ret x) (fun a evs => a = x /\ evs = []).
Proof. intros w a [= <-]. split; reflexivity. Qed.

Ltac trace_leaf :=
  first [ apply traces_begin_nested | apply traces_clear_tables
        | apply traces_session_flush | apply traces_session_commit
        | apply traces_logging_info | apply traces_transfer_leave_records
        | apply traces_transfer_table;
          first [ apply staff_body_ok | apply engagement_body_ok | apply proposal_body_ok
                | apply non_billable_body_ok | apply hours_log_body_ok
                | apply utilization_body_ok ] ].

(** Every event of a [try] block that returns. *)
Lemma try_block_trace c w b :
  out (try_block c w) = Returned b ->
  exists (rows : table -> list row) (os : table -> list obj),
    (forall t, fetch c t = inr (rows t))
    /\ (forall t, List.length (os t) = List.length (rows t))
    /\ b = true
    /\ events (try_block c w) =
       BeginNested :: Log INFO Clearing
       :: [Delete non_billable; Delete hours_log; Delete leave_record;
           Delete utilization; Delete proposal; Delete engagement; Delete staff]
       ++ section_events staff (os staff) (List.length (rows staff))
       ++ Flush
       :: section_events engagement (os engagement) (List.length (rows engagement))
       ++ section_events proposal (os proposal) (List.length (rows proposal))
       ++ section_events non_billable (os non_billable) (List.length (rows non_billable))
       ++ section_events hours_log (os hours_log) (List.length (rows hours_log))
       ++ section_events leave_record (os leave_record) (List.length (rows leave_record))
       ++ section_events utilization (os utilization) (List.length (rows utilization))
       ++ [Commit; Flush; Log INFO Completed].
Proof.
  intros H.
  eassert (Ht : traces (try_block c) _).
  { unfold try_block.
    do 12 (eapply traces_bind; [trace_leaf | intros _]).
    apply traces_ret. }
  specialize (Ht w b H). clear H. cbv beta in Ht.
  generalize dependent (events (try_block c w)). intros evs Ht.
  repeat match goal with
         | H : exists _, _ |- _ => destruct H
         | H : _ /\ _ |- _ => destruct H
         end.
  subst.
  match goal with
  | Hs : fetch c staff = inr ?r1, He : fetch c engagement = inr ?r2,
    Hp : fetch c proposal = inr ?r3, Hn : fetch c non_billable = inr ?r4,
    Hh : fetch c hours_log = inr ?r5, Hl : fetch c leave_record = inr ?r6,
    Hu : fetch c utilization = inr ?r7,
    L1 : List.length ?o1 = List.length ?r1, L2 : List.length ?o2 = List.length ?r2,
    L3 : List.length ?o3 = List.length ?r3, L4 : List.length ?o4 = List.length ?r4,
    L5 : List.length ?o5 = List.length ?r5, L6 : List.length ?o6 = List.length ?r6,
    L7 : List.length ?o7 = List.length ?r7 |- _ =>
      exists (fun t => match t with
                       | staff => r1 | engagement => r2 | proposal => r3
                       | non_billable => r4 | hours_log => r5 | leave_record => r6
                       | utilization => r7
                       end),
             (fun t => match t with
                       | staff => o1 | engagement => o2 | proposal => o3
                       | non_billable => o4 | hours_log => o5 | leave_record => o6
                       | utilization => o7
                       end)
  end.
  split; [intros []; assumption|]. split; [intros []; assumption|].
  split; [reflexivity|].
  cbn [app]. rewrite <- ?app_assoc. cbn [app]. reflexivity.
Qed.

Lemma logged_app a b : logged (a ++ b) = logged a ++ logged b.
Proof.
  induction a as [|x a IH]; [reflexivity|].
  destruct x; cbn [app logged]; now rewrite ?IH.
Qed.

Lemma logged_map_Add os : logged (map Add os) = [].
Proof. induction os; cbn [map logged]; auto. Qed.

Lemma logged_section t os n :
  logged (section_events t os n) = [(INFO, Transferring t); (INFO, Transferred n t)].
Proof.
  unfold section_events. cbn [logged]. now rewrite logged_app, logged_map_Add.
Qed.

Lemma transfer_data_true_inv path w :
  out (transfer_data path w) = Returned true ->
  exists tables,
    fs w path = SqliteFile tables
    /\ out (try_block (Connection (Some tables)) (connected w)) = Returned true
    /\ events (transfer_data path w)
       = Log INFO (Starting path) :: Connect path
         :: events (try_block (Connection (Some tables)) (connected w)) ++ [Close].
Proof.
  intros Htrue.
  destruct (fs w path) as [| | |tables] eqn:Hfs.
  - rewrite (transfer_data_missing path w Hfs) in Htrue. discriminate.
  - rewrite (transfer_data_unopenable path w Hfs) in Htrue. discriminate.
  - assert (Hc : connects (fs w path) = Some (Connection None)) by now rewrite Hfs.
    rewrite (transfer_data_connected path w _ Hc) in Htrue. cbv zeta in Htrue.
    rewrite try_block_sections, <- bind_assoc in Htrue.
    erewrite bind_Returned in Htrue by apply clear_tables_run.
    erewrite bind_Raised in Htrue by reflexivity.
    discriminate.
  - assert (Hc : connects (fs w path) = Some (Connection (Some tables))) by now rewrite Hfs.
    exists tables. split; [reflexivity|].
    rewrite (transfer_data_connected path w _ Hc) in *. cbv zeta in *.
    destruct (try_block (Connection (Some tables)) (connected w)) as [[b|e] wb eb];
      cbn [out after events] in *.
    + injection Htrue as ->. auto.
    + discriminate.
Qed.

(** X16. A run that returns [True] has logged seventeen messages, these
    and no other, in this order: the start, the clearing, for each of the
    seven tables its "Transferring" and its "Transferred n" with [n] the
    number of rows of the legacy table, and the completion.  The count of
    LeaveRecords, which the loop keeps itself, is the number of legacy
    rows as well. *)
Theorem log_of_a_completed_run path w :
  let r := transfer_data path w in
  out r = Returned true ->
  exists tables,
    fs w path = SqliteFile tables
    /\ (forall t, tables t <> None)
    /\ logged (events r) = success_log path (rows_in tables).
Proof.
  intros r Htrue. subst r.
  destruct (transfer_data_true_inv path w Htrue) as (tables & Hfs & Hblock & ->).
  destruct (try_block_trace _ _ _ Hblock) as (rows & os & Hrows & _ & _ & ->).
  exists tables. split; [exact Hfs|].
  assert (Ht : forall t, tables t = Some (rows t)).
  { intros t. specialize (Hrows t). cbn [fetch] in Hrows.
    destruct (tables t); [now injection Hrows as -> | discriminate]. }
  split; [intros t; rewrite Ht; discriminate|].
  unfold success_log, rows_in. rewrite !Ht.
  repeat (cbn [logged app]; rewrite ?logged_app, ?logged_section).
  reflexivity.
Qed.

(** ** More on the helpers *)

(** X1. [convert_date] never returns a string, and converting what it
    returned changes nothing: a value can be passed through it any number
    of times. *)
Theorem convert_date_idempotent v v' :
  convert_date v = inr v' ->
  isinstance_str v' = false /\ convert_date v' = inr v'.
Proof.
  destruct v; cbn [convert_date]; try (intros [= <-]; split; reflexivity).
  destruct (Strptime.strptime_date decimal_digit s); [|discriminate].
  intros [= <-]. split; reflexivity.
Qed.

(** X3. The two dates of an Engagement are drawn one after the other and
    independently: for every two offsets of 1 to 365 days there are draws
    of the generator with which the constructor call of the loop gives
    [start_date] the first offset and [end_date] the second, so nothing
    keeps [end_date] from being earlier than [start_date]. *)
Theorem engagement_dates_are_independent row w id name leader status a b :
  nth_error row 0 = Some id -> nth_error row 1 = Some name ->
  nth_error row 2 = Some leader -> nth_error row 3 = Some status ->
  1 <= a <= 365 -> 1 <= b <= 365 ->
  exists draw : nat -> nat,
    out (new_Engagement row
           (World (fs w) (clock w) (clock_reads w) draw (draws w) (open_connections w)
                  (committed w) (transaction w) (pending w)))
    = Returned (Engagement.Build id name fake_description
                  (PyDate.add_days (clock w (clock_reads w)) a)
                  (PyDate.add_days (clock w (S (clock_reads w))) b)
                  leader status).
Proof.
  intros H0 H1 H2 H3 Ha Hb.
  exists (fun k => if Nat.eqb k (draws w) then Z.to_nat (a - 1) else Z.to_nat (b - 1)).
  unfold new_Engagement.
  erewrite bind_Returned by (unfold item; rewrite H0; reflexivity). cbn [out after events].
  erewrite bind_Returned by (unfold item; rewrite H1; reflexivity). cbn [out after events].
  erewrite bind_Returned by (unfold item; rewrite H2; reflexivity). cbn [out after events].
  erewrite bind_Returned by (unfold item; rewrite H3; reflexivity). cbn [out after events].
  erewrite bind_Returned by apply fake_date_value. cbn [out after events].
  erewrite bind_Returned by apply fake_date_value.
  cbn [out after events ret clock clock_reads entropy draws set_draws set_clock_reads].
  rewrite Nat.eqb_refl.
  assert (Hne : Nat.eqb (S (draws w)) (draws w) = false) by (apply Nat.eqb_neq; lia).
  rewrite Hne.
  rewrite !Z2Nat.id by lia. rewrite !Z.mod_small by lia.
  do 3 f_equal; f_equal; lia.
Qed.

(** ** Paths that lead to no legacy database *)

(** X4. When the path is a directory, [sqlite3.connect] raises before
    the [try] statement is entered: the exception leaves [transfer_data],
    which neither returns [False] nor logs an error nor touches the
    session. *)
Theorem directory_path_raises path w :
  fs w path = Unopenable ->
  transfer_data path w
  = Result (Raised Sqlite3OperationalError) w [Log INFO (Starting path)].
Proof. apply transfer_data_unopenable. Qed.

(** X5. When the path is a file that is no SQLite database, the
    connection opens and the first SELECT raises [sqlite3.DatabaseError],
    which is not an [OperationalError]: the run opens the transaction,
    sends the seven deletes, logs "An unexpected error occurred", rolls
    back, closes the connection and returns [False]; the destination is
    as it was. *)
Theorem not_a_database_fails_run path w :
  fs w path = NotADatabase ->
  let r := transfer_data path w in
  out r = Returned false
  /\ committed (after r) = committed w
  /\ transaction (after r) = None
  /\ pending (after r) = []
  /\ open_connections (after r) = open_connections w
  /\ events r =
     Log INFO (Starting path) :: Connect path :: clearing_events
     ++ [Log INFO (Transferring staff); Execute staff;
         Log ERROR (Unexpected Sqlite3DatabaseError); Rollback; Close].
Proof.
  intros H r. subst r.
  assert (Hc : connects (fs w path) = Some (Connection None)) by (rewrite H; reflexivity).
  rewrite (transfer_data_connected path w _ Hc). cbv zeta.
  rewrite try_block_sections, <- bind_assoc.
  erewrite bind_Returned by apply clear_tables_run.
  erewrite bind_Raised by reflexivity.
  cbn [out after events]. repeat split.
Qed.

(** ** Runs from a connection *)

Lemma connected_run path w c :
  connects (fs w path) = Some c ->
  let r := transfer_data path (new_session w) in
  fs (after r) = fs w
  /\ open_connections (after r) = open_connections w
  /\ (forall p, ~ In (Log ERROR (NotFound p)) (events r))
  /\ match reference c with
     | inr d => out r = Returned true /\ undated_db (committed (after r)) = d
     | inl _ => out r = Returned false /\ committed (after r) = committed w
     end.
Proof.
  intros Hc r.
  destruct (transfer_data_commits path w) as [Hfs H]. fold r in Hfs, H.
  rewrite Hc in H. split; [exact Hfs|]. split; [|split; [|exact H]]; subst r.
  - rewrite (transfer_data_connected path (new_session w) c Hc). cbv zeta.
    destruct (try_block_run c _ (pending_connected_new_session w)) as (_ & Hopen & _).
    destruct (try_block c (connected (new_session w))) as [[b|e] wb eb];
      cbn [out after events] in *; cbn; rewrite Hopen; reflexivity.
  - intros p Hin.
    rewrite (transfer_data_connected path (new_session w) c Hc) in Hin. cbv zeta in Hin.
    destruct (try_block_run c _ (pending_connected_new_session w))
      as (_ & _ & (ev1 & ev2 & Hevs & H1 & H2) & _).
    destruct (try_block c (connected (new_session w))) as [ob wb eb].
    cbn [out after events] in *. subst eb.
    assert (Hin' : In (Log ERROR (NotFound p)) (ev1 ++ ev2)).
    { destruct ob; cbn [events] in Hin;
        destruct Hin as [Hin|[Hin|Hin]]; try discriminate;
        apply in_app_or in Hin as [Hin|Hin]; try assumption.
      - cbn in Hin. intuition discriminate.
      - cbn in Hin. destruct e; cbn in Hin; intuition discriminate. }
    apply in_app_or in Hin' as [Hin'|Hin'].
    + rewrite Forall_forall in H1. exact (H1 _ Hin').
    + destruct H2 as [-> | (ev3 & -> & H3 & _)]; [contradiction|].
      destruct Hin' as [Hin'|Hin']; [discriminate|].
      rewrite Forall_forall in H3. exact (H3 _ Hin').
Qed.

(** X6. A run calls [sqlite3.connect] once at most, on its argument, and
    only where the path leads to something: where nothing is, the test of
    line 126 returns before line 131 is reached, so the call, which would
    create an empty database file there, creates none. *)
Theorem connects_only_where_a_file_is path w p :
  In (Connect p) (events (transfer_data path (new_session w))) ->
  p = path /\ fs w path <> Missing.
Proof.
  intros Hin.
  destruct (connects (fs w path)) as [c|] eqn:Hc.
  2:{ exfalso.
      assert (Hfs : fs (new_session w) path = Missing
                    \/ fs (new_session w) path = Unopenable).
      { cbn. destruct (fs w path); try discriminate; auto. }
      destruct Hfs as [Hfs|Hfs];
        [rewrite (transfer_data_missing _ _ Hfs) in Hin
        |rewrite (transfer_data_unopenable _ _ Hfs) in Hin];
        cbn in Hin; intuition discriminate. }
  assert (Hfs : fs w path <> Missing).
  { intros E. rewrite E in Hc. discriminate. }
  split; [|exact Hfs].
  rewrite (transfer_data_connected path (new_session w) c Hc) in Hin. cbv zeta in Hin.
  destruct (try_block_run c _ (pending_connected_new_session w))
    as (_ & _ & (ev1 & ev2 & Hevs & H1 & H2) & _).
  destruct (try_block c (connected (new_session w))) as [ob wb eb].
  cbn [out after events] in *. subst eb.
  assert (Hin' : p = path \/ In (Connect p) (ev1 ++ ev2)).
  { destruct ob; cbn [events] in Hin;
      destruct Hin as [Hin|[Hin|Hin]]; try discriminate;
      try (injection Hin as <-; left; reflexivity);
      apply in_app_or in Hin as [Hin|Hin]; try (right; assumption).
    - cbn in Hin. intuition discriminate.
    - cbn in Hin. intuition discriminate. }
  destruct Hin' as [->|Hin']; [reflexivity|]. exfalso.
  apply in_app_or in Hin' as [Hin'|Hin'].
  - rewrite Forall_forall in H1. exact (H1 _ Hin').
  - destruct H2 as [-> | (ev3 & -> & H3 & _)]; [contradiction|].
    destruct Hin' as [Hin'|Hin']; [discriminate|].
    rewrite Forall_forall in H3. exact (H3 _ Hin').
Qed.

(** ** [upload_file] *)

Lemma endswith_sep_app s t :
  t <> EmptyString -> endswith_sep (s ++ t)%string = endswith_sep t.
Proof.
  intros Ht. induction s as [|c s IH]; [reflexivity|].
  change (String c s ++ t)%string with (String c (s ++ t)%string).
  rewrite <- IH.
  destruct (s ++ t)%string eqn:E; [|reflexivity].
  destruct s, t; cbn in E; try discriminate. contradiction.
Qed.

Lemma UPLOAD_FOLDER_shape basedir :
  UPLOAD_FOLDER basedir <> EmptyString /\ endswith_sep (UPLOAD_FOLDER basedir) = false.
Proof.
  unfold UPLOAD_FOLDER, os_path_join. cbn [startswith_sep Ascii.eqb Bool.eqb].
  destruct ((basedir =? EmptyString)%string || endswith_sep basedir); cbn [append].
  - split; [destruct basedir; discriminate|].
    rewrite endswith_sep_app by discriminate. reflexivity.
  - split; [destruct basedir; discriminate|].
    rewrite endswith_sep_app by discriminate. reflexivity.
Qed.

Lemma nameless_path basedir :
  endswith_sep (os_path_join (UPLOAD_FOLDER basedir) EmptyString) = true.
Proof.
  destruct (UPLOAD_FOLDER_shape basedir) as [Hne Hsep].
  unfold os_path_join. cbn [startswith_sep]. rewrite Hsep.
  apply String.eqb_neq in Hne. rewrite Hne. cbn [orb append].
  rewrite endswith_sep_app by discriminate. reflexivity.
Qed.

Lemma save_inv file dst w w1 :
  Flask.save file dst w = Some w1 ->
  w1 = Flask.written file dst w /\ fs w1 dst = Flask.as_file (Flask.stream file).
Proof.
  unfold Flask.save.
  destruct (_ || _); [discriminate|].
  destruct (fs w dst); try discriminate; intros [= <-];
    (split; [reflexivity|]); cbn [fs Flask.written]; now rewrite String.eqb_refl.
Qed.

(** The request that holds a named file, by what [file.save] does. *)
Lemma upload_file_posted basedir secure_filename request file w :
  Flask.method request = "POST" ->
  Flask.lookup "file" (Flask.files request) = Some file ->
  Flask.filename file <> EmptyString ->
  upload_file basedir secure_filename request w =
  let file_path :=
    os_path_join (UPLOAD_FOLDER basedir) (secure_filename (Flask.filename file)) in
  match Flask.save file file_path w with
  | None => Flask.Served Flask.InternalServerError w []
  | Some w1 =>
      let r := transfer_data file_path (new_session w1) in
      match out r with
      | Returned true =>
          Flask.Served
            (Flask.Response (Flask.Attachment "new_database.db" (committed (after r))))
            (after r) (events r)
      | Returned false =>
          Flask.Served (Flask.Response (Flask.Text "Error occurred during data transfer"))
                       (after r) (events r)
      | Raised _ => Flask.Served Flask.InternalServerError (after r) (events r)
      end
  end.
Proof.
  intros Hm Hl Hn. unfold upload_file. rewrite Hm, Hl.
  apply String.eqb_neq in Hn. unfold Flask.truth. rewrite Hn.
  cbn [String.eqb Ascii.eqb Bool.eqb andb negb]. cbv zeta.
  destruct (Flask.save _ _ w) as [w1|]; [|reflexivity].
  destruct (out (transfer_data _ (new_session w1))) as [[|]|]; reflexivity.
Qed.

(** The other requests are answered without anything being done. *)
Lemma upload_file_not_posted basedir secure_filename request w :
  (Flask.method request <> "POST"
   \/ Flask.lookup "file" (Flask.files request) = None
   \/ exists file, Flask.lookup "file" (Flask.files request) = Some file
                   /\ Flask.filename file = EmptyString) ->
  exists y,
    upload_file basedir secure_filename request w = Flask.Served (Flask.Response y) w []
    /\ forall n db, y <> Flask.Attachment n db.
Proof.
  intros H. unfold upload_file.
  destruct (String.eqb (Flask.method request) "POST") eqn:Hm.
  2:{ eexists. split; [reflexivity | discriminate]. }
  apply String.eqb_eq in Hm.
  destruct H as [H | [H | (file & H & Hf)]]; [contradiction | |]; rewrite H.
  - eexists. split; [reflexivity | discriminate].
  - rewrite Hf. cbn [String.eqb]. eexists. split; [reflexivity | discriminate].
Qed.

Lemma upload_file_cases request :
  (Flask.method request <> "POST"
   \/ Flask.lookup "file" (Flask.files request) = None
   \/ exists file, Flask.lookup "file" (Flask.files request) = Some file
                   /\ Flask.filename file = EmptyString)
  \/ exists file,
       Flask.method request = "POST"
       /\ Flask.lookup "file" (Flask.files request) = Some file
       /\ Flask.filename file <> EmptyString.
Proof.
  destruct (string_dec (Flask.method request) "POST") as [Hm|Hm]; [|auto].
  destruct (Flask.lookup "file" (Flask.files request)) as [file|] eqn:Hl; [|auto].
  destruct (string_dec (Flask.filename file) EmptyString) as [Hf|Hf].
  - left. right. right. eauto.
  - right. eauto.
Qed.

Lemma connects_as_file u :
  connects (Flask.as_file u)
  = Some (Connection (match u with
                      | Flask.NoDatabase => None
                      | Flask.LegacyDatabase tables => Some tables
                      end)).
Proof. now destruct u. Qed.

(** X18. Whatever the request, the reply of [upload_file] is the
    attachment only when the request is a POST with a file part named
    [file] that is an SQLite database; the attachment is then called
    [new_database.db] and is the destination as the request leaves it,
    with as many rows in every table as the uploaded database has in the
    table of that name.  With every other reply the destination is as the
    request found it. *)
Theorem upload_reply basedir secure_filename request w :
  let s := upload_file basedir secure_filename request w in
  match Flask.reply_of s with
  | Flask.Response (Flask.Attachment name db) =>
      name = "new_database.db"
      /\ db = committed (Flask.world_of s)
      /\ exists file tables,
           Flask.method request = "POST"
           /\ Flask.lookup "file" (Flask.files request) = Some file
           /\ Flask.stream file = Flask.LegacyDatabase tables
           /\ forall t, exists rows,
                tables t = Some rows /\ row_count t db = List.length rows
  | _ => committed (Flask.world_of s) = committed w
  end.
Proof.
  intros s. subst s.
  destruct (upload_file_cases request) as [H | (file & Hm & Hl & Hn)].
  { destruct (upload_file_not_posted basedir secure_filename request w H) as (y & -> & Hy).
    cbn [Flask.reply_of Flask.world_of]. destruct y; try reflexivity.
    destruct (Hy download_name content eq_refl). }
  rewrite (upload_file_posted basedir secure_filename request file w Hm Hl Hn). cbv zeta.
  destruct (Flask.save file _ w) as [w1|] eqn:Hsave; [|reflexivity].
  apply save_inv in Hsave as [Hw1 Hfs].
  assert (Hcommitted : committed w1 = committed w) by now subst w1.
  pose proof (connected_run _ w1 _ (eq_trans (f_equal connects Hfs)
                                             (connects_as_file (Flask.stream file))))
    as Hrun.
  cbv zeta in Hrun. destruct Hrun as (_ & _ & _ & Hrun).
  destruct (transfer_data _ (new_session w1)) as [o wr er].
  cbn [out after events] in *.
  destruct (reference _) as [e|d] eqn:Href.
  - destruct Hrun as [-> Hc]. cbn [Flask.reply_of Flask.world_of]. congruence.
  - destruct Hrun as [-> Hd]. cbn [Flask.reply_of Flask.world_of].
    split; [reflexivity|]. split; [reflexivity|].
    destruct (Flask.stream file) as [|tables] eqn:Hstream.
    { unfold reference, plan in Href. cbn [fetch bindE] in Href. discriminate. }
    exists file, tables. repeat (split; [assumption|]).
    intros t. destruct (reference_row_count _ _ t Href) as (rows & Hfetch & Hcount).
    cbn [fetch] in Hfetch. destruct (tables t) as [rows'|]; [|discriminate].
    injection Hfetch as ->. exists rows. split; [reflexivity|].
    now rewrite <- Hd, row_count_undated in Hcount.
Qed.

(** X19. A POST with a file whose name [secure_filename] reduces to the
    empty name (as it does the name [..]) is answered with the server
    error: the path to save to is the upload folder followed by a
    separator, [file.save] raises and nothing catches it.  No transfer is
    run and nothing changes. *)
Theorem nameless_upload_is_a_server_error basedir secure_filename request file w :
  Flask.method request = "POST" ->
  Flask.lookup "file" (Flask.files request) = Some file ->
  Flask.filename file <> EmptyString ->
  secure_filename (Flask.filename file) = EmptyString ->
  upload_file basedir secure_filename request w
  = Flask.Served Flask.InternalServerError w [].
Proof.
  intros Hm Hl Hn Hs.
  rewrite (upload_file_posted basedir secure_filename request file w Hm Hl Hn). cbv zeta.
  rewrite Hs. unfold Flask.save. rewrite nameless_path, orb_true_r. reflexivity.
Qed.

(** X20. Whatever the request: the legacy connections that [upload_file]
    opens are closed when it replies; the message "Old database not
    found" is never logged, since the path handed to [transfer_data] is
    the file just saved; and the reply is the server error only when
    [file.save] raised, before any transfer, so that the world is as the
    request found it. *)
Theorem upload_file_never_misses_its_file basedir secure_filename request w :
  let s := upload_file basedir secure_filename request w in
  open_connections (Flask.world_of s) = open_connections w
  /\ (forall p, ~ In (Log ERROR (NotFound p)) (Flask.trace s))
  /\ (Flask.reply_of s = Flask.InternalServerError ->
      Flask.world_of s = w /\ Flask.trace s = []).
Proof.
  intros s. subst s.
  destruct (upload_file_cases request) as [H | (file & Hm & Hl & Hn)].
  { destruct (upload_file_not_posted basedir secure_filename request w H) as (y & -> & Hy).
    cbn [Flask.reply_of Flask.world_of Flask.trace]. auto. }
  rewrite (upload_file_posted basedir secure_filename request file w Hm Hl Hn). cbv zeta.
  destruct (Flask.save file _ w) as [w1|] eqn:Hsave;
    [|cbn [Flask.reply_of Flask.world_of Flask.trace]; auto].
  apply save_inv in Hsave as [Hw1 Hfs].
  assert (Hopen : open_connections w1 = open_connections w) by now subst w1.
  pose proof (connected_run _ w1 _ (eq_trans (f_equal connects Hfs)
                                             (connects_as_file (Flask.stream file))))
    as Hrun.
  cbv zeta in Hrun. destruct Hrun as (_ & Ho & Hlog & Hrun).
  destruct (transfer_data _ (new_session w1)) as [o wr er].
  cbn [out after events] in *.
  destruct (reference _) as [e|d]; destruct Hrun as [-> _];
    cbn [Flask.reply_of Flask.world_of Flask.trace];
    (split; [congruence|]); (split; [exact Hlog | discriminate]).
Qed.

(** X21. A POST with a named file that [file.save] could write leaves the
    upload where it was saved, whether the transfer succeeded or failed:
    after the request the path holds the uploaded bytes, which replaced
    what it held, and every other path is as before.  Uploads are never
    removed. *)
Theorem upload_is_kept basedir secure_filename request file w :
  Flask.method request = "POST" ->
  Flask.lookup "file" (Flask.files request) = Some file ->
  Flask.filename file <> EmptyString ->
  let s := upload_file basedir secure_filename request w in
  Flask.reply_of s <> Flask.InternalServerError ->
  forall p,
    fs (Flask.world_of s) p
    = if String.eqb p (os_path_join (UPLOAD_FOLDER basedir)
                                    (secure_filename (Flask.filename file)))
      then Flask.as_file (Flask.stream file)
      else fs w p.
Proof.
  intros Hm Hl Hn s. subst s.
  rewrite (upload_file_posted basedir secure_filename request file w Hm Hl Hn). cbv zeta.
  destruct (Flask.save file _ w) as [w1|] eqn:Hsave;
    [|cbn [Flask.reply_of]; contradiction].
  apply save_inv in Hsave as [Hw1 Hfs].
  pose proof (connected_run _ w1 _ (eq_trans (f_equal connects Hfs)
                                             (connects_as_file (Flask.stream file))))
    as Hrun.
  cbv zeta in Hrun. destruct Hrun as (Hkept & _ & _ & Hrun).
  destruct (transfer_data _ (new_session w1)) as [o wr er].
  cbn [out after events] in *.
  assert (Hw : fs wr = fs (Flask.written file
                             (os_path_join (UPLOAD_FOLDER basedir)
                                           (secure_filename (Flask.filename file))) w))
    by congruence.
  destruct (reference _) as [e|d]; destruct Hrun as [-> _];
    cbn [Flask.reply_of Flask.world_of]; intros _ p; rewrite Hw; reflexivity.
Qed.

(** ** Dates of different days *)

Lemma days_before_year_succ y :
  PyDate.days_before_year (y + 1)
  = PyDate.days_before_year y + (if PyDate.is_leap y then 366 else 365).
Proof.
  unfold PyDate.days_before_year, PyDate.is_leap. cbv zeta.
  replace (y + 1 - 1) with y by lia.
  destruct (y mod 4 =? 0) eqn:E4; destruct (y mod 100 =? 0) eqn:E100;
    destruct (y mod 400 =? 0) eqn:E400; cbn [andb orb negb];
    rewrite ?Z.eqb_eq, ?Z.eqb_neq in *; Z.div_mod_to_equations; lia.
Qed.

Lemma days_before_year_mono y1 y2 :
  y1 <= y2 -> PyDate.days_before_year y1 <= PyDate.days_before_year y2.
Proof.
  unfold PyDate.days_before_year. cbv zeta. intros H.
  Z.div_mod_to_equations. lia.
Qed.

Lemma day_of_year_bounds y m d :
  PyDate.check_date_fields y m d = true ->
  1 <= PyDate.days_before_month y m + d <= (if PyDate.is_leap y then 366 else 365).
Proof.
  unfold PyDate.check_date_fields. rewrite !andb_true_iff, !Z.leb_le.
  intros (((((_ & _) & Hm1) & Hm2) & Hd1) & Hd2).
  assert (Hm : m = 1 \/ m = 2 \/ m = 3 \/ m = 4 \/ m = 5 \/ m = 6 \/ m = 7 \/ m = 8
               \/ m = 9 \/ m = 10 \/ m = 11 \/ m = 12) by lia.
  unfold PyDate.days_in_month, PyDate.days_before_month in *.
  destruct (PyDate.is_leap y);
    repeat (destruct Hm as [->|Hm]; [cbn -[Z.add] in *; lia|]); subst; cbn -[Z.add] in *; lia.
Qed.

Lemma day_of_year_inj y m1 d1 m2 d2 :
  PyDate.check_date_fields y m1 d1 = true ->
  PyDate.check_date_fields y m2 d2 = true ->
  PyDate.days_before_month y m1 + d1 = PyDate.days_before_month y m2 + d2 ->
  m1 = m2 /\ d1 = d2.
Proof.
  unfold PyDate.check_date_fields. rewrite !andb_true_iff, !Z.leb_le.
  intros (((((_ & _) & Ha1) & Ha2) & Ha3) & Ha4) (((((_ & _) & Hb1) & Hb2) & Hb3) & Hb4).
  assert (Hm1 : m1 = 1 \/ m1 = 2 \/ m1 = 3 \/ m1 = 4 \/ m1 = 5 \/ m1 = 6 \/ m1 = 7
                \/ m1 = 8 \/ m1 = 9 \/ m1 = 10 \/ m1 = 11 \/ m1 = 12) by lia.
  assert (Hm2 : m2 = 1 \/ m2 = 2 \/ m2 = 3 \/ m2 = 4 \/ m2 = 5 \/ m2 = 6 \/ m2 = 7
                \/ m2 = 8 \/ m2 = 9 \/ m2 = 10 \/ m2 = 11 \/ m2 = 12) by lia.
  unfold PyDate.days_in_month, PyDate.days_before_month in *.
  destruct (PyDate.is_leap y);
    repeat (destruct Hm1 as [->|Hm1]);
    repeat (destruct Hm2 as [->|Hm2]); subst; cbn -[Z.add] in *; lia.
Qed.

Lemma ymd2ord_inj y1 m1 d1 y2 m2 d2 :
  PyDate.check_date_fields y1 m1 d1 = true ->
  PyDate.check_date_fields y2 m2 d2 = true ->
  PyDate.ymd2ord y1 m1 d1 = PyDate.ymd2ord y2 m2 d2 ->
  y1 = y2 /\ m1 = m2 /\ d1 = d2.
Proof.
  intros H1 H2 E. unfold PyDate.ymd2ord in E.
  pose proof (day_of_year_bounds _ _ _ H1) as B1.
  pose proof (day_of_year_bounds _ _ _ H2) as B2.
  pose proof (days_before_year_succ y1) as S1.
  pose proof (days_before_year_succ y2) as S2.
  assert (Hy : y1 = y2).
  { destruct (Z.lt_trichotomy y1 y2) as [Hlt|[Heq|Hgt]]; [exfalso|exact Heq|exfalso].
    - pose proof (days_before_year_mono (y1 + 1) y2 ltac:(lia)). lia.
    - pose proof (days_before_year_mono (y2 + 1) y1 ltac:(lia)). lia. }
  subst y2. split; [reflexivity|].
  apply (day_of_year_inj y1); try assumption. lia.
Qed.

(** X2. Two strings that [convert_date] takes to the same date name the
    same year, month and day: the conversion forgets how a date was
    written (padding) and nothing else, so two legacy dates meet in a
    unique constraint only when they are the same day. *)
Theorem converted_dates_name_one_day s1 s2 y1 m1 d1 y2 m2 d2 v :
  Strptime.regex_match decimal_digit (list_ascii_of_string s1) = Some (y1, m1, d1, []) ->
  Strptime.regex_match decimal_digit (list_ascii_of_string s2) = Some (y2, m2, d2, []) ->
  convert_date (PyStr s1) = inr v ->
  convert_date (PyStr s2) = inr v ->
  y1 = y2 /\ m1 = m2 /\ d1 = d2.
Proof.
  unfold convert_date, Strptime.strptime_date, PyDate.make. intros -> ->.
  destruct (PyDate.check_date_fields y1 m1 d1) eqn:C1; [|discriminate].
  destruct (PyDate.check_date_fields y2 m2 d2) eqn:C2; [|discriminate].
  intros [= <-] [= E]. symmetry in E. now apply ymd2ord_inj.
Qed.

(** ** Every legacy row in the destination *)

Lemma insert_all_keys os : forall d d',
  insert_all os d = inr d' ->
  (forall t, NoDup (map key (rows_of t d))) ->
  (forall t, NoDup (map key (rows_of t d')))
  /\ (forall o, In o os -> key o <> PyNone ->
         exists z, integer_affinity (key o) = PyInt z
                   /\ In (with_key (PyInt z) (stored o)) (rows_of (table_of o) d')).
Proof.
  induction os as [|x os IH]; intros d d'; cbn [insert_all].
  - intros [= <-] Hd. split; [exact Hd | contradiction].
  - destruct (insert x d) as [|d1] eqn:E; cbn [bindE]; [discriminate|].
    intros H Hd.
    pose proof E as Hins. apply insert_inv in Hins as (i & Hkey & Hd1 & _).
    apply primary_key_fresh in Hkey as (Hfresh & (z & Hz) & Hi).
    assert (Hd1' : forall t, NoDup (map key (rows_of t d1))).
    { intros t. rewrite Hd1, rows_of_append, table_of_with_key, table_of_stored, map_app.
      destruct (table_eqb (table_of x) t) eqn:Et; cbn [map];
        [|rewrite app_nil_r; apply Hd].
      apply table_eqb_eq in Et. subst t. rewrite key_with_key.
      apply NoDup_app; [apply Hd | repeat constructor; intros [] |].
      intros k Hk [<-|[]]. exact (Hfresh Hk). }
    destruct (IH d1 d' H Hd1') as [Hnodup Hin]. split; [exact Hnodup|].
    intros o [->|Ho] Hnone; [|now apply Hin].
    exists z. split; [rewrite (Hi Hnone); exact Hz|].
    eapply insert_all_keeps_rows; [exact H|].
    rewrite Hd1, rows_of_append, table_of_with_key, table_of_stored, table_eqb_refl.
    apply in_or_app. right. left. now rewrite Hz.
Qed.

Lemma rows_of_undated t d : rows_of t (undated_db d) = map undated (rows_of t d).
Proof.
  destruct t; unfold rows_of, undated_db;
    cbn [staff_rows engagement_rows proposal_rows non_billable_rows hours_log_rows
         leave_record_rows utilization_rows];
    rewrite !map_map; reflexivity.
Qed.

Lemma key_undated o : key (undated o) = key o.
Proof. now destruct o. Qed.

Lemma built_from_undated row o : built_from row (undated o) -> built_from row o.
Proof. destruct o; exact (fun H => H). Qed.

Lemma filter_by_key (l : list obj) o :
  NoDup (map key l) -> In o l ->
  filter (fun o' => value_eqb (key o') (key o)) l = [o].
Proof.
  induction l as [|a l IH]; intros Hnd Hin; [contradiction|].
  cbn [map] in Hnd. apply NoDup_cons_iff in Hnd as [Ha Hnd].
  cbn [filter]. destruct Hin as [->|Hin].
  - assert (value_eqb (key o) (key o) = true) as -> by now apply value_eqb_eq.
    f_equal. clear IH Hnd. induction l as [|b l IH]; [reflexivity|].
    cbn [filter map] in *.
    destruct (value_eqb (key b) (key o)) eqn:E.
    + apply value_eqb_eq in E. exfalso. apply Ha. left. exact E.
    + apply IH. intros Hx. apply Ha. right. exact Hx.
  - destruct (value_eqb (key a) (key o)) eqn:E; [|auto].
    apply value_eqb_eq in E. exfalso. apply Ha. rewrite E. now apply in_map.
Qed.

(** X22. After a run that returns [True], every legacy row whose id is
    not NULL, of every one of the seven tables, has an id that denotes an
    integer and exactly one row under that integer in the destination
    table of the same name.  Apart from its synthesized dates that row is
    the object that the constructor call of the loop makes from the legacy
    row (columns copied, passed through [float], [bool] or [convert_date],
    or, for the description of an Engagement or a Proposal, the text of
    [fake_description]) as the columns of the table store it: text columns
    hold the text of a number, integer columns the integer that a real or
    a text denotes, and a [Float] column holds NULL for NaN. *)
Theorem every_row_with_an_id_is_copied path w :
  let r := transfer_data path (new_session w) in
  out r = Returned true ->
  exists tables,
    fs w path = SqliteFile tables
    /\ forall t rows row id,
         tables t = Some rows -> In row rows ->
         nth_error row 0 = Some id -> id <> PyNone ->
         exists z o0 o,
           integer_affinity id = PyInt z
           /\ filter (fun o' => value_eqb (key o') (PyInt z))
                     (rows_of t (committed (after r))) = [o]
           /\ built_from row o0
           /\ undated o = with_key (PyInt z) (stored o0).
Proof.
  intros r Htrue. subst r.
  destruct (run_true_inv path w Htrue) as (tables & Hfs & Href).
  exists tables. split; [exact Hfs|].
  intros t rows row id Ht Hrow Hid Hnone.
  destruct (reference_table _ _ t Href) as (os & pre & post & Hplan & Hall).
  destruct (plan_rows _ _ _ Hplan) as (rows' & Hfetch & Hstaged).
  cbn [fetch] in Hfetch. rewrite Ht in Hfetch. injection Hfetch as <-.
  destruct (Forall2_In_left _ _ _ _ Hstaged Hrow) as (o0 & Ho0 & Hst).
  apply staged_built_from in Hst as [Hto Hb].
  assert (Hkey : key o0 = id) by (destruct Hb as [Hk _]; congruence).
  assert (Hempty : forall t', NoDup (map key (rows_of t' empty_database))).
  { intros []; constructor. }
  destruct (insert_all_keys _ _ _ Hall Hempty) as [Hnodup Hin].
  destruct (Hin o0) as (z & Hz & Hin0).
  { apply in_or_app. right. apply in_or_app. now left. }
  { congruence. }
  specialize (Hnodup t). rewrite Hto in Hin0.
  rewrite rows_of_undated in Hin0, Hnodup.
  apply in_map_iff in Hin0 as (o & Hu & Ho).
  exists z, o0, o. split; [now rewrite <- Hkey|].
  split; [|split; [exact Hb | exact Hu]].
  rewrite map_map in Hnodup.
  rewrite (map_ext _ key key_undated) in Hnodup.
  assert (Hko : key o = PyInt z).
  { rewrite <- key_undated, Hu. apply key_with_key. }
  rewrite <- Hko. now apply filter_by_key.
Qed.

(** ** What the log and the session tell of a run *)

Lemma completes_bind {A} (m : M A) (f : A -> M bool) :
  silent m -> (forall a, completes (f a)) -> completes (bind m f).
Proof.
  intros Hm Hf w. unfold bind. specialize (Hm w).
  destruct (m w) as [[a|e] w1 e1]; cbn [out after events] in *.
  - intros H. apply in_app_or in H as [H|H]; [contradiction | now apply Hf].
  - contradiction.
Qed.

Lemma silent_section c t m : section_ok c t m -> silent m.
Proof.
  intros H w Hin.
  destruct (H w) as (_ & _ & os & tail & He & Htail & _).
  rewrite He in Hin.
  destruct Hin as [Hin|[Hin|Hin]]; try discriminate.
  apply in_app_or in Hin as [Hin|Hin].
  - apply in_map_iff in Hin as (o & Ho & _). discriminate.
  - destruct Htail as [-> | [n ->]]; [contradiction|].
    destruct Hin as [Hin|[]]. discriminate.
Qed.

Lemma silent_begin_nested : silent begin_nested.
Proof. intros w Hin. cbn in Hin. intuition discriminate. Qed.

Lemma silent_clear_tables : silent clear_tables.
Proof.
  intros w. rewrite (proj2 (clear_tables_returns w)). cbn. intuition discriminate.
Qed.

Lemma silent_session_flush : silent session_flush.
Proof. intros w. rewrite session_flush_events. cbn. intuition discriminate. Qed.

Lemma silent_session_commit : silent session_commit.
Proof. intros w. rewrite session_commit_events. cbn. intuition discriminate. Qed.

Lemma try_block_completes c : completes (try_block c).
Proof.
  unfold try_block.
  apply completes_bind; [apply silent_begin_nested | intros _].
  apply completes_bind; [apply silent_clear_tables | intros _].
  apply completes_bind;
    [eapply silent_section; apply transfer_table_ok; apply staff_body_ok | intros _].
  apply completes_bind; [apply silent_session_flush | intros _].
  apply completes_bind;
    [eapply silent_section; apply transfer_table_ok; apply engagement_body_ok | intros _].
  apply completes_bind;
    [eapply silent_section; apply transfer_table_ok; apply proposal_body_ok | intros _].
  apply completes_bind;
    [eapply silent_section; apply transfer_table_ok; apply non_billable_body_ok | intros _].
  apply completes_bind;
    [eapply silent_section; apply transfer_table_ok; apply hours_log_body_ok | intros _].
  apply completes_bind; [eapply silent_section; apply transfer_leave_records_ok | intros _].
  apply completes_bind;
    [eapply silent_section; apply transfer_table_ok; apply utilization_body_ok | intros _].
  apply completes_bind; [apply silent_session_commit | intros _].
  intros w _. reflexivity.
Qed.

Lemma try_block_logs_no_error c w m :
  pending w = [] -> ~ In (Log ERROR m) (events (try_block c w)).
Proof.
  intros Hp Hin.
  destruct (try_block_run c w Hp) as (_ & _ & (ev1 & ev2 & Hevs & H1 & H2) & _).
  rewrite Hevs in Hin. apply in_app_or in Hin as [Hin|Hin].
  - rewrite Forall_forall in H1. exact (H1 _ Hin).
  - destruct H2 as [-> | (ev3 & -> & H3 & _)]; [contradiction|].
    destruct Hin as [Hin|Hin]; [discriminate|].
    rewrite Forall_forall in H3. exact (H3 _ Hin).
Qed.

(** X23. The log tells the outcome of a run: "Data transfer completed
    successfully" is logged by the runs that return [True] and by no
    other, and a message of level ERROR is logged by the runs that return
    [False] and by no other (a run that lets the exception of
    [sqlite3.connect] through logs neither). *)
Theorem log_tells_the_outcome path w :
  let r := transfer_data path (new_session w) in
  (In (Log INFO Completed) (events r) <-> out r = Returned true)
  /\ ((exists m, In (Log ERROR m) (events r)) <-> out r = Returned false).
Proof.
  intros r. subst r.
  destruct (connects (fs w path)) as [c|] eqn:Hc.
  - rewrite (transfer_data_connected path (new_session w) c Hc). cbv zeta.
    pose proof (try_block_completes c (connected (new_session w))) as Hcompletes.
    pose proof (fun m => try_block_logs_no_error c (connected (new_session w)) m
                           (pending_connected_new_session w)) as Hno.
    pose proof (try_block_trace c (connected (new_session w))) as Htrace.
    destruct (try_block c (connected (new_session w))) as [[b|e] wb eb];
      cbn [out after events] in *.
    + destruct (Htrace b eq_refl) as (rows & os & _ & _ & -> & Heb).
      split; split; try discriminate.
      * reflexivity.
      * intros _. right. right. apply in_or_app. left. rewrite Heb.
        repeat (first [left; reflexivity | right | apply in_or_app; right]).
      * intros (m & [Hin|[Hin|Hin]]); try discriminate.
        apply in_app_or in Hin as [Hin|[Hin|[]]]; [|discriminate].
        destruct (Hno m Hin).
    + split; split; try discriminate.
      * intros [Hin|[Hin|Hin]]; try discriminate.
        apply in_app_or in Hin as [Hin|Hin].
        -- specialize (Hcompletes Hin). discriminate.
        -- cbn in Hin. intuition discriminate.
      * reflexivity.
      * intros _. exists (error_message e). right. right.
        apply in_or_app. right. left. reflexivity.
  - assert (Hfs : fs (new_session w) path = Missing \/ fs (new_session w) path = Unopenable).
    { cbn. destruct (fs w path); try discriminate; auto. }
    destruct Hfs as [Hfs|Hfs].
    + rewrite (transfer_data_missing _ _ Hfs). cbn [out events].
      split; split; try discriminate; try reflexivity.
      * intros [Hin|[Hin|[]]]; discriminate.
      * intros _. exists (NotFound path). right. left. reflexivity.
    + rewrite (transfer_data_unopenable _ _ Hfs). cbn [out events].
      split; split; try discriminate.
      * intros [Hin|[]]; discriminate.
      * intros (m & [Hin|[]]). discriminate.
Qed.

(** X24. Every run from a fresh session leaves the session as it found
    it: without an open transaction and without pending objects, whether
    it committed, rolled back or never began. *)
Theorem run_leaves_the_session_clean path w :
  let r := transfer_data path (new_session w) in
  transaction (after r) = None /\ pending (after r) = [].
Proof.
  intros r. subst r.
  destruct (connects (fs w path)) as [c|] eqn:Hc.
  - rewrite (transfer_data_connected path (new_session w) c Hc). cbv zeta.
    destruct (try_block_run c _ (pending_connected_new_session w)) as (_ & _ & _ & Href).
    destruct (try_block c (connected (new_session w))) as [[b|e] wb eb];
      cbn [out after events] in *.
    + destruct (reference c) as [e'|d]; [destruct Href as [[=] _]|].
      destruct Href as (_ & _ & Ht & Hp). cbn. auto.
    + cbn. auto.
  - assert (Hfs : fs (new_session w) path = Missing \/ fs (new_session w) path = Unopenable).
    { cbn. destruct (fs w path); try discriminate; auto. }
    destruct Hfs as [Hfs|Hfs];
      [rewrite (transfer_data_missing _ _ Hfs)
      |rewrite (transfer_data_unopenable _ _ Hfs)]; cbn; auto.
Qed.

(** X25. A legacy database that lacks one of the seven tables fails the
    run, whichever table it is and whatever the others hold: the SELECT
    raises, the run returns [False] and the destination is left as it
    was. *)
Theorem missing_table_fails_run path w tables t :
  fs w path = SqliteFile tables ->
  tables t = None ->
  let r := transfer_data path (new_session w) in
  out r = Returned false /\ committed (after r) = committed w.
Proof.
  intros Hfs Ht. apply run_without_reference with (tables := tables); [exact Hfs|].
  intros d Href. destruct (reference_needs_tables _ _ t Href) as [rows Hrows].
  cbn [fetch] in Hrows. rewrite Ht in Hrows. discriminate.
Qed.

(** X26. The handler inside the loop over [leave_record] is dead code: no
    run logs a warning, so no run logs "Skipping duplicate leave record",
    and no run rolls back before the handlers of the outer [try]. *)
Theorem inner_handler_never_runs path w :
  let r := transfer_data path (new_session w) in
  (forall m, ~ In (Log WARNING m) (events r))
  /\ (forall pre post, events r = pre ++ Rollback :: post ->
                       exists m, In (Log ERROR m) pre).
Proof.
  intros r. subst r.
  destruct (connects (fs w path)) as [c|] eqn:Hc.
  2:{ assert (Hfs : fs (new_session w) path = Missing
                    \/ fs (new_session w) path = Unopenable).
      { cbn. destruct (fs w path); try discriminate; auto. }
      destruct Hfs as [Hfs|Hfs];
        [rewrite (transfer_data_missing _ _ Hfs)
        |rewrite (transfer_data_unopenable _ _ Hfs)]; cbn [events]; split.
      - intros m [Hin|[Hin|[]]]; discriminate.
      - intros [|? [|? [|? ?]]] post H; discriminate.
      - intros m [Hin|[]]; discriminate.
      - intros [|? [|? ?]] post H; discriminate. }
  rewrite (transfer_data_connected path (new_session w) c Hc). cbv zeta.
  destruct (try_block_run c _ (pending_connected_new_session w))
    as (_ & _ & (ev1 & ev2 & Hevs & H1 & H2) & _).
  assert (Hquiet : forall ev, In ev (events (try_block c (connected (new_session w)))) ->
                              ev <> Rollback /\ forall m, ev <> Log WARNING m).
  { intros ev Hin. rewrite Hevs in Hin. apply in_app_or in Hin as [Hin|Hin].
    - rewrite Forall_forall in H1. specialize (H1 _ Hin).
      destruct ev as [l m0| | | | | | | | |]; cbn in H1; try contradiction;
        try (destruct l; try contradiction);
        (split; [discriminate | intros; discriminate]).
    - destruct H2 as [-> | (ev3 & -> & H3 & _)]; [contradiction|].
      destruct Hin as [<-|Hin]; [split; [discriminate | intros; discriminate]|].
      rewrite Forall_forall in H3. specialize (H3 _ Hin).
      destruct ev as [l m0| | | | | | | | |]; cbn in H3; try contradiction;
        try (destruct l; try contradiction);
        (split; [discriminate | intros; discriminate]). }
  clear Hevs H1 H2.
  destruct (try_block c (connected (new_session w))) as [[b|e] wb eb];
    cbn [out after events] in *.
  - split.
    + intros m [Hin|[Hin|Hin]]; try discriminate.
      apply in_app_or in Hin as [Hin|[Hin|[]]]; [|discriminate].
      exact (proj2 (Hquiet _ Hin) m eq_refl).
    + intros pre post H. exfalso.
      assert (Hin : In Rollback (Log INFO (Starting path) :: Connect path :: eb ++ [Close])).
      { rewrite H. apply in_or_app. right. left. reflexivity. }
      destruct Hin as [Hin|[Hin|Hin]]; try discriminate.
      apply in_app_or in Hin as [Hin|[Hin|[]]]; [|discriminate].
      exact (proj1 (Hquiet _ Hin) eq_refl).
  - split.
    + intros m [Hin|[Hin|Hin]]; try discriminate.
      apply in_app_or in Hin as [Hin|Hin].
      * exact (proj2 (Hquiet _ Hin) m eq_refl).
      * cbn in Hin. intuition discriminate.
    + intros pre post H. exists (error_message e).
      change (Log INFO (Starting path) :: Connect path
              :: eb ++ [Log ERROR (error_message e); Rollback; Close])
        with ((Log INFO (Starting path) :: Connect path :: eb)
              ++ [Log ERROR (error_message e); Rollback; Close]) in H.
      assert (Hpre : pre = (Log INFO (Starting path) :: Connect path :: eb)
                           ++ [Log ERROR (error_message e)]).
      { assert (Hno : ~ In Rollback (Log INFO (Starting path) :: Connect path :: eb)).
        { intros [Hin|[Hin|Hin]]; try discriminate. exact (proj1 (Hquiet _ Hin) eq_refl). }
        revert H Hno. generalize (Log INFO (Starting path) :: Connect path :: eb).
        intros l. revert pre. induction l as [|x l IH]; intros pre H Hno.
        - cbn [app] in H. destruct pre as [|y pre]; [discriminate|].
          injection H as <- H. destruct pre as [|y pre]; [reflexivity|].
          injection H as <- H. destruct pre as [|y pre]; [discriminate|].
          injection H as <- H. destruct pre; discriminate.
        - cbn [app] in H. destruct pre as [|y pre].
          + injection H as Hx _. destruct Hno. left. exact Hx.
          + injection H as <- H. cbn [app]. f_equal. apply IH; [exact H|].
            intros Hin. apply Hno. right. exact Hin. }
      rewrite Hpre. apply in_or_app. right. left. reflexivity.
Qed.

(** ** The flush of the Staff objects *)





End Transfer.

(** * Concrete runs *)

Example convert_date_iso :
  convert_date six_scripts (PyStr "2024-03-09") = inr (PyDate (PyDate.Date 738954)).
Proof. reflexivity. Qed.

Example convert_date_feb30 : convert_date six_scripts (PyStr "2024-02-30") = inl ValueError.
Proof. reflexivity. Qed.

Example convert_date_year_0 : convert_date six_scripts (PyStr "0000-01-01") = inl ValueError.
Proof. reflexivity. Qed.

Example convert_date_trailing : convert_date six_scripts (PyStr "2024-01-05x") = inl ValueError.
Proof. reflexivity. Qed.

(** Digits of other scripts: [\d] takes them in the year and as the second
    digit of a day from 10 to 29; the classes of the month and of the
    other days do not. *)
Example convert_date_fullwidth_year :
  convert_date six_scripts (PyStr "２０２４-01-05") = inr (PyDate (PyDate.Date 738890)).
Proof. reflexivity. Qed.

Example convert_date_fullwidth_day :
  convert_date six_scripts (PyStr "2024-01-2９") = inr (PyDate (PyDate.Date 738914)).
Proof. reflexivity. Qed.

Example convert_date_fullwidth_month :
  convert_date six_scripts (PyStr "2024-０１-05") = inl ValueError.
Proof. reflexivity. Qed.

Example convert_date_fullwidth_thirty :
  convert_date six_scripts (PyStr "2024-01-3０") = inl ValueError.
Proof. reflexivity. Qed.

Example float_of_int_ties_to_even :
  float_of_int 9007199254740993 = inr (S754_finite false 4503599627370496 1).
Proof. reflexivity. Qed.

Example small_source_run :
  let r := transfer_data no_text_floats six_scripts integer_literals unprinted_reals "legacy.db"
                         (new_session (world_with (SqliteFile small_source))) in
  out r = Returned true
  /\ List.length (added (events r)) = 7%nat
  /\ List.length (staff_rows (committed (after r))) = 1%nat
  /\ List.length (engagement_rows (committed (after r))) = 1%nat
  /\ open_connections (after r) = 0%nat.
Proof. vm_compute. repeat split. Qed.

(** The failing input of C1, run: both records are staged, the unique
    constraint stops the commit, the handler of [IntegrityError] rolls
    everything back and the run returns [False]; neither record reaches
    the destination, which keeps the row it had, and nothing is logged as
    a skipped duplicate. *)
Example duplicate_leave_source_run :
  let r := transfer_data no_text_floats six_scripts integer_literals unprinted_reals "legacy.db"
                         (new_session (world_with (SqliteFile duplicate_leave_source))) in
  out r = Returned false
  /\ committed (after r) = seeded_store
  /\ leave_record_rows (committed (after r)) = []
  /\ List.length (added (events r)) = 3%nat
  /\ In (Log ERROR (IntegrityErrorMsg IntegrityError)) (events r)
  /\ existsb is_warning (events r) = false.
Proof. vm_compute. repeat split. repeat (first [left; reflexivity | right]). Qed.

(** A source without the [hours_log] table: the SELECT raises after the
    Staff flush and after three more objects were staged; the run returns
    [False] and the destination keeps the row it had. *)
Example source_without_hours_log_run :
  let r := transfer_data no_text_floats six_scripts integer_literals unprinted_reals "legacy.db"
                         (new_session (world_with (SqliteFile source_without_hours_log))) in
  out r = Returned false
  /\ committed (after r) = seeded_store
  /\ In Flush (events r)
  /\ List.length (added (events r)) = 4%nat
  /\ In (Log ERROR (SqliteOperationalError Sqlite3OperationalError)) (events r)
  /\ open_connections (after r) = 0%nat.
Proof. vm_compute. repeat split; repeat (first [left; reflexivity | right]). Qed.

(** An hours log dated "2024-02-30": [convert_date] raises, the last
    handler catches it; the run returns [False] and the destination keeps
    the row it had. *)
Example feb30_source_run :
  let r := transfer_data no_text_floats six_scripts integer_literals unprinted_reals "legacy.db"
                         (new_session (world_with (SqliteFile feb30_source))) in
  out r = Returned false
  /\ committed (after r) = seeded_store
  /\ In Flush (events r)
  /\ In (Log ERROR (Unexpected ValueError)) (events r)
  /\ open_connections (after r) = 0%nat.
Proof. vm_compute. repeat split; repeat (first [left; reflexivity | right]). Qed.

(** C1 at its failing input. *)
Lemma C1_duplicate_leave_source_aborts :
  let r := transfer_data no_text_floats six_scripts integer_literals unprinted_reals "legacy.db"
                         (new_session (world_with (SqliteFile duplicate_leave_source))) in
  out r = Returned false
  /\ committed (after r) = committed (world_with (SqliteFile duplicate_leave_source)).
Proof.
  apply (C1_duplicate_leave_records_abort_run
             no_text_floats six_scripts integer_literals unprinted_reals
             "legacy.db"
           (world_with (SqliteFile duplicate_leave_source)) duplicate_leave_source
           [] [PyInt 1; PyInt 1; PyStr "2024-01-01"]
           [] [PyInt 2; PyInt 1; PyStr "2024-01-01"] []
           (PyInt 1) (PyStr "2024-01-01"));
    try reflexivity.
  discriminate.
Defined.

(** C2 at a 0-byte file: the first SELECT raises. *)
Lemma C2_zero_byte_file_rolls_back :
  let r := transfer_data no_text_floats six_scripts integer_literals unprinted_reals "legacy.db"
                         (new_session (world_with zero_byte_file)) in
  out r = Returned false
  /\ committed (after r) = committed (world_with zero_byte_file)
  /\ transaction (after r) = None
  /\ pending (after r) = []
  /\ exists evs,
      events r = evs ++ [Log ERROR (error_message Sqlite3OperationalError); Rollback; Close]
      /\ In BeginNested evs.
Proof.
  apply (C2_fatal_error_rolls_back no_text_floats six_scripts integer_literals unprinted_reals
             "legacy.db" (world_with zero_byte_file)
           (Connection (Some (fun _ => None))) Sqlite3OperationalError);
    reflexivity.
Defined.

(** C3 as stated fails: for a 0-byte file the run fails only after it has
    connected, opened the transaction and sent the deletes. *)
Lemma C3_zero_byte_file_opens_transaction :
  let r := transfer_data no_text_floats six_scripts integer_literals unprinted_reals "legacy.db"
                         (new_session (world_with zero_byte_file)) in
  fs (world_with zero_byte_file) "legacy.db" = zero_byte_file
  /\ out r = Returned false
  /\ In (Connect "legacy.db") (events r)
  /\ In BeginNested (events r)
  /\ In (Delete staff) (events r).
Proof. vm_compute. repeat split; repeat (first [left; reflexivity | right]). Qed.

(** C3, as amended, at a path that leads to nothing and at a 0-byte
    file. *)
Lemma C3_absent_and_zero_byte_paths :
  transfer_data no_text_floats six_scripts integer_literals unprinted_reals
             "absent.db" (world_with zero_byte_file)
  = Result (Returned false) (world_with zero_byte_file)
           [Log INFO (Starting "absent.db"); Log ERROR (NotFound "absent.db")]
  /\ out (transfer_data no_text_floats six_scripts integer_literals unprinted_reals
             "legacy.db" (world_with zero_byte_file))
     = Returned false.
Proof.
  split.
  - apply (proj1 (C3_missing_or_empty_source
             no_text_floats six_scripts integer_literals unprinted_reals
             "absent.db"
                    (world_with zero_byte_file))).
    reflexivity.
  - exact (proj1 (proj2 (C3_missing_or_empty_source
             no_text_floats six_scripts integer_literals unprinted_reals
             "legacy.db"
                           (world_with zero_byte_file)) eq_refl)).
Defined.



(** What the columns make of a Staff row: the text "5" is stored as the
    key 5, the number 7 as the text "7", and the NaN that [float] makes of
    "nan" as NULL. *)
Example untyped_source_run :
  let r := transfer_data nan_floats six_scripts integer_literals unprinted_reals
                         "legacy.db" (new_session (world_with (SqliteFile untyped_source))) in
  out r = Returned true
  /\ staff_rows (committed (after r))
     = [Staff.Build (PyInt 5) (PyStr "7") (PyStr "ann@example.org") PyNone true false].
Proof. vm_compute. repeat split. Qed.

(** C6 as stated fails: "2024-1-5" does not match YYYY-MM-DD and is
    converted, to 5 January 2024. *)
Lemma C6_unpadded_date_is_converted :
  matches_YYYY_MM_DD "2024-1-5" = false
  /\ convert_date six_scripts (PyStr "2024-1-5") = inr (PyDate (PyDate.Date 738890))
  /\ convert_date six_scripts (PyStr "2024-01-05") = inr (PyDate (PyDate.Date 738890)).
Proof. repeat split. Qed.


(** C10 at an integer. *)
Lemma C10_integer_passes : convert_date six_scripts (PyInt 20240105) = inr (PyInt 20240105).
Proof.
  apply (C10_convert_date_passes_non_strings six_scripts (PyInt 20240105)). reflexivity.
Defined.

(** * The further properties at concrete inputs *)

(** X1 at an ISO date string. *)
Lemma convert_date_idempotent_at_a_string :
  isinstance_str (PyDate (PyDate.Date 738954)) = false
  /\ convert_date six_scripts (PyDate (PyDate.Date 738954)) = inr (PyDate (PyDate.Date 738954)).
Proof.
  apply (convert_date_idempotent six_scripts (PyStr "2024-03-09") (PyDate (PyDate.Date 738954))).
  reflexivity.
Defined.

(** X2 at a date written with and without padding. *)
Lemma converted_dates_name_one_day_at_paddings :
  convert_date six_scripts (PyStr "2024-1-5") = convert_date six_scripts (PyStr "2024-01-05")
  /\ (2024 = 2024 /\ 1 = 1 /\ 5 = 5).
Proof.
  split; [reflexivity|].
  apply (converted_dates_name_one_day six_scripts "2024-1-5" "2024-01-05" 2024 1 5 2024 1 5
           (PyDate (PyDate.Date 738890))); reflexivity.
Defined.

(** X3 at an Engagement that ends before it starts. *)
Lemma engagement_may_end_before_it_starts :
  exists draw : nat -> nat,
    out (new_Engagement [PyInt 1; PyStr "Audit"; PyInt 1; PyStr "open"]
           (World (fs (world_with Missing)) (clock (world_with Missing))
                  (clock_reads (world_with Missing)) draw (draws (world_with Missing))
                  (open_connections (world_with Missing)) (committed (world_with Missing))
                  (transaction (world_with Missing)) (pending (world_with Missing))))
    = Returned (Engagement.Build (PyInt 1) (PyStr "Audit") fake_description
                  (PyDate.add_days (PyDate.Date 739038) 200)
                  (PyDate.add_days (PyDate.Date 739038) 3)
                  (PyInt 1) (PyStr "open")).
Proof.
  apply (engagement_dates_are_independent
           [PyInt 1; PyStr "Audit"; PyInt 1; PyStr "open"] (world_with Missing)
           (PyInt 1) (PyStr "Audit") (PyInt 1) (PyStr "open") 200 3);
    first [reflexivity | lia].
Defined.

(** X4 at a directory. *)
Lemma directory_path_raises_at_legacy_db :
  transfer_data no_text_floats six_scripts integer_literals unprinted_reals
             "legacy.db" (world_with Unopenable)
  = Result (Raised Sqlite3OperationalError) (world_with Unopenable)
           [Log INFO (Starting "legacy.db")].
Proof.
  apply (directory_path_raises no_text_floats six_scripts integer_literals unprinted_reals
             "legacy.db" (world_with Unopenable)).
  reflexivity.
Defined.

(** X5 at a file that is no database. *)
Lemma not_a_database_fails_run_at_legacy_db :
  let r := transfer_data no_text_floats six_scripts integer_literals unprinted_reals
             "legacy.db" (world_with NotADatabase) in
  out r = Returned false
  /\ committed (after r) = committed (world_with NotADatabase)
  /\ transaction (after r) = None
  /\ pending (after r) = []
  /\ open_connections (after r) = open_connections (world_with NotADatabase)
  /\ events r =
     Log INFO (Starting "legacy.db") :: Connect "legacy.db" :: clearing_events
     ++ [Log INFO (Transferring staff); Execute staff;
         Log ERROR (Unexpected Sqlite3DatabaseError); Rollback; Close].
Proof.
  apply (not_a_database_fails_run no_text_floats six_scripts integer_literals unprinted_reals
             "legacy.db" (world_with NotADatabase)).
  reflexivity.
Defined.

(** X6 at a 0-byte legacy file. *)
Lemma connects_only_where_a_file_is_at_a_zero_byte_file :
  "legacy.db" = "legacy.db" /\ fs (world_with zero_byte_file) "legacy.db" <> Missing.
Proof.
  apply (connects_only_where_a_file_is no_text_floats six_scripts integer_literals unprinted_reals
             "legacy.db"
           (world_with zero_byte_file) "legacy.db").
  vm_compute. right. left. reflexivity.
Defined.

(** X7 at a [staff] row of two columns. *)
Lemma short_row_fails_run_at_two_columns :
  let w := world_with (SqliteFile (source_with staff [[PyInt 1; PyStr "Ann"]])) in
  let r := transfer_data no_text_floats six_scripts integer_literals unprinted_reals
             "legacy.db" (new_session w) in
  out r = Returned false /\ committed (after r) = committed w.
Proof.
  apply (short_row_fails_run no_text_floats six_scripts integer_literals unprinted_reals
             "legacy.db"
           (world_with (SqliteFile (source_with staff [[PyInt 1; PyStr "Ann"]])))
           (source_with staff [[PyInt 1; PyStr "Ann"]])
           staff [[PyInt 1; PyStr "Ann"]] [PyInt 1; PyStr "Ann"]).
  - reflexivity.
  - reflexivity.
  - left. reflexivity.
  - cbn. lia.
Defined.

(** X8 at a member of staff without [leave_days_remaining]. *)
Lemma uncoercible_number_fails_run_at_null :
  let row := [PyInt 1; PyStr "Ann"; PyStr "ann@example.org"; PyNone; PyInt 1; PyInt 0] in
  let w := world_with (SqliteFile (source_with staff [row])) in
  let r := transfer_data no_text_floats six_scripts integer_literals unprinted_reals
             "legacy.db" (new_session w) in
  out r = Returned false /\ committed (after r) = committed w.
Proof.
  apply (uncoercible_number_fails_run no_text_floats six_scripts integer_literals unprinted_reals
             "legacy.db"
           (world_with (SqliteFile (source_with staff
              [[PyInt 1; PyStr "Ann"; PyStr "ann@example.org"; PyNone; PyInt 1; PyInt 0]])))
           (source_with staff
              [[PyInt 1; PyStr "Ann"; PyStr "ann@example.org"; PyNone; PyInt 1; PyInt 0]])
           staff
           [[PyInt 1; PyStr "Ann"; PyStr "ann@example.org"; PyNone; PyInt 1; PyInt 0]]
           [PyInt 1; PyStr "Ann"; PyStr "ann@example.org"; PyNone; PyInt 1; PyInt 0]
           3%nat PyNone TypeError).
  - reflexivity.
  - reflexivity.
  - left. reflexivity.
  - left. reflexivity.
  - reflexivity.
  - reflexivity.
Defined.

(** X9 at an Engagement without status. *)
Lemma null_in_required_column_fails_run_at_status :
  let row := [PyInt 1; PyStr "Audit"; PyInt 1; PyNone] in
  let w := world_with (SqliteFile (source_with engagement [row])) in
  let r := transfer_data no_text_floats six_scripts integer_literals unprinted_reals
             "legacy.db" (new_session w) in
  out r = Returned false /\ committed (after r) = committed w.
Proof.
  apply (null_in_required_column_fails_run
             no_text_floats six_scripts integer_literals unprinted_reals
             "legacy.db"
           (world_with (SqliteFile (source_with engagement
              [[PyInt 1; PyStr "Audit"; PyInt 1; PyNone]])))
           (source_with engagement [[PyInt 1; PyStr "Audit"; PyInt 1; PyNone]])
           engagement [[PyInt 1; PyStr "Audit"; PyInt 1; PyNone]]
           [PyInt 1; PyStr "Audit"; PyInt 1; PyNone] 3%nat).
  - reflexivity.
  - reflexivity.
  - left. reflexivity.
  - right. left. reflexivity.
  - reflexivity.
Defined.

(** X10 at an hours log whose date is the integer 20240309. *)
Lemma no_date_in_date_column_fails_run_at_integer :
  let row := [PyInt 1; PyInt 1; PyStr "engagement"; PyInt 1; PyInt 8; PyInt 20240309] in
  let w := world_with (SqliteFile (source_with hours_log [row])) in
  let r := transfer_data no_text_floats six_scripts integer_literals unprinted_reals
             "legacy.db" (new_session w) in
  out r = Returned false /\ committed (after r) = committed w.
Proof.
  apply (no_date_in_date_column_fails_run
             no_text_floats six_scripts integer_literals unprinted_reals
             "legacy.db"
           (world_with (SqliteFile (source_with hours_log
              [[PyInt 1; PyInt 1; PyStr "engagement"; PyInt 1; PyInt 8; PyInt 20240309]])))
           (source_with hours_log
              [[PyInt 1; PyInt 1; PyStr "engagement"; PyInt 1; PyInt 8; PyInt 20240309]])
           hours_log
           [[PyInt 1; PyInt 1; PyStr "engagement"; PyInt 1; PyInt 8; PyInt 20240309]]
           [PyInt 1; PyInt 1; PyStr "engagement"; PyInt 1; PyInt 8; PyInt 20240309]
           5%nat (PyInt 20240309)).
  - reflexivity.
  - reflexivity.
  - left. reflexivity.
  - left. reflexivity.
  - reflexivity.
  - intros d. discriminate.
Defined.

(** X11 at two NonBillables with the id 1. *)
Lemma duplicate_id_fails_run_at_non_billable :
  let rows := [[PyInt 1; PyStr "Admin"]; [PyInt 1; PyStr "Training"]] in
  let w := world_with (SqliteFile (source_with non_billable rows)) in
  let r := transfer_data no_text_floats six_scripts integer_literals unprinted_reals
             "legacy.db" (new_session w) in
  out r = Returned false /\ committed (after r) = committed w.
Proof.
  apply (duplicate_id_fails_run no_text_floats six_scripts integer_literals unprinted_reals
             "legacy.db"
           (world_with (SqliteFile (source_with non_billable
              [[PyInt 1; PyStr "Admin"]; [PyInt 1; PyStr "Training"]])))
           (source_with non_billable [[PyInt 1; PyStr "Admin"]; [PyInt 1; PyStr "Training"]])
           non_billable [] [PyInt 1; PyStr "Admin"] [] [PyInt 1; PyStr "Training"] [] 1);
    reflexivity.
Defined.

(** X12 at two members of staff with one email. *)
Lemma duplicate_email_fails_run_at_two_members :
  let rows := [[PyInt 1; PyStr "Ann"; PyStr "team@example.org"; PyInt 12; PyInt 1; PyInt 0];
               [PyInt 2; PyStr "Bob"; PyStr "team@example.org"; PyInt 9; PyInt 0; PyInt 1]] in
  let w := world_with (SqliteFile (source_with staff rows)) in
  let r := transfer_data no_text_floats six_scripts integer_literals unprinted_reals
             "legacy.db" (new_session w) in
  out r = Returned false /\ committed (after r) = committed w.
Proof.
  apply (duplicate_email_fails_run no_text_floats six_scripts integer_literals unprinted_reals
             "legacy.db"
           (world_with (SqliteFile (source_with staff
              [[PyInt 1; PyStr "Ann"; PyStr "team@example.org"; PyInt 12; PyInt 1; PyInt 0];
               [PyInt 2; PyStr "Bob"; PyStr "team@example.org"; PyInt 9; PyInt 0; PyInt 1]])))
           (source_with staff
              [[PyInt 1; PyStr "Ann"; PyStr "team@example.org"; PyInt 12; PyInt 1; PyInt 0];
               [PyInt 2; PyStr "Bob"; PyStr "team@example.org"; PyInt 9; PyInt 0; PyInt 1]])
           []
           [PyInt 1; PyStr "Ann"; PyStr "team@example.org"; PyInt 12; PyInt 1; PyInt 0]
           []
           [PyInt 2; PyStr "Bob"; PyStr "team@example.org"; PyInt 9; PyInt 0; PyInt 1]
           [] (PyStr "team@example.org"));
    first [reflexivity | discriminate].
Defined.

(** X13 at "2024-1-5" and "2024-01-05". *)
Lemma same_day_written_twice_fails_run_at_paddings :
  let rows := [[PyInt 1; PyInt 1; PyStr "2024-1-5"]; [PyInt 2; PyInt 1; PyStr "2024-01-05"]] in
  let w := world_with (SqliteFile (source_with leave_record rows)) in
  let r := transfer_data no_text_floats six_scripts integer_literals unprinted_reals
             "legacy.db" (new_session w) in
  out r = Returned false /\ committed (after r) = committed w.
Proof.
  apply (same_day_written_twice_fails_run
             no_text_floats six_scripts integer_literals unprinted_reals
             "legacy.db"
           (world_with (SqliteFile (source_with leave_record
              [[PyInt 1; PyInt 1; PyStr "2024-1-5"]; [PyInt 2; PyInt 1; PyStr "2024-01-05"]])))
           (source_with leave_record
              [[PyInt 1; PyInt 1; PyStr "2024-1-5"]; [PyInt 2; PyInt 1; PyStr "2024-01-05"]])
           [] [PyInt 1; PyInt 1; PyStr "2024-1-5"]
           [] [PyInt 2; PyInt 1; PyStr "2024-01-05"] []
           (PyInt 1) (PyStr "2024-1-5") (PyStr "2024-01-05"));
    first [reflexivity | discriminate].
Defined.

(** X14 at [small_source]. *)
Lemma committed_row_counts_at_small_source :
  let r := transfer_data no_text_floats six_scripts integer_literals unprinted_reals "legacy.db"
                         (new_session (world_with (SqliteFile small_source))) in
  exists tables,
    fs (world_with (SqliteFile small_source)) "legacy.db" = SqliteFile tables
    /\ forall t, exists rows,
         tables t = Some rows
         /\ row_count t (committed (after r)) = List.length rows.
Proof.
  apply (committed_row_counts no_text_floats six_scripts integer_literals unprinted_reals
             "legacy.db"
           (world_with (SqliteFile small_source))).
  vm_compute. reflexivity.
Defined.

(** X15 at [small_source], run in two worlds. *)
Lemma runs_differ_only_in_synthesized_dates_at_small_source :
  let r1 := transfer_data no_text_floats six_scripts integer_literals unprinted_reals
             "legacy.db"
                          (new_session (world_with (SqliteFile small_source))) in
  let r2 := transfer_data no_text_floats six_scripts integer_literals unprinted_reals
             "legacy.db"
                          (new_session (later_world_with (SqliteFile small_source))) in
  out r1 = out r2
  /\ (out r1 = Returned true ->
      staff_rows (committed (after r1)) = staff_rows (committed (after r2))
      /\ non_billable_rows (committed (after r1)) = non_billable_rows (committed (after r2))
      /\ hours_log_rows (committed (after r1)) = hours_log_rows (committed (after r2))
      /\ leave_record_rows (committed (after r1)) = leave_record_rows (committed (after r2))
      /\ utilization_rows (committed (after r1)) = utilization_rows (committed (after r2))
      /\ map undated_engagement (engagement_rows (committed (after r1)))
         = map undated_engagement (engagement_rows (committed (after r2)))
      /\ map undated_proposal (proposal_rows (committed (after r1)))
         = map undated_proposal (proposal_rows (committed (after r2)))).
Proof.
  apply (runs_differ_only_in_synthesized_dates
             no_text_floats six_scripts integer_literals unprinted_reals
             "legacy.db"
           (world_with (SqliteFile small_source))
           (later_world_with (SqliteFile small_source))).
  reflexivity.
Defined.

(** The two runs of X15 do differ: in the dates of the Engagement. *)
Example dates_differ_between_runs :
  let r1 := transfer_data no_text_floats six_scripts integer_literals unprinted_reals
             "legacy.db"
                          (new_session (world_with (SqliteFile small_source))) in
  let r2 := transfer_data no_text_floats six_scripts integer_literals unprinted_reals
             "legacy.db"
                          (new_session (later_world_with (SqliteFile small_source))) in
  map Engagement.start_date (engagement_rows (committed (after r1))) = [PyDate.Date 739042]
  /\ map Engagement.start_date (engagement_rows (committed (after r2))) = [PyDate.Date 739415].
Proof. vm_compute. split; reflexivity. Qed.

(** X16 at [small_source]. *)
Lemma log_of_a_completed_run_at_small_source :
  let r := transfer_data no_text_floats six_scripts integer_literals unprinted_reals
             "legacy.db" (world_with (SqliteFile small_source)) in
  exists tables,
    fs (world_with (SqliteFile small_source)) "legacy.db" = SqliteFile tables
    /\ (forall t, tables t <> None)
    /\ logged (events r) = success_log "legacy.db" (rows_in tables).
Proof.
  apply (log_of_a_completed_run no_text_floats six_scripts integer_literals unprinted_reals
             "legacy.db"
           (world_with (SqliteFile small_source))).
  vm_compute. reflexivity.
Defined.

(** X17 at [small_source]. *)
Lemma committed_descriptions_at_small_source :
  let r := transfer_data no_text_floats six_scripts integer_literals unprinted_reals "legacy.db"
                         (new_session (world_with (SqliteFile small_source))) in
  Forall (fun e => Engagement.description e = fake_description)
         (engagement_rows (committed (after r)))
  /\ Forall (fun p => Proposal.description p = fake_description)
            (proposal_rows (committed (after r))).
Proof.
  apply (committed_descriptions no_text_floats six_scripts integer_literals unprinted_reals
             "legacy.db"
           (world_with (SqliteFile small_source))).
  vm_compute. reflexivity.
Defined.

(** X19 at an upload called "..". *)
Lemma nameless_upload_is_a_server_error_at_dots :
  upload_file no_text_floats six_scripts integer_literals unprinted_reals
             "/srv/app" secure_plain_filename
              (post ".." (Flask.LegacyDatabase small_source)) (world_with Missing)
  = Flask.Served Flask.InternalServerError (world_with Missing) [].
Proof.
  apply (nameless_upload_is_a_server_error
             no_text_floats six_scripts integer_literals unprinted_reals
             "/srv/app" secure_plain_filename
           (post ".." (Flask.LegacyDatabase small_source))
           (Flask.File ".." (Flask.LegacyDatabase small_source)) (world_with Missing));
    first [reflexivity | discriminate].
Defined.

(** X21 at the upload of [small_source] and at that of a file that is no
    database: the path of the upload and the path "legacy.db". *)
Lemma upload_is_kept_at_small_source :
  let s := upload_file no_text_floats six_scripts integer_literals unprinted_reals
             "/srv/app" secure_plain_filename
                       (post "legacy.db" (Flask.LegacyDatabase small_source))
                       (world_with Missing) in
  fs (Flask.world_of s) "/srv/app/uploads/legacy.db" = SqliteFile small_source
  /\ fs (Flask.world_of s) "legacy.db" = Missing.
Proof.
  split.
  - apply (upload_is_kept no_text_floats six_scripts integer_literals unprinted_reals
             "/srv/app" secure_plain_filename
             (post "legacy.db" (Flask.LegacyDatabase small_source))
             (Flask.File "legacy.db" (Flask.LegacyDatabase small_source))
             (world_with Missing) eq_refl eq_refl ltac:(discriminate)
             ltac:(vm_compute; discriminate) "/srv/app/uploads/legacy.db").
  - apply (upload_is_kept no_text_floats six_scripts integer_literals unprinted_reals
             "/srv/app" secure_plain_filename
             (post "legacy.db" (Flask.LegacyDatabase small_source))
             (Flask.File "legacy.db" (Flask.LegacyDatabase small_source))
             (world_with Missing) eq_refl eq_refl ltac:(discriminate)
             ltac:(vm_compute; discriminate) "legacy.db").
Defined.

(** The upload of [small_source], served: the attachment holds the seven
    rows; a GET is answered with the form. *)
Example upload_of_small_source :
  let s := upload_file no_text_floats six_scripts integer_literals unprinted_reals
             "/srv/app" secure_plain_filename
                       (post "legacy.db" (Flask.LegacyDatabase small_source))
                       (world_with Missing) in
  Flask.reply_of s
  = Flask.Response (Flask.Attachment "new_database.db" (committed (Flask.world_of s)))
  /\ map (fun t => row_count t (committed (Flask.world_of s)))
         [staff; engagement; proposal; non_billable; hours_log; leave_record; utilization]
     = [1; 1; 1; 1; 1; 1; 1]%nat
  /\ Flask.reply_of (upload_file no_text_floats six_scripts integer_literals unprinted_reals
             "/srv/app" secure_plain_filename
                                 (Flask.Build_Request "GET" []) (world_with Missing))
     = Flask.Response (Flask.Template "upload.html").
Proof. vm_compute. repeat split. Qed.

(** X22 at [small_source]. *)
Lemma every_row_with_an_id_is_copied_at_small_source :
  let r := transfer_data no_text_floats six_scripts integer_literals unprinted_reals
                         "legacy.db" (new_session (world_with (SqliteFile small_source))) in
  exists tables,
    fs (world_with (SqliteFile small_source)) "legacy.db" = SqliteFile tables
    /\ forall t rows row id,
         tables t = Some rows -> In row rows ->
         nth_error row 0 = Some id -> id <> PyNone ->
         exists z o0 o,
           integer_affinity integer_literals id = PyInt z
           /\ filter (fun o' => value_eqb (key o') (PyInt z))
                     (rows_of t (committed (after r))) = [o]
           /\ built_from no_text_floats six_scripts row o0
           /\ undated o = with_key (PyInt z) (stored integer_literals unprinted_reals o0).
Proof.
  apply (every_row_with_an_id_is_copied
           no_text_floats six_scripts integer_literals unprinted_reals
           "legacy.db" (world_with (SqliteFile small_source))).
  vm_compute. reflexivity.
Defined.

(** X25 at [small_source] without its [hours_log] table. *)
Lemma missing_table_fails_run_at_hours_log :
  let w := world_with (SqliteFile source_without_hours_log) in
  let r := transfer_data no_text_floats six_scripts integer_literals unprinted_reals
             "legacy.db" (new_session w) in
  out r = Returned false /\ committed (after r) = committed w.
Proof.
  apply (missing_table_fails_run no_text_floats six_scripts integer_literals unprinted_reals
             "legacy.db"
           (world_with (SqliteFile source_without_hours_log))
           source_without_hours_log hours_log);
    reflexivity.
Defined.
